(** * resources/models.py: the resource dispatcher, embedded and verified

    The development follows the layout of the source file: the
    collaborators the dispatcher reads from ([Request]) and writes to
    ([Response]), the [Resource] class with its configuration attributes and
    overridable members, the metaclass that fixes [allowed_methods], and
    [process], the ordered chain of status checks. *)

From Stdlib Require Import ZArith QArith Lia Ascii String List Sorted Permutation.
From stdpp Require Import base strings list gmap.

Local Open Scope Z_scope.
Local Open Scope string_scope.
Local Open Scope list_scope.

(** ** Python strings *)

Module Py.

(** [str.lower] on ASCII text. *)
Definition lower_ascii (c : ascii) : ascii :=
  let n := nat_of_ascii c in
  if (65 <=? n)%nat && (n <=? 90)%nat then ascii_of_nat (n + 32) else c.

Fixpoint lower (s : string) : string :=
  match s with
  | EmptyString => EmptyString
  | String c s' => String (lower_ascii c) (lower s')
  end.

(** [sep.join(l)]. *)
Definition join (sep : string) (l : list string) : string := String.concat sep l.

(** [sorted(l)] on strings: code-point order, by insertion. *)
Fixpoint insert_sorted (x : string) (l : list string) : list string :=
  match l with
  | [] => [x]
  | y :: l' => if String.leb x y then x :: l else y :: insert_sorted x l'
  end.

Definition sorted (l : list string) : list string := foldr insert_sorted [] l.

(** The order [sorted] sorts by. *)
Definition le (a b : string) : Prop := String.leb a b = true.

(** [l.remove(x)]: drops the first occurrence only.  (Python raises when
    there is none; the one call in the source is guarded by [x in l].) *)
Fixpoint remove (x : string) (l : list string) : list string :=
  match l with
  | [] => []
  | y :: l' => if bool_decide (y = x) then l' else y :: remove x l'
  end.

(** Truth value of an optional integer: [None] and [0] are falsy. *)
Definition truthy (n : option Z) : bool :=
  match n with
  | Some k => negb (Z.eqb k 0)
  | None => false
  end.

(** [a > b] on optional integers; in Python 2 [None] sorts below every
    integer. *)
Definition gt (a b : option Z) : bool :=
  match a, b with
  | Some x, Some y => Z.ltb y x
  | Some _, None => true
  | None, _ => false
  end.

(** The double-quote character, for message texts. *)
Definition dquote : string := String (ascii_of_nat 34) EmptyString.

End Py.

(** ** resources/http.py

    Modelled from the spec: the constants of [resources/http.py], which the
    source imports as [codes] and [methods].  The status codes carry the
    numeric values of the HTTP specification and the methods their
    upper-case names. *)

Module codes.
Definition not_modified : Z := 304.
Definition unauthorized : Z := 401.
Definition forbidden : Z := 403.
Definition not_found : Z := 404.
Definition method_not_allowed : Z := 405.
Definition not_acceptable : Z := 406.
Definition gone : Z := 410.
Definition precondition_failed : Z := 412.
Definition request_entity_too_large : Z := 413.
Definition unsupported_media_type : Z := 415.
Definition precondition_required : Z := 428.
Definition too_many_requests : Z := 429.
Definition service_unavailable : Z := 503.
End codes.

Module methods.
Definition get : string := "GET".
Definition head : string := "HEAD".
Definition options : string := "OPTIONS".
Definition put : string := "PUT".
Definition patch : string := "PATCH".
End methods.

(** ** The transport collaborator (werkzeug) *)

(** An instant; only ever formatted, never compared. *)
Definition datetime : Type := Z.

(** What the dispatcher takes from its surroundings.
    [werkzeug.http.http_date] is the HTTP-date text of an instant; given
    [None] the library formats the current time.  [recursion_limit] is the
    number of calls of [process] from within [process] the interpreter
    allows before it raises [RuntimeError]. *)
Class HttpLib := {
  http_date : option datetime -> string;
  recursion_limit : nat;
}.

(** The parsed [Accept] header: media ranges with their quality, in the
    order the library resolves them. *)
Module Accept.

Definition t : Type := list (string * Q).

(** Modelled from the spec: the order of the parsed preference list,
    highest quality first, ties in listed order. *)
Fixpoint insert_by_quality (x : string * Q) (l : t) : t :=
  match l with
  | [] => [x]
  | y :: l' =>
      if Qle_bool (snd x) (snd y) then y :: insert_by_quality x l' else x :: l
  end.

Definition of_listed (listed : list (string * Q)) : t :=
  fold_left (fun acc x => insert_by_quality x acc) listed [].

(** [accept.values()]: the media ranges without their qualities. *)
Definition values (a : t) : list string := map fst a.

Fixpoint index_of_slash (s : string) : option nat :=
  match s with
  | EmptyString => None
  | String c s' =>
      if bool_decide (c = "/"%char) then Some 0%nat
      else S <$> index_of_slash s'
  end.

(** [x == '*' and ('*', '*') or x.split('/', 1)] after lower-casing; the
    callers have checked that a slash is there. *)
Definition _normalize (x : string) : string * string :=
  let x := Py.lower x in
  if bool_decide (x = "*") then ("*", "*")
  else match index_of_slash x with
       | Some i => (String.substring 0 i x,
                    String.substring (S i) (String.length x - S i) x)
       | None => (x, EmptyString)
       end.

(** [MIMEAccept._value_matches]: [value] is the media type the application
    asks about, [item] an entry of the client's list.  A full wildcard on
    either side matches.  (The library raises for a [value] that is not a
    media type; the source only ever asks about ['*/*'].) *)
Definition _value_matches (value item : string) : bool :=
  let '(value_type, value_subtype) := _normalize value in
  match index_of_slash item with
  | None => false
  | Some _ =>
      let '(item_type, item_subtype) := _normalize item in
      if bool_decide (item_type = "*") && negb (bool_decide (item_subtype = "*"))
      then false
      else
        (bool_decide (item_type = "*") && bool_decide (item_subtype = "*")
         || bool_decide (value_type = "*") && bool_decide (value_subtype = "*"))
        || bool_decide (item_type = value_type)
           && (bool_decide (item_subtype = "*")
               || bool_decide (value_subtype = "*")
               || bool_decide (item_subtype = value_subtype))
  end.

(** [accept[key]] for a string key: the quality of the first entry that
    matches, [0] when none does. *)
Fixpoint quality (a : t) (key : string) : Q :=
  match a with
  | [] => 0%Q
  | (item, q) :: a' => if _value_matches key item then q else quality a' key
  end.

End Accept.

(** The request as the dispatcher reads it.  Header names are
    case-insensitive; the map is keyed by the lower-case name, which is how
    the source spells every lookup. *)
Record Request := {
  method : string;
  headers : gmap string string;
  content_length : option Z;
  content_type : option string;
  mimetype : string;
  accept_mimetypes : Accept.t;
}.

Inductive HeaderValue :=
  | HStr (s : string)
  | HInt (n : Z).

(** A value a member hands back, and that [__call__] may store as the
    body: a text, the boolean of a check, an instant, or a response
    object with its status, headers, body and negotiated type. *)
Inductive Value :=
  | VStr (s : string)
  | VBool (b : bool)
  | VDatetime (d : datetime)
  | VResponse (status : Z) (headers : gmap string HeaderValue)
      (data : Value) (accept_type : option string).

Coercion VStr : string >-> Value.

(** The response under construction.  [_accept_type] is the negotiated
    output media type. *)
Record Response := {
  status : Z;
  response_headers : gmap string HeaderValue;
  data : Value;
  _accept_type : option string;
}.

(** A response handed back as a value. *)
Definition as_value (r : Response) : Value :=
  VResponse (status r) (response_headers r) (data r) (_accept_type r).

(** [Response()]: status 200, an empty body, nothing negotiated yet. *)
Definition Response_new : Response :=
  {| status := 200;
     response_headers := {[ "Content-Type" := HStr "text/plain; charset=utf-8" ]};
     data := EmptyString;
     _accept_type := None |}.

(** ** What a run of the dispatcher evaluates

    The status checks of [process], in the order of the source, and the
    members of the resource it calls.  The trace is ghost state: [process]
    appends to it and nothing reads it. *)

Inductive Check :=
  | C503 | C401 | C403 | C429 | C415 | C413 | C405 | C406 | C404 | C410
  | C428 | C412 | C304_none_match | C304_modified_since.

Inductive Member_name :=
  | M_options
  | M_handler (name : string)
  | M_content_type_supported
  | M_content_encoding_supported
  | M_content_language_supported
  | M_accept_type_supported
  | M_accept_language_supported
  | M_accept_charset_supported
  | M_accept_encoding_supported
  | M_get_etag
  | M_get_last_modified.

Inductive Event :=
  | Checked (c : Check) (failed : bool)
  | Called (m : Member_name).

(** The status code a failing check sets. *)
Definition code (c : Check) : Z :=
  match c with
  | C503 => codes.service_unavailable
  | C401 => codes.unauthorized
  | C403 => codes.forbidden
  | C429 => codes.too_many_requests
  | C415 => codes.unsupported_media_type
  | C413 => codes.request_entity_too_large
  | C405 => codes.method_not_allowed
  | C406 => codes.not_acceptable
  | C404 => codes.not_found
  | C410 => codes.gone
  | C428 => codes.precondition_required
  | C412 => codes.precondition_failed
  | C304_none_match | C304_modified_since => codes.not_modified
  end.

(** ** The monad of a method body

    A method mutates the response, may leave [process] early with an output
    ([return]), and may raise. *)

Inductive Exn :=
  | AttributeError (name : string)
  | TypeError (name : string)
  | ValueError (method_name : string)
  | RuntimeError.

(** What a handler returns: a value, or [None]. *)
Definition Output : Type := option Value.

Inductive Res (A : Type) :=
  | Next (a : A)
  | Returned (o : Output)
  | Raised (e : Exn).
Arguments Next {A} a.
Arguments Returned {A} o.
Arguments Raised {A} e.

Record State := { resp : Response; trace : list Event }.

Definition M (A : Type) : Type := State -> Res A * State.

Definition ret {A} (a : A) : M A := fun s => (Next a, s).

Definition bind {A B} (m : M A) (f : A -> M B) : M B := fun s =>
  match m s with
  | (Next a, s') => f a s'
  | (Returned o, s') => (Returned o, s')
  | (Raised e, s') => (Raised e, s')
  end.

Declare Scope M_scope.
Delimit Scope M_scope with M.
Bind Scope M_scope with M.
Notation "x ← m ; k" := (bind m (fun x => k))
  (at level 20, m at level 100, k at level 200, only parsing) : M_scope.
Notation "m ;; k" := (bind m (fun _ => k))
  (at level 100, k at level 200, only parsing, right associativity) : M_scope.
Local Open Scope M_scope.

Definition return_ {A} (o : Output) : M A := fun s => (Returned o, s).
Definition raise {A} (e : Exn) : M A := fun s => (Raised e, s).

Definition log (e : Event) : M unit :=
  fun s => (Next (), {| resp := resp s; trace := trace s ++ [e] |}).

Definition modify (f : Response -> Response) : M unit :=
  fun s => (Next (), {| resp := f (resp s); trace := trace s |}).

Definition with_status (c : Z) (r : Response) : Response :=
  {| status := c; response_headers := response_headers r;
     data := data r; _accept_type := _accept_type r |}.

Definition with_header (k : string) (v : HeaderValue) (r : Response)
    : Response :=
  {| status := status r; response_headers := <[k := v]> (response_headers r);
     data := data r; _accept_type := _accept_type r |}.

Definition with_data (d : Value) (r : Response) : Response :=
  {| status := status r; response_headers := response_headers r;
     data := d; _accept_type := _accept_type r |}.

Definition with_accept_type (t : string) (r : Response) : Response :=
  {| status := status r; response_headers := response_headers r;
     data := data r; _accept_type := Some t |}.

Definition set_status (c : Z) : M unit := modify (with_status c).
Definition set_header (k : string) (v : HeaderValue) : M unit :=
  modify (with_header k v).
Definition set_data (d : Value) : M unit := modify (with_data d).
Definition set_accept_type (t : string) : M unit :=
  modify (with_accept_type t).

(** A member a subclass supplies: it reads the request and may mutate the
    response.  It always answers; what a member that raises leads to is
    left to the server around the dispatcher. *)
Definition Hook (A : Type) : Type := Request -> Response -> A * Response.

Definition hook {A} (f : Hook A) (req : Request) : M A :=
  fun s => let '(a, r') := f req (resp s) in
           (Next a, {| resp := r'; trace := trace s |}).

(** Calling member [m] of the resource. *)
Definition called {A} (m : Member_name) (body : M A) : M A :=
  log (Called m) ;; body.

(** Evaluating status check [c]. *)
Definition checked (c : Check) (body : M bool) : M bool :=
  b ← body; log (Checked c b) ;; ret b.

(** The value a function call yields to its caller: falling off the end
    returns [None]. *)
Definition run_function (body : M unit) (s : State) : (Exn + Output) * State :=
  match body s with
  | (Next _, s') => (inr None, s')
  | (Returned o, s') => (inr o, s')
  | (Raised e, s') => (inl e, s')
  end.

(** The value of a call of a function with this body, seen from the
    caller. *)
Definition call_function (body : M unit) : M Output := fun s =>
  match body s with
  | (Next _, s') => (Next None, s')
  | (Returned o, s') => (Next o, s')
  | (Raised e, s') => (Raised e, s')
  end.

(** What happens inside a handler is not part of the trace: the trace is
    that of one pass of [process] through its own checks. *)
Definition untraced {A} (m : M A) : M A := fun s =>
  let '(res, s') := m {| resp := resp s; trace := [] |} in
  (res, {| resp := resp s'; trace := trace s |}).

(** Running [m] on a response of its own, [Response()]; the response at
    hand stays as it is. *)
Definition on_new_response {A} (m : M A) : M (A * Response) := fun s =>
  match m {| resp := Response_new; trace := [] |} with
  | (Next a, s') => (Next (a, resp s'), s)
  | (Returned o, _) => (Returned o, s)
  | (Raised e, _) => (Raised e, s)
  end.

(** ** The Resource class *)

(** [unavailable]: a boolean, a number of seconds, or an instant. *)
Inductive Unavailable :=
  | UBool (b : bool)
  | UInt (n : Z)
  | UDatetime (d : datetime).

Definition Handler : Type := Hook Output.

(** The callables [Resource] defines besides [head] and [options]; a
    class has them all as attributes, and [getattr] finds them like any
    handler. *)
Inductive Base_member :=
  | B_metaclass
  | B_call
  | B_apply
  | B_process
  | B_check_service_unavailable
  | B_check_unauthorized
  | B_check_forbidden
  | B_check_too_many_requests
  | B_check_request_entity_too_large
  | B_check_method_not_allowed
  | B_check_unsupported_media_type
  | B_check_not_acceptable
  | B_check_precondition_required
  | B_check_precondition_failed
  | B_check_not_found
  | B_check_gone
  | B_accept_type_supported
  | B_accept_charset_supported
  | B_accept_encoding_supported
  | B_accept_language_supported
  | B_get_etag
  | B_get_last_modified
  | B_get_expiry
  | B_content_type_supported
  | B_content_encoding_supported
  | B_content_language_supported.

(** An attribute found under a name: a method a subclass defines, one of
    the two handlers [Resource] itself defines, another callable of
    [Resource], or a value that is not callable. *)
Inductive Member :=
  | Method (h : Handler)
  | Default_head
  | Default_options
  | Inherited (b : Base_member)
  | Data.

(** A resource class (and its one stateless instance).  The configuration
    attributes come first; a tuple attribute left at [None] is the empty
    list, as the source only tests it for truth.  Then the members the base
    class defines as no-ops for subclasses to override, and [members], the
    attributes a subclass defines under method names; the other methods of
    [Resource] are as the base class defines them. *)
Record Resource := {
  unavailable : Unavailable;
  allowed_methods : list string;
  rate_limit_count : option Z;
  rate_limit_seconds : option Z;
  max_request_entity_length : option Z;
  require_conditional_request : bool;
  use_etags : bool;
  use_last_modified : bool;
  supported_accept_types : list string;
  supported_content_types : list string;
  supported_patch_types : list string;
  check_unauthorized : Hook bool;
  check_forbidden : Hook bool;
  check_too_many_requests : Hook bool;
  check_not_found : Hook bool;
  check_gone : Hook bool;
  accept_charset_supported : Hook bool;
  accept_encoding_supported : Hook bool;
  accept_language_supported : Hook bool;
  content_encoding_supported : Hook bool;
  content_language_supported : Hook bool;
  get_etag : Request -> option string;
  get_last_modified : Request -> option datetime;
  members : gmap string Member;
}.

(** The class body of [Resource], name by name in the order of the
    source: the configuration values, which are not callable, and the
    methods.  (The attributes Python itself gives every object are not part
    of the source file and are not listed.) *)
Definition Resource_attributes : list (string * Member) :=
  [("__metaclass__", Inherited B_metaclass);
   ("unavailable", Data);
   ("allowed_methods", Data);
   ("rate_limit_count", Data);
   ("rate_limit_seconds", Data);
   ("max_request_entity_length", Data);
   ("require_conditional_request", Data);
   ("use_etags", Data);
   ("use_last_modified", Data);
   ("supported_accept_types", Data);
   ("supported_content_types", Data);
   ("supported_patch_types", Data);
   ("__call__", Inherited B_call);
   ("apply", Inherited B_apply);
   ("process", Inherited B_process);
   ("head", Default_head);
   ("options", Default_options);
   ("check_service_unavailable", Inherited B_check_service_unavailable);
   ("check_unauthorized", Inherited B_check_unauthorized);
   ("check_forbidden", Inherited B_check_forbidden);
   ("check_too_many_requests", Inherited B_check_too_many_requests);
   ("check_request_entity_too_large",
    Inherited B_check_request_entity_too_large);
   ("check_method_not_allowed", Inherited B_check_method_not_allowed);
   ("check_unsupported_media_type",
    Inherited B_check_unsupported_media_type);
   ("check_not_acceptable", Inherited B_check_not_acceptable);
   ("check_precondition_required", Inherited B_check_precondition_required);
   ("check_precondition_failed", Inherited B_check_precondition_failed);
   ("check_not_found", Inherited B_check_not_found);
   ("check_gone", Inherited B_check_gone);
   ("accept_type_supported", Inherited B_accept_type_supported);
   ("accept_charset_supported", Inherited B_accept_charset_supported);
   ("accept_encoding_supported", Inherited B_accept_encoding_supported);
   ("accept_language_supported", Inherited B_accept_language_supported);
   ("get_etag", Inherited B_get_etag);
   ("get_last_modified", Inherited B_get_last_modified);
   ("get_expiry", Inherited B_get_expiry);
   ("content_type_supported", Inherited B_content_type_supported);
   ("content_encoding_supported", Inherited B_content_encoding_supported);
   ("content_language_supported", Inherited B_content_language_supported)].

(** The attribute [Resource] itself has under [name], if any. *)
Definition Resource_attribute (name : string) : option Member :=
  snd <$> List.find (fun entry => bool_decide (fst entry = name))
            Resource_attributes.

(** [getattr(x, name, None)]: the subclass's attribute, else the one
    inherited from [Resource]. *)
Definition getattr (x : Resource) (name : string) : option Member :=
  match members x !! name with
  | Some m => Some m
  | None => Resource_attribute name
  end.

Definition callable (m : option Member) : bool :=
  match m with
  | Some (Method _) | Some Default_head | Some Default_options
  | Some (Inherited _) => true
  | Some Data | None => false
  end.

(** [usable = lambda x, y: callable(getattr(x, y, None))] *)
Definition usable (x : Resource) (y : string) : bool := callable (getattr x y).

(** ** ResourceMetaclass *)

Definition with_class_attributes
    (allowed content patch : list string) (c : Resource) : Resource :=
  {| unavailable := unavailable c;
     allowed_methods := allowed;
     rate_limit_count := rate_limit_count c;
     rate_limit_seconds := rate_limit_seconds c;
     max_request_entity_length := max_request_entity_length c;
     require_conditional_request := require_conditional_request c;
     use_etags := use_etags c;
     use_last_modified := use_last_modified c;
     supported_accept_types := supported_accept_types c;
     supported_content_types := content;
     supported_patch_types := patch;
     check_unauthorized := check_unauthorized c;
     check_forbidden := check_forbidden c;
     check_too_many_requests := check_too_many_requests c;
     check_not_found := check_not_found c;
     check_gone := check_gone c;
     accept_charset_supported := accept_charset_supported c;
     accept_encoding_supported := accept_encoding_supported c;
     accept_language_supported := accept_language_supported c;
     content_encoding_supported := content_encoding_supported c;
     content_language_supported := content_language_supported c;
     get_etag := get_etag c;
     get_last_modified := get_last_modified c;
     members := members c |}.

Module ResourceMetaclass.

(** The first branch: every method of [methods] the class can handle. *)
Definition implicit_methods (methods : list string) (new_cls : Resource)
    : list string :=
  List.filter (fun method => usable new_cls (Py.lower method)) methods.

(** The second branch: the declared list, or the first of its methods that
    has no callable handler. *)
Definition explicit_methods (new_cls : Resource) : Exn + list string :=
  let allowed_methods := allowed_methods new_cls in
  match List.find (fun method => negb (usable new_cls (Py.lower method)))
                  allowed_methods with
  | Some method => inl (ValueError method)
  | None => inr allowed_methods
  end.

(** If [GET] is not allowed, remove the [HEAD] method. *)
Definition remove_head (allowed_methods : list string) : list string :=
  if negb (bool_decide ("GET" ∈ allowed_methods))
     && bool_decide ("HEAD" ∈ allowed_methods)
  then Py.remove "HEAD" allowed_methods
  else allowed_methods.

(** [__new__(cls, name, bases, attrs)].  [methods] is the iterable of
    [resources/http.py], [in_attrs] tells whether [attrs] has the key
    ['allowed_methods'], and [new_cls] is the class as [type.__new__] made
    it, attributes resolved through its bases. *)
Definition __new__ (methods : list string) (in_attrs : bool)
    (new_cls : Resource) : Exn + Resource :=
  let chosen :=
    if negb in_attrs || bool_decide (allowed_methods new_cls = [])
    then inr (implicit_methods methods new_cls)
    else explicit_methods new_cls in
  match chosen with
  | inl e => inl e
  | inr allowed_methods =>
      let allowed_methods := remove_head allowed_methods in
      let content :=
        if bool_decide (supported_content_types new_cls = [])
        then supported_accept_types new_cls
        else supported_content_types new_cls in
      let patch :=
        if bool_decide (supported_patch_types new_cls = [])
        then content
        else supported_patch_types new_cls in
      inr (with_class_attributes allowed_methods content patch new_cls)
  end.

End ResourceMetaclass.

(** ** The methods of Resource *)

Section Methods.
Context `{HttpLib}.

Definition has_header (req : Request) (k : string) : bool :=
  bool_decide (is_Some (headers req !! k)).

(** [request.headers[k] == v], where [v] may be [None]. *)
Definition header_is (req : Request) (k : string) (v : option string) : bool :=
  match headers req !! k with
  | Some x => bool_decide (v = Some x)
  | None => false
  end.

Definition string_truthy (s : option string) : bool :=
  match s with
  | Some x => negb (bool_decide (x = EmptyString))
  | None => false
  end.

Definition unavailable_truthy (u : Unavailable) : bool :=
  match u with
  | UBool b => b
  | UInt n => negb (Z.eqb n 0)
  | UDatetime _ => true
  end.

Definition header_value_truthy (v : option HeaderValue) : bool :=
  match v with
  | Some (HInt n) => negb (Z.eqb n 0)
  | Some (HStr x) => negb (bool_decide (x = EmptyString))
  | None => false
  end.

(** *** Request method handlers *)

Definition no_cache : HeaderValue := HStr "no-cache".

Definition options (self : Resource) (req : Request) : M Output :=
  (if bool_decide ("PATCH" ∈ allowed_methods self)
   then set_header "Accept-Patch"
          (HStr (Py.join ", " (supported_patch_types self)))
   else ret ()) ;;
  set_header "Allow" (HStr (Py.join ", " (Py.sorted (allowed_methods self)))) ;;
  set_header "Content-Length" (HInt 0) ;;
  set_header "Cache-Control" no_cache ;;
  set_header "Pragma" no_cache ;;
  ret None.

(** *** Response status code handlers *)

Definition check_service_unavailable (self : Resource) (req : Request)
    : M bool :=
  if unavailable_truthy (unavailable self) then
    let retry :=
      match unavailable self with
      | UInt n => if Z.ltb 0 n then Some (HInt n) else None
      | UDatetime d => Some (HStr (http_date (Some d)))
      | UBool _ => None
      end in
    match retry with
    | Some v =>
        if header_value_truthy retry then set_header "Retry-After" v
        else ret ()
    | None => ret ()
    end ;;
    ret true
  else ret false.

Definition check_request_entity_too_large (self : Resource) (req : Request)
    : M bool :=
  ret (Py.gt (content_length req) (max_request_entity_length self)).

Definition check_method_not_allowed (self : Resource) (req : Request)
    : M bool :=
  if negb (bool_decide (method req ∈ allowed_methods self)) then
    set_header "Allow"
      (HStr (Py.join ", " (Py.sorted (allowed_methods self)))) ;;
    ret true
  else ret false.

Definition content_type_supported (self : Resource) (req : Request) : M bool :=
  ret (bool_decide (mimetype req ∈ supported_content_types self)).

(** One of the optional sub-checks: skipped unless the header is there,
    and failing when the member answers no. *)
Definition unless_supported (req : Request) (header : string)
    (m : Member_name) (supported : Hook bool) : M bool :=
  if has_header req header then
    ok ← called m (hook supported req); ret (negb ok)
  else ret false.

Definition check_unsupported_media_type (self : Resource) (req : Request)
    : M bool :=
  if has_header req "content-type" && string_truthy (content_type req) then
    ok ← called M_content_type_supported (content_type_supported self req);
    if negb ok then ret true else
    bad ← unless_supported req "content-encoding"
            M_content_encoding_supported (content_encoding_supported self);
    if bad then ret true else
    bad ← unless_supported req "content-language"
            M_content_language_supported (content_language_supported self);
    if bad then ret true else
    ret false
  else ret false.

Definition accept_type_supported (self : Resource) (req : Request) : M bool :=
  let default :=
    match supported_accept_types self with
    | first :: _ => set_accept_type first
    | [] => ret ()
    end ;;
    ret true in
  if has_header req "accept" then
    match List.find (fun mime => bool_decide (mime ∈ supported_accept_types self))
                    (Accept.values (accept_mimetypes req)) with
    | Some mime => set_accept_type mime ;; ret true
    | None =>
        if negb (Qeq_bool (Accept.quality (accept_mimetypes req) "*/*") 0)
        then ret false
        else default
    end
  else default.

Definition check_not_acceptable (self : Resource) (req : Request) : M bool :=
  ok ← called M_accept_type_supported (accept_type_supported self req);
  if negb ok then ret true else
  bad ← unless_supported req "accept-language"
          M_accept_language_supported (accept_language_supported self);
  if bad then ret true else
  bad ← unless_supported req "accept-charset"
          M_accept_charset_supported (accept_charset_supported self);
  if bad then ret true else
  bad ← unless_supported req "accept-encoding"
          M_accept_encoding_supported (accept_encoding_supported self);
  if bad then ret true else
  ret false.

Definition try_using (header : string) : string :=
  "This request is required to be conditional; try using "
  ++ Py.dquote ++ header ++ Py.dquote.

Definition check_precondition_required (self : Resource) (req : Request)
    : M bool :=
  if use_etags self && negb (has_header req "if-match") then
    set_data (try_using "If-Match") ;; ret true
  else if use_last_modified self
          && negb (has_header req "if-unmodified-since") then
    set_data (try_using "If-Unmodified-Since") ;; ret true
  else ret false.

Definition check_precondition_failed (self : Resource) (req : Request)
    : M bool :=
  bad ← (if use_etags self && has_header req "if-match" then
           etag ← called M_get_etag (ret (get_etag self req));
           ret (negb (header_is req "if-match" etag))
         else ret false);
  if bad then ret true else
  bad ← (if use_last_modified self && has_header req "if-unmodified-since" then
           last_modified ← called M_get_last_modified
                             (ret (get_last_modified self req));
           ret (negb (header_is req "if-unmodified-since"
                         (Some (http_date last_modified))))
         else ret false);
  if bad then ret true else
  ret false.

End Methods.

(** ** process

    Each block below is one commented section of [Resource.process]; a
    failing check sets the status and returns. *)

Section Process.
Context `{HttpLib}.

Definition is_method (req : Request) (m : string) : bool :=
  bool_decide (method req = m).

(** 503 Service Unavailable *)
Definition process_service_unavailable (self : Resource) (req : Request)
    : M unit :=
  failed ← checked C503 (check_service_unavailable self req);
  if failed then set_status codes.service_unavailable ;; return_ None
  else ret ().

(** 401 Unauthorized *)
Definition process_unauthorized (self : Resource) (req : Request) : M unit :=
  failed ← checked C401 (hook (check_unauthorized self) req);
  if failed then set_status codes.unauthorized ;; return_ None
  else ret ().

(** 403 Forbidden *)
Definition process_forbidden (self : Resource) (req : Request) : M unit :=
  failed ← checked C403 (hook (check_forbidden self) req);
  if failed then set_status codes.forbidden ;; return_ None
  else ret ().

(** 429 Too Many Requests *)
Definition process_too_many_requests (self : Resource) (req : Request)
    : M unit :=
  if Py.truthy (rate_limit_count self) && Py.truthy (rate_limit_seconds self)
  then
    failed ← checked C429 (hook (check_too_many_requests self) req);
    if failed then set_status codes.too_many_requests ;; return_ None
    else ret ()
  else ret ().

(** Request entity checks: 415 Unsupported Media Type, 413 Request Entity
    Too Large *)
Definition process_request_entity (self : Resource) (req : Request) : M unit :=
  if Py.truthy (content_length req) then
    failed ← checked C415 (check_unsupported_media_type self req);
    if failed then set_status codes.unsupported_media_type ;; return_ None
    else
      if Py.truthy (max_request_entity_length self) then
        failed ← checked C413 (check_request_entity_too_large self req);
        if failed then
          set_status codes.request_entity_too_large ;; return_ None
        else ret ()
      else ret ()
  else ret ().

(** 405 Method Not Allowed *)
Definition process_method_not_allowed (self : Resource) (req : Request)
    : M unit :=
  failed ← checked C405 (check_method_not_allowed self req);
  if failed then set_status codes.method_not_allowed ;; return_ None
  else ret ().

(** 406 Not Acceptable *)
Definition process_not_acceptable (self : Resource) (req : Request)
    : M unit :=
  failed ← checked C406 (check_not_acceptable self req);
  if failed then set_status codes.not_acceptable ;; return_ None
  else ret ().

(** 404 Not Found *)
Definition process_not_found (self : Resource) (req : Request) : M unit :=
  failed ← checked C404 (hook (check_not_found self) req);
  if failed then set_status codes.not_found ;; return_ None
  else ret ().

(** 410 Gone *)
Definition process_gone (self : Resource) (req : Request) : M unit :=
  failed ← checked C410 (hook (check_gone self) req);
  if failed then set_status codes.gone ;; return_ None
  else ret ().

(** 428 Precondition Required *)
Definition process_precondition_required (self : Resource) (req : Request)
    : M unit :=
  if require_conditional_request self then
    if is_method req methods.put || is_method req methods.patch then
      failed ← checked C428 (check_precondition_required self req);
      if failed then
        set_header "Cache-Control" no_cache ;;
        set_header "Pragma" no_cache ;;
        set_status codes.precondition_required ;;
        return_ None
      else ret ()
    else ret ()
  else ret ().

(** 412 Precondition Failed *)
Definition process_precondition_failed (self : Resource) (req : Request)
    : M unit :=
  if is_method req methods.put || is_method req methods.patch then
    failed ← checked C412 (check_precondition_failed self req);
    if failed then set_status codes.precondition_failed ;; return_ None
    else ret ()
  else ret ().

(** Check for conditional GET or HEAD request *)
Definition process_conditional_get (self : Resource) (req : Request)
    : M unit :=
  if is_method req methods.get || is_method req methods.head then
    (if use_etags self && has_header req "if-none-match" then
       same ← checked C304_none_match
                (etag ← called M_get_etag (ret (get_etag self req));
                 ret (header_is req "if-none-match" etag));
       if same then set_status codes.not_modified ;; return_ None
       else ret ()
     else ret ()) ;;
    (if use_last_modified self && has_header req "if-modified-since" then
       same ← checked C304_modified_since
                (modified ← called M_get_last_modified
                              (ret (get_last_modified self req));
                 let last_modified := http_date modified in
                 ret (header_is req "if-modified-since" (Some last_modified)));
       if same then set_status codes.not_modified ;; return_ None
       else ret ()
     else ret ())
  else ret ().

(** *** Calling a member

    [process] calls the OPTIONS handler and the handler of the request
    method; the default [head] calls [get].  What [getattr] finds may be any
    callable of the class, [process] itself among them, so the definitions
    of this section are stated for a given [below]: what
    [self.process(request, response)] does when a handler calls it. *)

Section Calls.
Variable below : Resource -> Request -> M unit.

(** [self.__call__(request, response)]: a new response is made and
    processed, and handed back as the value; the response at hand is passed
    on as an extra argument and not touched. *)
Definition call_again (self : Resource) (req : Request) : M Output :=
  answered ← on_new_response (call_function (below self req));
  let response :=
    match fst answered with
    | Some output => with_data output (snd answered)
    | None => snd answered
    end in
  ret (Some (as_value response)).

(** Calling one of the other callables of [Resource] with
    [(request, response)]. *)
Definition inherited_in (self : Resource) (b : Base_member) (req : Request)
    : M Output :=
  untraced
    match b with
    | B_metaclass => raise (TypeError "__metaclass__")
    | B_call => call_again self req
    | B_apply => ret None
    | B_process => call_function (below self req)
    | B_check_service_unavailable =>
        failed ← check_service_unavailable self req; ret (Some (VBool failed))
    | B_check_unauthorized =>
        failed ← hook (check_unauthorized self) req; ret (Some (VBool failed))
    | B_check_forbidden =>
        failed ← hook (check_forbidden self) req; ret (Some (VBool failed))
    | B_check_too_many_requests =>
        failed ← hook (check_too_many_requests self) req;
        ret (Some (VBool failed))
    | B_check_request_entity_too_large =>
        failed ← check_request_entity_too_large self req;
        ret (if failed then Some (VBool true) else None)
    | B_check_method_not_allowed =>
        failed ← check_method_not_allowed self req; ret (Some (VBool failed))
    | B_check_unsupported_media_type =>
        failed ← check_unsupported_media_type self req;
        ret (Some (VBool failed))
    | B_check_not_acceptable =>
        failed ← check_not_acceptable self req; ret (Some (VBool failed))
    | B_check_precondition_required =>
        failed ← check_precondition_required self req;
        ret (Some (VBool failed))
    | B_check_precondition_failed =>
        failed ← check_precondition_failed self req; ret (Some (VBool failed))
    | B_check_not_found =>
        failed ← hook (check_not_found self) req; ret (Some (VBool failed))
    | B_check_gone =>
        failed ← hook (check_gone self) req; ret (Some (VBool failed))
    | B_accept_type_supported =>
        ok ← accept_type_supported self req; ret (Some (VBool ok))
    | B_accept_charset_supported =>
        ok ← hook (accept_charset_supported self) req; ret (Some (VBool ok))
    | B_accept_encoding_supported =>
        ok ← hook (accept_encoding_supported self) req; ret (Some (VBool ok))
    | B_accept_language_supported =>
        ok ← hook (accept_language_supported self) req; ret (Some (VBool ok))
    | B_get_etag => ret (VStr <$> get_etag self req)
    | B_get_last_modified => ret (VDatetime <$> get_last_modified self req)
    | B_get_expiry => ret None
    | B_content_type_supported =>
        ok ← content_type_supported self req; ret (Some (VBool ok))
    | B_content_encoding_supported =>
        ok ← hook (content_encoding_supported self) req; ret (Some (VBool ok))
    | B_content_language_supported =>
        ok ← hook (content_language_supported self) req; ret (Some (VBool ok))
    end.

(** [head] calls [self.get] and empties the body.  A [get] that is the
    inherited [head] itself would recurse without end. *)
Definition head_in (self : Resource) (req : Request) : M Output :=
  match getattr self "get" with
  | None => raise (AttributeError "get")
  | Some Data => raise (TypeError "get")
  | Some Default_head => raise RuntimeError
  | Some Default_options => options self req
  | Some (Inherited b) => inherited_in self b req
  | Some (Method get) => hook get req
  end ;;
  set_data EmptyString ;;
  ret None.

(** Calling what [getattr(self, name)] found. *)
Definition call_member_in (self : Resource) (name : string) (m : Member)
    (req : Request) : M Output :=
  match m with
  | Method h => hook h req
  | Default_head => head_in self req
  | Default_options => options self req
  | Inherited b => inherited_in self b req
  | Data => raise (TypeError name)
  end.

(** Process an OPTIONS request *)
Definition process_options_in (self : Resource) (req : Request) : M unit :=
  if is_method req methods.options
     && bool_decide ("OPTIONS" ∈ allowed_methods self)
  then
    match getattr self "options" with
    | Some m =>
        output ← called M_options (call_member_in self "options" m req);
        return_ output
    | None => raise (AttributeError "options")
    end
  else ret ().

(** Call request method handler *)
Definition process_handler_in (self : Resource) (req : Request) : M unit :=
  let name := Py.lower (method req) in
  match getattr self name with
  | Some m =>
      handler_output ← called (M_handler name)
                         (call_member_in self name m req);
      return_ handler_output
  | None => raise (AttributeError name)
  end.

Definition process_body_in (self : Resource) (req : Request) : M unit :=
  process_service_unavailable self req ;;
  process_unauthorized self req ;;
  process_forbidden self req ;;
  process_too_many_requests self req ;;
  process_options_in self req ;;
  process_request_entity self req ;;
  process_method_not_allowed self req ;;
  process_not_acceptable self req ;;
  process_not_found self req ;;
  process_gone self req ;;
  process_precondition_required self req ;;
  process_precondition_failed self req ;;
  process_conditional_get self req ;;
  process_handler_in self req.

End Calls.

(** [process] called from a handler when the interpreter allows [depth]
    more such calls: at the limit the call raises, otherwise the body runs,
    one call nearer to the limit. *)
Fixpoint process_below (depth : nat) : Resource -> Request -> M unit :=
  match depth with
  | O => fun _ _ => raise RuntimeError
  | S depth' => process_body_in (process_below depth')
  end.

(** The members as a request from outside meets them. *)
Definition inherited (self : Resource) (b : Base_member) (req : Request)
    : M Output :=
  inherited_in (process_below recursion_limit) self b req.

Definition head (self : Resource) (req : Request) : M Output :=
  head_in (process_below recursion_limit) self req.

Definition call_member (self : Resource) (name : string) (m : Member)
    (req : Request) : M Output :=
  call_member_in (process_below recursion_limit) self name m req.

Definition process_options (self : Resource) (req : Request) : M unit :=
  process_options_in (process_below recursion_limit) self req.

Definition process_handler (self : Resource) (req : Request) : M unit :=
  process_handler_in (process_below recursion_limit) self req.

Definition process_body (self : Resource) (req : Request) : M unit :=
  process_body_in (process_below recursion_limit) self req.

Definition process (self : Resource) (req : Request) (s : State)
    : (Exn + Output) * State :=
  run_function (process_body self req) s.

(** [__call__]: a new response for this request, the body set to what
    [process] returns unless that is [None]. *)
Definition __call__ (self : Resource) (req : Request) : Exn + Response :=
  let response := Response_new in
  match process self req {| resp := response; trace := [] |} with
  | (inr (Some output), s) => inr (with_data output (resp s))
  | (inr None, s) => inr (resp s)
  | (inl e, _) => inl e
  end.

End Process.

(** ** The base class

    The attribute defaults and the no-op members of [Resource] as the class
    body writes them. *)

Definition answer {A} (a : A) : Hook A := fun _ response => (a, response).

Definition Resource_body : Resource :=
  {| unavailable := UBool false;
     allowed_methods := [];
     rate_limit_count := None;
     rate_limit_seconds := Some (60 * 60);
     max_request_entity_length := None;
     require_conditional_request := false;
     use_etags := true;
     use_last_modified := false;
     supported_accept_types := ["application/json"];
     supported_content_types := [];
     supported_patch_types := [];
     check_unauthorized := answer false;
     check_forbidden := answer false;
     check_too_many_requests := answer false;
     check_not_found := answer false;
     check_gone := answer false;
     accept_charset_supported := answer true;
     accept_encoding_supported := answer true;
     accept_language_supported := answer true;
     content_encoding_supported := answer true;
     content_language_supported := answer true;
     get_etag := fun _ => None;
     get_last_modified := fun _ => None;
     members := ∅ |}.

(** ** Observing a run *)

(** The stages of [process]: the status checks, the OPTIONS short-circuit
    and the call of the method handler. *)
Inductive Stage :=
  | At (c : Check)
  | At_options
  | At_handler.

(** The order in which [process] lists its stages. *)
Definition pipeline : list Stage :=
  [At C503; At C401; At C403; At C429; At_options; At C415; At C413;
   At C405; At C406; At C404; At C410; At C428; At C412;
   At C304_none_match; At C304_modified_since; At_handler].

(** The stage an event belongs to; calls of other members happen inside a
    check and have none. *)
Definition stage_of (e : Event) : option Stage :=
  match e with
  | Checked c _ => Some (At c)
  | Called M_options => Some At_options
  | Called (M_handler _) => Some At_handler
  | Called _ => None
  end.

(** The events that end a run: a failing check, and the two handler calls. *)
Definition terminal (e : Event) : Prop :=
  match e with
  | Checked _ failed => failed = true
  | Called M_options | Called (M_handler _) => True
  | Called _ => False
  end.

(** An event inside a check: it belongs to no stage of its own. *)
Definition silent (e : Event) : Prop := stage_of e = None.

(** Every event a run of [m] appends satisfies [P]. *)
Definition emits {A} (m : M A) (P : Event -> Prop) : Prop :=
  forall s res s', m s = (res, s') ->
    exists evs, trace s' = trace s ++ evs /\ Forall P evs.

(** [m] never returns from [process]: it yields a value or raises. *)
Definition stays {A} (m : M A) : Prop :=
  forall s res s', m s = (res, s') -> forall o, res <> Returned o.

(** A run of [m] appends events of the stages [seg] only, each at most once
    and in that order; a terminal event is the last one; a failing check
    leaves its code in the status and returns [None]; and a run that goes
    on to the next block has seen no terminal event. *)
Definition stage_ok (seg : list Stage) (m : M unit) : Prop :=
  forall s res s', m s = (res, s') ->
    exists evs,
      trace s' = trace s ++ evs
      /\ omap stage_of evs `sublist_of` seg
      /\ (forall e, e ∈ evs -> terminal e -> last evs = Some e)
      /\ (forall c, Checked c true ∈ evs ->
            status (resp s') = code c /\ res = Returned None)
      /\ (res = Next () -> forall e, e ∈ evs -> ~ terminal e).

(** The guard the source puts before a stage: whether a run that gets as
    far as the stage evaluates it.  The stages without an [if] around them
    are always due. *)
Definition due (self : Resource) (req : Request) (st : Stage) : bool :=
  match st with
  | At C429 =>
      Py.truthy (rate_limit_count self) && Py.truthy (rate_limit_seconds self)
  | At_options =>
      is_method req methods.options
      && bool_decide ("OPTIONS" ∈ allowed_methods self)
  | At C415 => Py.truthy (content_length req)
  | At C413 =>
      Py.truthy (content_length req)
      && Py.truthy (max_request_entity_length self)
  | At C428 =>
      require_conditional_request self
      && (is_method req methods.put || is_method req methods.patch)
  | At C412 => is_method req methods.put || is_method req methods.patch
  | At C304_none_match =>
      (is_method req methods.get || is_method req methods.head)
      && (use_etags self && has_header req "if-none-match")
  | At C304_modified_since =>
      (is_method req methods.get || is_method req methods.head)
      && (use_last_modified self && has_header req "if-modified-since")
  | At _ | At_handler => true
  end.

(** A run of [m] evaluates the stages of [seg] that are due, each one, in
    that order: all of them when it goes on to the next block; and when it
    returns from [process] it has stopped at one of them, on an event that
    ends the run. *)
Definition meets (self : Resource) (req : Request) (seg : list Stage)
    (m : M unit) : Prop :=
  forall s res s', m s = (res, s') ->
    exists evs,
      trace s' = trace s ++ evs
      /\ match res with
         | Next _ => omap stage_of evs = List.filter (due self req) seg
         | Returned _ =>
             omap stage_of evs `prefix_of` List.filter (due self req) seg
             /\ exists e, last evs = Some e /\ terminal e
         | Raised _ =>
             omap stage_of evs `prefix_of` List.filter (due self req) seg
         end.

(** What every failing branch of [process] does: it sets the status and
    returns [None], and evaluates nothing. *)
Definition fails_with (c : Check) (on_fail : M unit) : Prop :=
  forall s, exists s',
    on_fail s = (Returned None, s')
    /\ trace s' = trace s /\ status (resp s') = code c.


(** The state a run reaches from [s]: the response is now [r] and the
    events [evs] have been appended. *)
Definition reached (r : Response) (evs : list Event) (s : State) : State :=
  {| resp := r; trace := trace s ++ evs |}.

(** ** Parts of process

    The statements of [process] up to a stage, and from it on, for
    theorems about requests that get that far. *)

Section Parts.
Context `{HttpLib}.

(** The four checks before the OPTIONS short-circuit. *)
Definition until_options (self : Resource) (req : Request) : M unit :=
  process_service_unavailable self req ;;
  process_unauthorized self req ;;
  process_forbidden self req ;;
  process_too_many_requests self req.

(** Everything before the request entity checks. *)
Definition until_request_entity (self : Resource) (req : Request) : M unit :=
  until_options self req ;;
  process_options self req.

(** Everything before the conditional-request checks. *)
Definition until_preconditions (self : Resource) (req : Request) : M unit :=
  until_request_entity self req ;;
  process_request_entity self req ;;
  process_method_not_allowed self req ;;
  process_not_acceptable self req ;;
  process_not_found self req ;;
  process_gone self req.

Definition from_preconditions (self : Resource) (req : Request) : M unit :=
  process_precondition_required self req ;;
  process_precondition_failed self req ;;
  process_conditional_get self req ;;
  process_handler self req.

Definition from_request_entity (self : Resource) (req : Request) : M unit :=
  process_request_entity self req ;;
  process_method_not_allowed self req ;;
  process_not_acceptable self req ;;
  process_not_found self req ;;
  process_gone self req ;;
  from_preconditions self req.

Definition from_options (self : Resource) (req : Request) : M unit :=
  process_options self req ;;
  from_request_entity self req.

End Parts.

(** The events of the request entity checks. *)
Definition entity_event (e : Event) : Prop :=
  match e with
  | Checked C415 _ | Checked C413 _
  | Called M_content_type_supported
  | Called M_content_encoding_supported
  | Called M_content_language_supported => True
  | _ => False
  end.

(** Every exception a run of [m] raises satisfies [P]. *)
Definition raises {A} (m : M A) (P : Exn -> Prop) : Prop :=
  forall s e s', m s = (Raised e, s') -> P e.

(** The answer of the 428 stage. *)
Definition precondition_required (header : string) (r : Response) : Response :=
  with_status codes.precondition_required
    (with_header "Pragma" no_cache
       (with_header "Cache-Control" no_cache
          (with_data (try_using header) r))).




(** ** Scenarios

    Concrete classes and requests the theorems below are exercised on. *)

(** A library instance: every instant formats as the epoch, and the
    interpreter allows a thousand nested calls. *)
Definition epoch_http : HttpLib :=
  {| http_date := fun _ => "Thu, 01 Jan 1970 00:00:00 GMT";
     recursion_limit := 1000 |}.

(** The iterable [methods] of a typical [resources/http.py]. *)
Definition http_methods : list string :=
  ["GET"; "HEAD"; "OPTIONS"; "POST"; "PUT"; "DELETE"; "PATCH"].

(** [class C(Resource): allowed_methods = ('HEAD', 'HEAD')] *)
Definition duplicate_head_class : Resource :=
  with_class_attributes ["HEAD"; "HEAD"] [] [] Resource_body.

(** The attributes a class body defines under method names. *)
Definition with_members (ms : gmap string Member) (c : Resource) : Resource :=
  {| unavailable := unavailable c;
     allowed_methods := allowed_methods c;
     rate_limit_count := rate_limit_count c;
     rate_limit_seconds := rate_limit_seconds c;
     max_request_entity_length := max_request_entity_length c;
     require_conditional_request := require_conditional_request c;
     use_etags := use_etags c;
     use_last_modified := use_last_modified c;
     supported_accept_types := supported_accept_types c;
     supported_content_types := supported_content_types c;
     supported_patch_types := supported_patch_types c;
     check_unauthorized := check_unauthorized c;
     check_forbidden := check_forbidden c;
     check_too_many_requests := check_too_many_requests c;
     check_not_found := check_not_found c;
     check_gone := check_gone c;
     accept_charset_supported := accept_charset_supported c;
     accept_encoding_supported := accept_encoding_supported c;
     accept_language_supported := accept_language_supported c;
     content_encoding_supported := content_encoding_supported c;
     content_language_supported := content_language_supported c;
     get_etag := get_etag c;
     get_last_modified := get_last_modified c;
     members := ms |}.

(** A handler that answers with a fixed body. *)
Definition respond (body : string) : Handler := answer (Some (VStr body)).

Definition get_only_members : gmap string Member :=
  {[ "get" := Method (respond "{}") ]}.

(** [class C(Resource): allowed_methods = ('GET', 'PUT')] with [get]
    defined and [put] missing. *)
Definition get_put_declared : Resource :=
  with_members get_only_members
    (with_class_attributes ["GET"; "PUT"] [] [] Resource_body).

(** [class C(Resource): allowed_methods = ('GET', 'PROCESS')] with [get]
    defined: [process] is a callable of every resource. *)
Definition get_process_declared : Resource :=
  with_members get_only_members
    (with_class_attributes ["GET"; "PROCESS"] [] [] Resource_body).


(** A subclass that forbids every request: [check_forbidden] answers
    [True]. *)
Definition forbidding (c : Resource) : Resource :=
  {| unavailable := unavailable c;
     allowed_methods := allowed_methods c;
     rate_limit_count := rate_limit_count c;
     rate_limit_seconds := rate_limit_seconds c;
     max_request_entity_length := max_request_entity_length c;
     require_conditional_request := require_conditional_request c;
     use_etags := use_etags c;
     use_last_modified := use_last_modified c;
     supported_accept_types := supported_accept_types c;
     supported_content_types := supported_content_types c;
     supported_patch_types := supported_patch_types c;
     check_unauthorized := check_unauthorized c;
     check_forbidden := answer true;
     check_too_many_requests := check_too_many_requests c;
     check_not_found := check_not_found c;
     check_gone := check_gone c;
     accept_charset_supported := accept_charset_supported c;
     accept_encoding_supported := accept_encoding_supported c;
     accept_language_supported := accept_language_supported c;
     content_encoding_supported := content_encoding_supported c;
     content_language_supported := content_language_supported c;
     get_etag := get_etag c;
     get_last_modified := get_last_modified c;
     members := members c |}.

(** A request with no headers and no body. *)
Definition bare_request (m : string) : Request :=
  {| method := m; headers := ∅; content_length := None;
     content_type := None; mimetype := EmptyString; accept_mimetypes := [] |}.

(** The state [__call__] starts [process] in. *)
Definition fresh : State := {| resp := Response_new; trace := [] |}.

(** [unavailable = u] *)
Definition unavailable_for (u : Unavailable) (c : Resource) : Resource :=
  {| unavailable := u;
     allowed_methods := allowed_methods c;
     rate_limit_count := rate_limit_count c;
     rate_limit_seconds := rate_limit_seconds c;
     max_request_entity_length := max_request_entity_length c;
     require_conditional_request := require_conditional_request c;
     use_etags := use_etags c;
     use_last_modified := use_last_modified c;
     supported_accept_types := supported_accept_types c;
     supported_content_types := supported_content_types c;
     supported_patch_types := supported_patch_types c;
     check_unauthorized := check_unauthorized c;
     check_forbidden := check_forbidden c;
     check_too_many_requests := check_too_many_requests c;
     check_not_found := check_not_found c;
     check_gone := check_gone c;
     accept_charset_supported := accept_charset_supported c;
     accept_encoding_supported := accept_encoding_supported c;
     accept_language_supported := accept_language_supported c;
     content_encoding_supported := content_encoding_supported c;
     content_language_supported := content_language_supported c;
     get_etag := get_etag c;
     get_last_modified := get_last_modified c;
     members := members c |}.

(** [class Json(Resource)] with a [get] method; the class attributes are
    the defaults, so it supports only [application/json]. *)
Definition json_class : Resource := with_members get_only_members Resource_body.

(** The class the metaclass makes of it. *)
Definition json_resource : Resource :=
  with_class_attributes ["GET"; "HEAD"; "OPTIONS"]
    ["application/json"] ["application/json"] json_class.

(** A GET request whose [Accept] header lists the given media ranges. *)
Definition accept_request (raw : string) (listed : list (string * Q))
    : Request :=
  {| method := "GET";
     headers := {[ "accept" := raw ]};
     content_length := None;
     content_type := None;
     mimetype := EmptyString;
     accept_mimetypes := Accept.of_listed listed |}.

(** [Accept: text/plain] *)
Definition accept_text_plain : Request :=
  accept_request "text/plain" [("text/plain", 1%Q)].

(** [Accept: text/plain;q=0, */*] *)
Definition accept_wildcard_after_zero : Request :=
  accept_request "text/plain;q=0, */*" [("text/plain", 0%Q); ("*/*", 1%Q)].

(** [Accept: */*] *)
Definition accept_wildcard : Request :=
  accept_request "*/*" [("*/*", 1%Q)].

(** [Accept: */*;q=0] *)
Definition accept_wildcard_zero : Request :=
  accept_request "*/*;q=0" [("*/*", 0%Q)].

(** [Accept: text/plain;q=0, */*;q=0] *)
Definition accept_nothing : Request :=
  accept_request "text/plain;q=0, */*;q=0"
    [("text/plain", 0%Q); ("*/*", 0%Q)].

(** The status of the response [__call__] hands back, if it did. *)
Definition status_of (answer : Exn + Response) : option Z :=
  match answer with
  | inr response => Some (status response)
  | inl _ => None
  end.

(** A POST with a body of [n] bytes and no [Content-Type] header. *)
Definition untyped_post (n : Z) : Request :=
  {| method := "POST";
     headers := {[ "content-length" := "12" ]};
     content_length := Some n;
     content_type := None;
     mimetype := EmptyString;
     accept_mimetypes := [] |}.

(** [max_request_entity_length = n] *)
Definition with_max_request_entity_length (n : option Z) (c : Resource)
    : Resource :=
  {| unavailable := unavailable c;
     allowed_methods := allowed_methods c;
     rate_limit_count := rate_limit_count c;
     rate_limit_seconds := rate_limit_seconds c;
     max_request_entity_length := n;
     require_conditional_request := require_conditional_request c;
     use_etags := use_etags c;
     use_last_modified := use_last_modified c;
     supported_accept_types := supported_accept_types c;
     supported_content_types := supported_content_types c;
     supported_patch_types := supported_patch_types c;
     check_unauthorized := check_unauthorized c;
     check_forbidden := check_forbidden c;
     check_too_many_requests := check_too_many_requests c;
     check_not_found := check_not_found c;
     check_gone := check_gone c;
     accept_charset_supported := accept_charset_supported c;
     accept_encoding_supported := accept_encoding_supported c;
     accept_language_supported := accept_language_supported c;
     content_encoding_supported := content_encoding_supported c;
     content_language_supported := content_language_supported c;
     get_etag := get_etag c;
     get_last_modified := get_last_modified c;
     members := members c |}.

(** A class with [get], [post], [put] and [patch] methods. *)
Definition store_members : gmap string Member :=
  {[ "get" := Method (respond "{}");
     "post" := Method (respond "created");
     "put" := Method (respond "stored");
     "patch" := Method (respond "patched") ]}.

Definition store_class : Resource := with_members store_members Resource_body.

Definition store_resource : Resource :=
  with_class_attributes ["GET"; "HEAD"; "OPTIONS"; "POST"; "PUT"; "PATCH"]
    ["application/json"] ["application/json"] store_class.

(** The same class with [max_request_entity_length = 100]. *)
Definition limited_store : Resource :=
  with_max_request_entity_length (Some 100) store_resource.

(** A request with a JSON body of [n] bytes. *)
Definition json_body (m : string) (n : Z) (more : gmap string string)
    : Request :=
  {| method := m;
     headers := <[ "content-type" := "application/json" ]> more;
     content_length := Some n;
     content_type := Some "application/json";
     mimetype := "application/json";
     accept_mimetypes := [] |}.

(** The conditional-request settings of a class, with an entity whose tag
    and modification time are fixed. *)
Definition with_conditional_requests (require etags modified : bool)
    (etag : option string) (last_modified : option datetime) (c : Resource)
    : Resource :=
  {| unavailable := unavailable c;
     allowed_methods := allowed_methods c;
     rate_limit_count := rate_limit_count c;
     rate_limit_seconds := rate_limit_seconds c;
     max_request_entity_length := max_request_entity_length c;
     require_conditional_request := require;
     use_etags := etags;
     use_last_modified := modified;
     supported_accept_types := supported_accept_types c;
     supported_content_types := supported_content_types c;
     supported_patch_types := supported_patch_types c;
     check_unauthorized := check_unauthorized c;
     check_forbidden := check_forbidden c;
     check_too_many_requests := check_too_many_requests c;
     check_not_found := check_not_found c;
     check_gone := check_gone c;
     accept_charset_supported := accept_charset_supported c;
     accept_encoding_supported := accept_encoding_supported c;
     accept_language_supported := accept_language_supported c;
     content_encoding_supported := content_encoding_supported c;
     content_language_supported := content_language_supported c;
     get_etag := fun _ => etag;
     get_last_modified := fun _ => last_modified;
     members := members c |}.

(** A store with entity tag [abc]: [use_etags = True]. *)
Definition tagged_store : Resource :=
  with_conditional_requests false true false (Some "abc") None store_resource.

(** The same with [use_last_modified = True] as well. *)
Definition tagged_dated_store : Resource :=
  with_conditional_requests false true true (Some "abc") (Some 0)
    store_resource.

(** A request with the given headers and no body. *)
Definition request_with (m : string) (hs : gmap string string) : Request :=
  {| method := m; headers := hs; content_length := None;
     content_type := None; mimetype := EmptyString; accept_mimetypes := [] |}.

Definition epoch : string := "Thu, 01 Jan 1970 00:00:00 GMT".

(** The events of a run of the first ten blocks on which every check
    passes, for a request without body and without [Accept] header on a
    class without rate limit. *)
Definition passed_gates : list Event :=
  [Checked C503 false; Checked C401 false; Checked C403 false;
   Checked C405 false; Called M_accept_type_supported; Checked C406 false;
   Checked C404 false; Checked C410 false].

(** The state after those events, with the default type negotiated. *)
Definition past_gates : State :=
  reached (with_accept_type "application/json" Response_new) passed_gates fresh.

(** [GET] with [If-None-Match: abc] *)
Definition get_if_none_match_abc : Request :=
  request_with "GET" {[ "if-none-match" := "abc" ]}.

(** [GET] with [If-None-Match: xyz] and an [If-Modified-Since] that is the
    text of the entity's modification time. *)
Definition get_new_tag_same_date : Request :=
  request_with "GET"
    {[ "if-none-match" := "xyz"; "if-modified-since" := epoch ]}.

(** A store that requires conditional updates and uses entity tags. *)
Definition conditional_store : Resource :=
  with_conditional_requests true true false (Some "abc") None store_resource.

(** The same with [use_last_modified = True] as well. *)
Definition conditional_dated_store : Resource :=
  with_conditional_requests true true true (Some "abc") (Some 0)
    store_resource.

(** [PUT] with [If-Match: abc] *)
Definition put_if_match_abc : Request :=
  request_with "PUT" {[ "if-match" := "abc" ]}.

(** [Accept: text/plain, */*;q=0] *)
Definition accept_text_plain_only : Request :=
  accept_request "text/plain, */*;q=0" [("text/plain", 1%Q); ("*/*", 0%Q)].

(** ** More of process, for the properties beyond the claims *)

(** [m] never hands over to the next statement: it returns from [process]
    or raises. *)
Definition halts {A} (m : M A) : Prop :=
  forall s res s', m s = (res, s') -> forall a, res <> Next a.

Section More_parts.
Context `{HttpLib}.

(** Everything before the 405 check. *)
Definition until_method_not_allowed (self : Resource) (req : Request)
    : M unit :=
  until_request_entity self req ;;
  process_request_entity self req.

Definition from_method_not_allowed (self : Resource) (req : Request)
    : M unit :=
  process_method_not_allowed self req ;;
  process_not_acceptable self req ;;
  process_not_found self req ;;
  process_gone self req ;;
  from_preconditions self req.

End More_parts.

(** The two method tests of the conditional stage. *)
Definition put_or_patch (req : Request) : bool :=
  is_method req methods.put || is_method req methods.patch.

Definition get_or_head (req : Request) : bool :=
  is_method req methods.get || is_method req methods.head.

(** The condition [process] has tested before it appends an event: the
    guards of the source, read off the [if] statements around each check
    and each call. *)
Definition guarded (self : Resource) (req : Request) (e : Event) : Prop :=
  match e with
  | Checked C429 _ =>
      Py.truthy (rate_limit_count self) = true
      /\ Py.truthy (rate_limit_seconds self) = true
  | Checked C415 _ => Py.truthy (content_length req) = true
  | Checked C413 _ =>
      Py.truthy (content_length req) = true
      /\ Py.truthy (max_request_entity_length self) = true
  | Checked C428 _ =>
      require_conditional_request self = true /\ put_or_patch req = true
  | Checked C412 _ => put_or_patch req = true
  | Checked C304_none_match _ =>
      get_or_head req = true /\ use_etags self = true
      /\ has_header req "if-none-match" = true
  | Checked C304_modified_since _ =>
      get_or_head req = true /\ use_last_modified self = true
      /\ has_header req "if-modified-since" = true
  | Checked _ _ => True
  | Called M_options =>
      is_method req methods.options = true
      /\ "OPTIONS" ∈ allowed_methods self
  | Called (M_handler name) => name = Py.lower (method req)
  | Called M_content_type_supported =>
      Py.truthy (content_length req) = true
      /\ has_header req "content-type" = true
      /\ string_truthy (content_type req) = true
  | Called M_content_encoding_supported =>
      Py.truthy (content_length req) = true
      /\ has_header req "content-type" = true
      /\ string_truthy (content_type req) = true
      /\ has_header req "content-encoding" = true
  | Called M_content_language_supported =>
      Py.truthy (content_length req) = true
      /\ has_header req "content-type" = true
      /\ string_truthy (content_type req) = true
      /\ has_header req "content-language" = true
  | Called M_accept_type_supported => True
  | Called M_accept_language_supported =>
      has_header req "accept-language" = true
  | Called M_accept_charset_supported =>
      has_header req "accept-charset" = true
  | Called M_accept_encoding_supported =>
      has_header req "accept-encoding" = true
  | Called M_get_etag =>
      use_etags self = true
      /\ (put_or_patch req = true /\ has_header req "if-match" = true
          \/ get_or_head req = true
             /\ has_header req "if-none-match" = true)
  | Called M_get_last_modified =>
      use_last_modified self = true
      /\ (put_or_patch req = true
          /\ has_header req "if-unmodified-since" = true
          \/ get_or_head req = true
             /\ has_header req "if-modified-since" = true)
  end.

(** ** More scenarios *)

(** [rate_limit_count = count] *)
Definition with_rate_limit_count (count : option Z) (c : Resource) : Resource :=
  {| unavailable := unavailable c;
     allowed_methods := allowed_methods c;
     rate_limit_count := count;
     rate_limit_seconds := rate_limit_seconds c;
     max_request_entity_length := max_request_entity_length c;
     require_conditional_request := require_conditional_request c;
     use_etags := use_etags c;
     use_last_modified := use_last_modified c;
     supported_accept_types := supported_accept_types c;
     supported_content_types := supported_content_types c;
     supported_patch_types := supported_patch_types c;
     check_unauthorized := check_unauthorized c;
     check_forbidden := check_forbidden c;
     check_too_many_requests := check_too_many_requests c;
     check_not_found := check_not_found c;
     check_gone := check_gone c;
     accept_charset_supported := accept_charset_supported c;
     accept_encoding_supported := accept_encoding_supported c;
     accept_language_supported := accept_language_supported c;
     content_encoding_supported := content_encoding_supported c;
     content_language_supported := content_language_supported c;
     get_etag := get_etag c;
     get_last_modified := get_last_modified c;
     members := members c |}.

(** A store that allows ten requests an hour. *)
Definition rate_limited_store : Resource :=
  with_rate_limit_count (Some 10) store_resource.

(** [GET] with [Accept-Language: fr] *)
Definition french_request : Request :=
  request_with "GET" {[ "accept-language" := "fr" ]}.

(** What a run of [process] from the new response appends to the trace,
    and what it answers. *)
Definition events_of `{HttpLib} (self : Resource) (req : Request)
    : list Event :=
  trace (snd (process self req fresh)).

(** [class C(Resource): allowed_methods = ('GET', 'HEAD')] with [get]
    defined, as the metaclass leaves it. *)
Definition get_head_resource : Resource :=
  with_class_attributes ["GET"; "HEAD"]
    ["application/json"] ["application/json"] json_class.

(** A request with an XML body of [n] bytes. *)
Definition xml_body (m : string) (n : Z) : Request :=
  {| method := m;
     headers := {[ "content-type" := "application/xml" ]};
     content_length := Some n;
     content_type := Some "application/xml";
     mimetype := "application/xml";
     accept_mimetypes := [] |}.

(** The state after the three checks that every request goes through
    first, on a class without rate limit. *)
Definition past_authorization : State :=
  reached Response_new
    [Checked C503 false; Checked C401 false; Checked C403 false] fresh.

(** [Accept: text/html, application/json;q=0.5] *)
Definition accept_html_then_json : Request :=
  accept_request "text/html, application/json;q=0.5"
    [("text/html", 1%Q); ("application/json", (1 # 2)%Q)].

(** A store that asks for conditional updates but uses neither entity tags
    nor modification times. *)
Definition requiring_store : Resource :=
  with_conditional_requests true false false None None store_resource.

(** A store that requires conditional updates and uses modification
    times only. *)
Definition dated_store : Resource :=
  with_conditional_requests true false true None (Some 0) store_resource.

(** [PUT] with an [If-Unmodified-Since] that is the text of the entity's
    modification time. *)
Definition put_if_unmodified_since_epoch : Request :=
  request_with "PUT" {[ "if-unmodified-since" := epoch ]}.

(** A class that keeps the five overridable status checks of the base
    class, which all answer [False]. *)
Definition keeps_base_checks (self : Resource) : Prop :=
  check_unauthorized self = answer false
  /\ check_forbidden self = answer false
  /\ check_too_many_requests self = answer false
  /\ check_not_found self = answer false
  /\ check_gone self = answer false.

(** What [getattr] found is a handler: a method the class defines, or one
    of the two handlers of [Resource] ([head], [options]). *)
Definition is_handler (m : option Member) : Prop :=
  match m with
  | Some (Method _) | Some Default_head | Some Default_options => True
  | Some (Inherited _) | Some Data | None => False
  end.

(** * Properties *)

(** ** Python helpers *)

Module PyFacts.

Lemma insert_sorted_perm (x : string) (l : list string) : Permutation (x :: l) (Py.insert_sorted x l).
Proof.
  induction l as [|y l IH]; simpl; [reflexivity|].
  destruct (String.leb x y); [reflexivity|].
  rewrite perm_swap. now constructor.
Qed.

Lemma sorted_perm l : Permutation l (Py.sorted l).
Proof.
  induction l as [|x l IH]; simpl; [constructor|].
  etransitivity; [|apply insert_sorted_perm]. now constructor.
Qed.

Lemma insert_sorted_hd (x y : string) (l : list string) :
  Py.le y x -> HdRel Py.le y l -> HdRel Py.le y (Py.insert_sorted x l).
Proof.
  unfold Py.le. intros Hyx Hl. destruct l as [|z l]; simpl; [now constructor|].
  destruct (String.leb x z); constructor; auto.
  now inversion Hl.
Qed.

Lemma insert_sorted_Sorted (x : string) (l : list string) :
  Sorted Py.le l -> Sorted Py.le (Py.insert_sorted x l).
Proof.
  induction 1 as [|y l Hs IH Hhd]; simpl; [repeat constructor|].
  destruct (String.leb x y) eqn:E.
  - constructor; [now constructor|]. now constructor.
  - constructor; [exact IH|].
    apply insert_sorted_hd; [|exact Hhd].
    destruct (String.leb_total x y) as [F|F]; [congruence|exact F].
Qed.

Lemma sorted_Sorted l : Sorted Py.le (Py.sorted l).
Proof.
  induction l as [|x l IH]; simpl; [constructor|].
  now apply insert_sorted_Sorted.
Qed.

Lemma elem_of_sorted (x : string) (l : list string) : x ∈ Py.sorted l <-> x ∈ l.
Proof. now rewrite <- (sorted_perm l). Qed.

Lemma elem_of_remove_ne (x y : string) (l : list string) : y <> x -> y ∈ Py.remove x l <-> y ∈ l.
Proof.
  intros Hne. induction l as [|z l IH]; simpl; [reflexivity|].
  case_bool_decide as E.
  - subst z. rewrite elem_of_cons. intuition congruence.
  - rewrite !elem_of_cons, IH. reflexivity.
Qed.

Lemma elem_of_remove_subseteq (x y : string) (l : list string) : y ∈ Py.remove x l -> y ∈ l.
Proof.
  induction l as [|z l IH]; simpl; [easy|].
  case_bool_decide; rewrite ?elem_of_cons; intuition.
Qed.

Lemma not_elem_of_remove_NoDup (x : string) (l : list string) : NoDup l -> x ∉ Py.remove x l.
Proof.
  induction 1 as [|z l Hz Hl IH]; simpl; [apply not_elem_of_nil|].
  case_bool_decide as E.
  - now subst z.
  - rewrite elem_of_cons. intuition congruence.
Qed.

End PyFacts.

(** ** The metaclass *)

Module MetaclassFacts.
Import ResourceMetaclass.

Lemma remove_head_subseteq m l : m ∈ remove_head l -> m ∈ l.
Proof.
  unfold remove_head.
  destruct (_ && _); [apply PyFacts.elem_of_remove_subseteq|easy].
Qed.

(** Where the post-processing does its job: a list that names [HEAD] at
    most once comes out with [HEAD] only beside [GET]. *)
Lemma remove_head_NoDup l :
  NoDup l -> "HEAD" ∈ remove_head l -> "GET" ∈ remove_head l.
Proof.
  unfold remove_head. intros Hnd.
  destruct (bool_decide ("GET" ∈ l)) eqn:G; simpl.
  - intros _. now apply bool_decide_eq_true in G.
  - destruct (bool_decide ("HEAD" ∈ l)) eqn:Hd; simpl.
    + intros Hin. now apply PyFacts.not_elem_of_remove_NoDup in Hin.
    + intros Hin. apply bool_decide_eq_false in Hd. contradiction.
Qed.

Lemma implicit_methods_usable methods cls m :
  m ∈ implicit_methods methods cls -> usable cls (Py.lower m) = true.
Proof.
  unfold implicit_methods. rewrite list_elem_of_In, filter_In. tauto.
Qed.

Lemma explicit_methods_inr cls l :
  explicit_methods cls = inr l ->
  l = allowed_methods cls /\
  forall m, m ∈ l -> usable cls (Py.lower m) = true.
Proof.
  unfold explicit_methods.
  destruct (find _ _) eqn:F; [discriminate|].
  intros [= <-]. split; [reflexivity|].
  intros m Hm. apply list_elem_of_In in Hm.
  apply (find_none _ _ F) in Hm. now destruct (usable _ _).
Qed.



(** The attributes the metaclass leaves alone. *)
Lemma usable_with_class_attributes a c p cls y :
  usable (with_class_attributes a c p cls) y = usable cls y.
Proof. reflexivity. Qed.

(** Every class the metaclass lets through lists only methods it can
    handle. *)
Lemma new_allowed_usable methods in_attrs new_cls cls :
  __new__ methods in_attrs new_cls = inr cls ->
  forall m, m ∈ allowed_methods cls -> usable cls (Py.lower m) = true.
Proof.
  unfold __new__.
  destruct (negb in_attrs || bool_decide (allowed_methods new_cls = [])).
  - intros [= <-] m Hm. simpl in Hm. apply remove_head_subseteq in Hm.
    rewrite usable_with_class_attributes.
    now apply implicit_methods_usable in Hm.
  - destruct (explicit_methods new_cls) as [e|l] eqn:E; [discriminate|].
    intros [= <-] m Hm. simpl in Hm. apply remove_head_subseteq in Hm.
    rewrite usable_with_class_attributes.
    apply explicit_methods_inr in E as [_ Hall]. now apply Hall.
Qed.

(** The invariant of the allowed methods, where it holds: when neither the
    iterable of methods nor the declared list names a method twice, a class
    the metaclass makes allows [HEAD] only beside [GET]. *)
Lemma new_head_requires_get methods in_attrs new_cls cls :
  NoDup methods -> NoDup (allowed_methods new_cls) ->
  __new__ methods in_attrs new_cls = inr cls ->
  "HEAD" ∈ allowed_methods cls -> "GET" ∈ allowed_methods cls.
Proof.
  intros Hmethods Hdeclared. unfold __new__.
  destruct (negb in_attrs || bool_decide (allowed_methods new_cls = [])).
  - intros [= <-]. simpl. apply remove_head_NoDup.
    unfold implicit_methods. apply NoDup_ListNoDup, List.NoDup_filter.
    now apply NoDup_ListNoDup.
  - destruct (explicit_methods new_cls) as [e|l] eqn:E; [discriminate|].
    apply explicit_methods_inr in E as [-> _].
    intros [= <-]. simpl. now apply remove_head_NoDup.
Qed.

End MetaclassFacts.

(** C3 (the code at the failing input): a class that declares
    [allowed_methods = ('HEAD', 'HEAD')] passes the metaclass, whatever the
    iterable of methods is, and comes out with [allowed_methods = ('HEAD',)]:
    [list.remove] dropped one [HEAD] only, so [HEAD] is allowed without
    [GET]. *)
Theorem duplicate_head_survives (methods : list string) :
  exists cls,
    ResourceMetaclass.__new__ methods true duplicate_head_class = inr cls
    /\ allowed_methods cls = ["HEAD"]
    /\ "HEAD" ∈ allowed_methods cls
    /\ "GET" ∉ allowed_methods cls.
Proof.
  exists (with_class_attributes ["HEAD"] ["application/json"]
            ["application/json"] duplicate_head_class).
  split; [reflexivity|]. simpl. split; [reflexivity|].
  split; [apply list_elem_of_here|].
  rewrite list_elem_of_singleton. discriminate.
Qed.

(** What the stray [HEAD] leads to: the class answers a HEAD request by
    calling [head], which looks for the [get] the class does not have. *)
Example stray_head_fails_at_request_time :
  @__call__ epoch_http
    (with_class_attributes ["HEAD"] ["application/json"]
       ["application/json"] duplicate_head_class)
    (bare_request "HEAD")
  = inl (AttributeError "get").
Proof. vm_compute. reflexivity. Qed.

(** ** Reasoning about method bodies *)

Section Monad_facts.

Lemma bind_Next {A B} (m : M A) (f : A -> M B) s a s1 :
  m s = (Next a, s1) -> bind m f s = f a s1.
Proof. unfold bind. now intros ->. Qed.

Lemma bind_Returned {A B} (m : M A) (f : A -> M B) s o s1 :
  m s = (Returned o, s1) -> bind m f s = (Returned o, s1).
Proof. unfold bind. now intros ->. Qed.

Lemma bind_Raised {A B} (m : M A) (f : A -> M B) s e s1 :
  m s = (Raised e, s1) -> bind m f s = (Raised e, s1).
Proof. unfold bind. now intros ->. Qed.

Lemma bind_inv {A B} (m : M A) (f : A -> M B) s res s' :
  bind m f s = (res, s') ->
  (exists a s1, m s = (Next a, s1) /\ f a s1 = (res, s'))
  \/ (exists o, m s = (Returned o, s') /\ res = Returned o)
  \/ (exists e, m s = (Raised e, s') /\ res = Raised e).
Proof.
  unfold bind. destruct (m s) as [[a|o|e] s1]; intros E.
  - left. eauto.
  - right. left. inversion E. eauto.
  - right. right. inversion E. eauto.
Qed.

(** *** [emits] *)

Lemma emits_mono {A} (m : M A) (P Q : Event -> Prop) :
  (forall e, P e -> Q e) -> emits m P -> emits m Q.
Proof.
  intros HPQ Hm s res s' E. destruct (Hm _ _ _ E) as (evs & -> & HP).
  exists evs. split; [reflexivity|]. eapply Forall_impl; eauto.
Qed.

Lemma emits_ret {A} (a : A) P : emits (ret a) P.
Proof. intros s res s' [= <- <-]. exists []. now rewrite app_nil_r. Qed.

Lemma emits_return {A} o P : emits (@return_ A o) P.
Proof. intros s res s' [= <- <-]. exists []. now rewrite app_nil_r. Qed.

Lemma emits_raise {A} e P : emits (@raise A e) P.
Proof. intros s res s' [= <- <-]. exists []. now rewrite app_nil_r. Qed.

Lemma emits_modify f P : emits (modify f) P.
Proof. intros s res s' [= <- <-]. exists []. now rewrite app_nil_r. Qed.

Lemma emits_hook {A} (f : Hook A) req P : emits (hook f req) P.
Proof.
  intros s res s'. unfold hook. destruct (f req (resp s)) as [a r'].
  intros [= <- <-]. exists []. now rewrite app_nil_r.
Qed.

Lemma emits_log e (P : Event -> Prop) : P e -> emits (log e) P.
Proof.
  intros He s res s' [= <- <-]. exists [e]. split; [reflexivity|].
  now constructor.
Qed.

Lemma emits_bind {A B} (m : M A) (f : A -> M B) P :
  emits m P -> (forall a, emits (f a) P) -> emits (bind m f) P.
Proof.
  intros Hm Hf s res s' E.
  apply bind_inv in E as [(a & s1 & E1 & E2)|[(o & E1 & ->)|(e & E1 & ->)]].
  - destruct (Hm _ _ _ E1) as (evs1 & T1 & F1).
    destruct (Hf a _ _ _ E2) as (evs2 & T2 & F2).
    exists (evs1 ++ evs2). rewrite T2, T1, app_assoc.
    split; [reflexivity|]. now apply Forall_app.
  - eauto.
  - eauto.
Qed.

Lemma emits_if {A} (b : bool) (m1 m2 : M A) P :
  emits m1 P -> emits m2 P -> emits (if b then m1 else m2) P.
Proof. now destruct b. Qed.

(** *** [stays] *)

Lemma stays_ret {A} (a : A) : stays (ret a).
Proof. intros s res s' [= <- <-] o. discriminate. Qed.

Lemma stays_raise {A} e : stays (@raise A e).
Proof. intros s res s' [= <- <-] o. discriminate. Qed.

Lemma stays_modify f : stays (modify f).
Proof. intros s res s' [= <- <-] o. discriminate. Qed.

Lemma stays_log e : stays (log e).
Proof. intros s res s' [= <- <-] o. discriminate. Qed.

Lemma stays_hook {A} (f : Hook A) req : stays (hook f req).
Proof.
  intros s res s'. unfold hook. destruct (f req (resp s)) as [a r'].
  intros [= <- <-] o. discriminate.
Qed.

Lemma stays_bind {A B} (m : M A) (f : A -> M B) :
  stays m -> (forall a, stays (f a)) -> stays (bind m f).
Proof.
  intros Hm Hf s res s' E.
  apply bind_inv in E as [(a & s1 & E1 & E2)|[(o & E1 & ->)|(e & E1 & ->)]].
  - eapply Hf; eauto.
  - intros o' _. now apply (Hm _ _ _ E1 o).
  - discriminate.
Qed.

Lemma stays_if {A} (b : bool) (m1 m2 : M A) :
  stays m1 -> stays m2 -> stays (if b then m1 else m2).
Proof. now destruct b. Qed.

(** *** Calls from within a handler *)

Lemma untraced_inv {A} (m : M A) s res s' :
  untraced m s = (res, s') ->
  exists s1, m {| resp := resp s; trace := [] |} = (res, s1)
             /\ s' = {| resp := resp s1; trace := trace s |}.
Proof.
  unfold untraced. destruct (m _) as [res1 s1]. intros [= <- <-]. eauto.
Qed.

Lemma emits_untraced {A} (m : M A) P : emits (untraced m) P.
Proof.
  intros s res s' (s1 & _ & ->)%untraced_inv. exists [].
  now rewrite app_nil_r.
Qed.

Lemma stays_untraced {A} (m : M A) : stays m -> stays (untraced m).
Proof. intros Hm s res s' (s1 & E & _)%untraced_inv. eauto. Qed.

Lemma stays_call_function (body : M unit) : stays (call_function body).
Proof.
  intros s res s'. unfold call_function.
  destruct (body s) as [[[]|o|e] s1]; intros [= <- <-] o'; discriminate.
Qed.

Lemma stays_on_new_response {A} (m : M A) :
  stays m -> stays (on_new_response m).
Proof.
  intros Hm s res s'. unfold on_new_response.
  destruct (m _) as [[a|o|e] s1] eqn:E; intros [= <- <-] o';
    try discriminate.
  exfalso. now apply (Hm _ _ _ E o).
Qed.

End Monad_facts.

(** Decomposing a body into its primitive steps. *)
Ltac step_body :=
  lazymatch goal with
  | |- emits (bind _ _) _ => apply emits_bind; [|intros ?]
  | |- emits (ret _) _ => apply emits_ret
  | |- emits (return_ _) _ => apply emits_return
  | |- emits (raise _) _ => apply emits_raise
  | |- emits (modify _) _ => apply emits_modify
  | |- emits (set_status _) _ => apply emits_modify
  | |- emits (set_header _ _) _ => apply emits_modify
  | |- emits (set_data _) _ => apply emits_modify
  | |- emits (set_accept_type _) _ => apply emits_modify
  | |- emits (hook _ _) _ => apply emits_hook
  | |- emits (log _) _ => apply emits_log
  | |- emits (called _ _) _ => unfold called
  | |- emits (checked _ _) _ => unfold checked
  | |- emits (untraced _) _ => apply emits_untraced
  | |- emits (if _ then _ else _) _ => apply emits_if
  | |- emits (match ?x with _ => _ end) _ => destruct x
  | |- stays (bind _ _) => apply stays_bind; [|intros ?]
  | |- stays (ret _) => apply stays_ret
  | |- stays (raise _) => apply stays_raise
  | |- stays (modify _) => apply stays_modify
  | |- stays (set_status _) => apply stays_modify
  | |- stays (set_header _ _) => apply stays_modify
  | |- stays (set_data _) => apply stays_modify
  | |- stays (set_accept_type _) => apply stays_modify
  | |- stays (hook _ _) => apply stays_hook
  | |- stays (log _) => apply stays_log
  | |- stays (called _ _) => unfold called
  | |- stays (checked _ _) => unfold checked
  | |- stays (untraced _) => apply stays_untraced
  | |- stays (call_function _) => apply stays_call_function
  | |- stays (on_new_response _) => apply stays_on_new_response
  | |- stays (if _ then _ else _) => apply stays_if
  | |- stays (match ?x with _ => _ end) => destruct x
  end.

(** Running a body whose steps are all known. *)
Ltac run :=
  cbv [bind ret log modify set_status set_header set_data set_accept_type
       return_ raise called checked];
  cbn [negb andb orb resp trace].

(** ** The stages of process *)

Section Stage_facts.

Lemma silent_not_terminal e : silent e -> ~ terminal e.
Proof. destruct e as [c b|[]]; unfold silent; simpl; (discriminate || tauto). Qed.

Lemma omap_stage_of_silent evs : Forall silent evs -> omap stage_of evs = [].
Proof.
  induction 1 as [|e evs He _ IH]; [reflexivity|].
  simpl. unfold silent in He. now rewrite He.
Qed.

Lemma silent_no_failure evs c b : Forall silent evs -> Checked c b ∉ evs.
Proof.
  intros Hs Hin. rewrite Forall_forall in Hs. apply Hs in Hin. discriminate.
Qed.

Lemma elem_of_snoc {A} (l : list A) (x y : A) : y ∈ l ++ [x] <-> y ∈ l \/ y = x.
Proof. now rewrite elem_of_app, list_elem_of_singleton. Qed.

Lemma stage_ok_skip seg : stage_ok seg (ret ()).
Proof.
  intros s res s' [= <- <-]. exists []. rewrite app_nil_r.
  split; [reflexivity|]. split; [apply sublist_nil_l|].
  repeat split; intros; exfalso; eapply not_elem_of_nil; eauto.
Qed.

Lemma stage_ok_if seg (b : bool) (m : M unit) :
  stage_ok seg m -> stage_ok seg (if b then m else ret ()).
Proof. destruct b; [easy|]. intros _. apply stage_ok_skip. Qed.

Lemma stage_ok_seq seg1 seg2 (m1 m2 : M unit) :
  stage_ok seg1 m1 -> stage_ok seg2 m2 ->
  stage_ok (seg1 ++ seg2) (m1 ;; m2).
Proof.
  intros H1 H2 s res s' E.
  apply bind_inv in E as [(a & s1 & E1 & E2)|[(o & E1 & ->)|(e & E1 & ->)]].
  - destruct a.
    destruct (H1 _ _ _ E1) as (evs1 & T1 & S1 & _ & _ & N1).
    destruct (H2 _ _ _ E2) as (evs2 & T2 & S2 & L2 & F2 & N2).
    specialize (N1 eq_refl).
    exists (evs1 ++ evs2). rewrite T2, T1, app_assoc.
    split; [reflexivity|]. split; [rewrite omap_app; now apply sublist_app|].
    split; [|split].
    + intros e [Hin|Hin]%elem_of_app Ht; [now apply N1 in Hin|].
      specialize (L2 e Hin Ht). destruct evs2 as [|e2 evs2]; [discriminate|].
      rewrite last_app_cons. exact L2.
    + intros c [Hin|Hin]%elem_of_app; [|now apply F2].
      exfalso. apply N1 in Hin. now apply Hin.
    + intros -> e [Hin|Hin]%elem_of_app; [now apply N1|now apply N2].
  - destruct (H1 _ _ _ E1) as (evs1 & T1 & S1 & L1 & F1 & N1).
    exists evs1. split; [exact T1|]. split; [now apply sublist_inserts_r|].
    split; [exact L1|]. split; [exact F1|]. discriminate.
  - destruct (H1 _ _ _ E1) as (evs1 & T1 & S1 & L1 & F1 & N1).
    exists evs1. split; [exact T1|]. split; [now apply sublist_inserts_r|].
    split; [exact L1|]. split; [exact F1|]. discriminate.
Qed.

Lemma fails_with_status c :
  fails_with c (set_status (code c) ;; return_ None).
Proof. intros s. eexists. split; [reflexivity|]. now split. Qed.

(** The shape shared by the status checks. *)
Lemma stage_check (c : Check) (body : M bool) (on_fail : M unit) :
  emits body silent -> stays body -> fails_with c on_fail ->
  stage_ok [At c]
    (failed ← checked c body; if failed then on_fail else ret ()).
Proof.
  intros Hemit Hstay Hfail s res s' E.
  unfold checked in E.
  apply bind_inv in E as [(b & s2 & E1 & E2)|[(o & E1 & ->)|(e & E1 & ->)]].
  - apply bind_inv in E1 as [(b' & s1 & E0 & E1)|[(o & E1 & [=])|(e & E1 & [=])]].
    destruct (Hemit _ _ _ E0) as (evs & T & Hs).
    unfold bind, log, ret in E1. injection E1 as -> <-.
    assert (Hsil : forall e, e ∈ evs -> ~ terminal e).
    { intros e Hin. rewrite Forall_forall in Hs.
      now apply silent_not_terminal, Hs. }
    assert (Hseg : omap stage_of (evs ++ [Checked c b]) `sublist_of` [At c]).
    { now rewrite omap_app, (omap_stage_of_silent _ Hs). }
    exists (evs ++ [Checked c b]).
    destruct b.
    + destruct (Hfail {| resp := resp s1; trace := trace s1 ++ [Checked c true] |})
        as (s3 & E3 & T3 & St3).
      rewrite E3 in E2. injection E2 as <- <-.
      split; [rewrite T3; simpl; now rewrite T, app_assoc|].
      split; [exact Hseg|]. split; [|split].
      * intros e [Hin| ->]%elem_of_snoc Ht; [|apply last_snoc].
        now apply Hsil in Hin.
      * intros c' [Hin|[= ->]]%elem_of_snoc; [|now split].
        now apply silent_no_failure in Hin.
      * discriminate.
    + injection E2 as <- <-.
      split; [simpl; now rewrite T, app_assoc|].
      split; [exact Hseg|]. split; [|split].
      * intros e [Hin| ->]%elem_of_snoc Ht; [|discriminate].
        now apply Hsil in Hin.
      * intros c' [Hin|[=]]%elem_of_snoc.
        now apply silent_no_failure in Hin.
      * intros _ e [Hin| ->]%elem_of_snoc; [now apply Hsil|simpl; discriminate].
  - apply bind_inv in E1 as [(b' & s1 & E0 & E1)|[(o' & E1 & [= ->])|(e & E1 & [=])]].
    + discriminate.
    + exfalso. now apply (Hstay _ _ _ E1 o').
  - apply bind_inv in E1 as [(b' & s1 & E0 & E1)|[(o' & E1 & [=])|(e' & E1 & [= ->])]].
    + discriminate.
    + destruct (Hemit _ _ _ E1) as (evs & T & Hs).
      exists evs. split; [exact T|].
      split; [rewrite (omap_stage_of_silent _ Hs); apply sublist_nil_l|].
      split; [|split].
      * intros e0 Hin Ht. rewrite Forall_forall in Hs.
        now apply Hs, silent_not_terminal in Hin.
      * intros c' Hin. now apply silent_no_failure in Hin.
      * discriminate.
Qed.

End Stage_facts.

Ltac quiet :=
  repeat (step_body || cbv zeta); try reflexivity.

Section Body_facts.
Context `{HttpLib}.
Variables (self : Resource) (req : Request).

(** The members a request from outside meets, written out. *)
Lemma head_unfold :
  head self req =
    (match getattr self "get" with
     | None => raise (AttributeError "get")
     | Some Data => raise (TypeError "get")
     | Some Default_head => raise RuntimeError
     | Some Default_options => options self req
     | Some (Inherited b) => inherited self b req
     | Some (Method get) => hook get req
     end ;;
     set_data EmptyString ;;
     ret None)%M.
Proof. reflexivity. Qed.

Lemma call_member_unfold name m :
  call_member self name m req =
    match m with
    | Method h => hook h req
    | Default_head => head self req
    | Default_options => options self req
    | Inherited b => inherited self b req
    | Data => raise (TypeError name)
    end.
Proof. now destruct m. Qed.

Lemma process_options_unfold :
  process_options self req =
    if is_method req methods.options
       && bool_decide ("OPTIONS" ∈ allowed_methods self)
    then
      match getattr self "options" with
      | Some m =>
          (output ← called M_options (call_member self "options" m req);
           return_ output)%M
      | None => raise (AttributeError "options")
      end
    else ret ().
Proof. reflexivity. Qed.

Lemma process_handler_unfold :
  process_handler self req =
    match getattr self (Py.lower (method req)) with
    | Some m =>
        (handler_output ← called (M_handler (Py.lower (method req)))
                            (call_member self (Py.lower (method req)) m req);
         return_ handler_output)%M
    | None => raise (AttributeError (Py.lower (method req)))
    end.
Proof. reflexivity. Qed.

Lemma process_body_unfold :
  process_body self req =
    (process_service_unavailable self req ;;
     process_unauthorized self req ;;
     process_forbidden self req ;;
     process_too_many_requests self req ;;
     process_options self req ;;
     process_request_entity self req ;;
     process_method_not_allowed self req ;;
     process_not_acceptable self req ;;
     process_not_found self req ;;
     process_gone self req ;;
     process_precondition_required self req ;;
     process_precondition_failed self req ;;
     process_conditional_get self req ;;
     process_handler self req)%M.
Proof. reflexivity. Qed.

(** The attributes [Resource] hands down. *)
Lemma getattr_inherited name :
  members self !! name = None -> getattr self name = Resource_attribute name.
Proof. unfold getattr. now intros ->. Qed.

(** The bodies of the checks call members that have no stage of their
    own, and hand their answer back to [process]. *)
Lemma check_service_unavailable_silent :
  emits (check_service_unavailable self req) silent.
Proof. unfold check_service_unavailable. quiet. Qed.

Lemma check_service_unavailable_stays :
  stays (check_service_unavailable self req).
Proof. unfold check_service_unavailable. quiet. Qed.

Lemma check_unsupported_media_type_silent :
  emits (check_unsupported_media_type self req) silent.
Proof.
  unfold check_unsupported_media_type, unless_supported,
    content_type_supported. quiet.
Qed.

Lemma check_unsupported_media_type_stays :
  stays (check_unsupported_media_type self req).
Proof.
  unfold check_unsupported_media_type, unless_supported,
    content_type_supported. quiet.
Qed.

Lemma check_request_entity_too_large_silent :
  emits (check_request_entity_too_large self req) silent.
Proof. unfold check_request_entity_too_large. quiet. Qed.

Lemma check_request_entity_too_large_stays :
  stays (check_request_entity_too_large self req).
Proof. unfold check_request_entity_too_large. quiet. Qed.

Lemma check_method_not_allowed_silent :
  emits (check_method_not_allowed self req) silent.
Proof. unfold check_method_not_allowed. quiet. Qed.

Lemma check_method_not_allowed_stays :
  stays (check_method_not_allowed self req).
Proof. unfold check_method_not_allowed. quiet. Qed.

Lemma check_not_acceptable_silent :
  emits (check_not_acceptable self req) silent.
Proof.
  unfold check_not_acceptable, unless_supported, accept_type_supported. quiet.
Qed.

Lemma check_not_acceptable_stays : stays (check_not_acceptable self req).
Proof.
  unfold check_not_acceptable, unless_supported, accept_type_supported. quiet.
Qed.

Lemma check_precondition_required_silent :
  emits (check_precondition_required self req) silent.
Proof. unfold check_precondition_required. quiet. Qed.

Lemma check_precondition_required_stays :
  stays (check_precondition_required self req).
Proof. unfold check_precondition_required. quiet. Qed.

Lemma check_precondition_failed_silent :
  emits (check_precondition_failed self req) silent.
Proof. unfold check_precondition_failed. quiet. Qed.

Lemma check_precondition_failed_stays :
  stays (check_precondition_failed self req).
Proof. unfold check_precondition_failed. quiet. Qed.

(** The handlers append nothing to the trace and do not return from
    [process] themselves, whatever a nested call of [process] does. *)
Lemma options_mute : emits (options self req) (fun _ => False).
Proof. unfold options. quiet. Qed.

Lemma options_stays : stays (options self req).
Proof. unfold options. quiet. Qed.

Section Calls_facts.
Variable below : Resource -> Request -> M unit.

Lemma inherited_in_mute b :
  emits (inherited_in below self b req) (fun _ => False).
Proof. apply emits_untraced. Qed.

Lemma inherited_in_stays b : stays (inherited_in below self b req).
Proof.
  unfold inherited_in, call_again. apply stays_untraced.
  destruct b; quiet;
    first [apply check_service_unavailable_stays
          |apply check_request_entity_too_large_stays
          |apply check_method_not_allowed_stays
          |apply check_unsupported_media_type_stays
          |apply check_not_acceptable_stays
          |apply check_precondition_required_stays
          |apply check_precondition_failed_stays
          |idtac].
  - unfold accept_type_supported. quiet.
  - unfold content_type_supported. quiet.
Qed.

Lemma head_in_mute : emits (head_in below self req) (fun _ => False).
Proof.
  unfold head_in. quiet; first [apply options_mute|apply inherited_in_mute].
Qed.

Lemma head_in_stays : stays (head_in below self req).
Proof.
  unfold head_in. quiet; first [apply options_stays|apply inherited_in_stays].
Qed.

Lemma call_member_in_mute name m :
  emits (call_member_in below self name m req) (fun _ => False).
Proof.
  destruct m; simpl; quiet;
    first [apply head_in_mute|apply options_mute|apply inherited_in_mute].
Qed.

Lemma call_member_in_stays name m :
  stays (call_member_in below self name m req).
Proof.
  destruct m; simpl; quiet;
    first [apply head_in_stays|apply options_stays|apply inherited_in_stays].
Qed.

End Calls_facts.

Lemma head_mute : emits (head self req) (fun _ => False).
Proof. apply head_in_mute. Qed.

Lemma head_stays : stays (head self req).
Proof. apply head_in_stays. Qed.

Lemma call_member_mute name m :
  emits (call_member self name m req) (fun _ => False).
Proof. apply call_member_in_mute. Qed.

Lemma call_member_stays name m : stays (call_member self name m req).
Proof. apply call_member_in_stays. Qed.

End Body_facts.

Section Pipeline_facts.
Context `{HttpLib}.
Variables (self : Resource) (req : Request).

Lemma stage_ok_raise seg e : stage_ok seg (raise e).
Proof.
  intros s res s' [= <- <-]. exists []. rewrite app_nil_r.
  split; [reflexivity|]. split; [apply sublist_nil_l|].
  split; [|split]; try discriminate;
    intros; exfalso; eapply not_elem_of_nil; eauto.
Qed.

(** The shape shared by the two handler calls. *)
Lemma stage_call (st : Stage) (n : Member_name) (body : M Output) :
  stage_of (Called n) = Some st ->
  emits body (fun _ => False) -> stays body ->
  stage_ok [st] (output ← called n body; return_ output).
Proof.
  intros Hst Hmute Hstay s res s' E.
  unfold called in E.
  assert (Hrun : exists r, (log (Called n) ;; body) s = (r, s')
                           /\ trace s' = trace s ++ [Called n]
                           /\ res <> Next ()).
  { apply bind_inv in E as [(o & s1 & E1 & E2)|[(o & E1 & ->)|(e & E1 & ->)]].
    - injection E2 as <- <-. exists (Next o). split; [exact E1|].
      split; [|discriminate].
      unfold bind, log in E1. destruct (Hmute _ _ _ E1) as (evs & T & F).
      destruct evs as [|e evs]; [now rewrite app_nil_r in T|].
      now inversion F.
    - exfalso. apply bind_inv in E1
        as [(u & s1 & E0 & E1)|[(o' & E1 & [= ->])|(e & E1 & [=])]].
      + now apply (Hstay _ _ _ E1 o).
      + discriminate.
    - exists (Raised e). split; [exact E1|]. split; [|discriminate].
      unfold bind, log in E1. destruct (Hmute _ _ _ E1) as (evs & T & F).
      destruct evs as [|e' evs]; [now rewrite app_nil_r in T|].
      now inversion F. }
  destruct Hrun as (r & _ & T & Hres).
  exists [Called n]. split; [exact T|].
  split; [simpl; simpl in Hst; now rewrite Hst|].
  split; [|split].
  - intros e ->%list_elem_of_singleton _. reflexivity.
  - intros c [=]%list_elem_of_singleton.
  - intros ->. contradiction.
Qed.

Lemma stage_503 : stage_ok [At C503] (process_service_unavailable self req).
Proof.
  apply stage_check;
    [apply check_service_unavailable_silent
    |apply check_service_unavailable_stays
    |apply (fails_with_status C503)].
Qed.

Lemma stage_hook c (f : Hook bool) :
  stage_ok [At c]
    (failed ← checked c (hook f req);
     if failed then set_status (code c) ;; return_ None else ret ()).
Proof.
  apply stage_check;
    [apply emits_hook|apply stays_hook|apply fails_with_status].
Qed.

Lemma stage_401 : stage_ok [At C401] (process_unauthorized self req).
Proof. apply (stage_hook C401). Qed.

Lemma stage_403 : stage_ok [At C403] (process_forbidden self req).
Proof. apply (stage_hook C403). Qed.

Lemma stage_429 : stage_ok [At C429] (process_too_many_requests self req).
Proof. apply stage_ok_if, (stage_hook C429). Qed.

Lemma stage_options : stage_ok [At_options] (process_options self req).
Proof.
  rewrite process_options_unfold. destruct (_ && _); [|apply stage_ok_skip].
  destruct (getattr self "options") as [m|]; [|apply stage_ok_raise].
  apply stage_call;
    [reflexivity|apply call_member_mute|apply call_member_stays].
Qed.

Lemma stage_413 :
  stage_ok [At C413]
    (if Py.truthy (max_request_entity_length self) then
       failed ← checked C413 (check_request_entity_too_large self req);
       if failed then
         set_status codes.request_entity_too_large ;; return_ None
       else ret ()
     else ret ()).
Proof.
  apply stage_ok_if, stage_check;
    [apply check_request_entity_too_large_silent
    |apply check_request_entity_too_large_stays
    |apply (fails_with_status C413)].
Qed.

(** A failing branch that returns lets the rest of the block be read as
    the next statement. *)
Lemma fail_then_rest (m : M bool) (c : Z) (rest : M unit) s :
  (failed ← m; if failed then set_status c ;; return_ None else rest) s
  = ((failed ← m; if failed then set_status c ;; return_ None else ret ()) ;;
     rest) s.
Proof. unfold bind. destruct (m s) as [[[]| |] ?]; reflexivity. Qed.

Lemma stage_request_entity :
  stage_ok [At C415; At C413] (process_request_entity self req).
Proof.
  unfold process_request_entity.
  destruct (Py.truthy (content_length req)); [|apply stage_ok_skip].
  intros s res s' E. rewrite fail_then_rest in E. revert E.
  apply (stage_ok_seq [At C415] [At C413]); [|apply stage_413].
  apply stage_check;
    [apply check_unsupported_media_type_silent
    |apply check_unsupported_media_type_stays
    |apply (fails_with_status C415)].
Qed.

Lemma stage_405 : stage_ok [At C405] (process_method_not_allowed self req).
Proof.
  apply stage_check;
    [apply check_method_not_allowed_silent
    |apply check_method_not_allowed_stays
    |apply (fails_with_status C405)].
Qed.

Lemma stage_406 : stage_ok [At C406] (process_not_acceptable self req).
Proof.
  apply stage_check;
    [apply check_not_acceptable_silent
    |apply check_not_acceptable_stays
    |apply (fails_with_status C406)].
Qed.

Lemma stage_404 : stage_ok [At C404] (process_not_found self req).
Proof. apply (stage_hook C404). Qed.

Lemma stage_410 : stage_ok [At C410] (process_gone self req).
Proof. apply (stage_hook C410). Qed.

Lemma stage_428 :
  stage_ok [At C428] (process_precondition_required self req).
Proof.
  unfold process_precondition_required.
  apply stage_ok_if, stage_ok_if, stage_check;
    [apply check_precondition_required_silent
    |apply check_precondition_required_stays|].
  intros s. eexists. split; [reflexivity|]. now split.
Qed.

Lemma stage_412 : stage_ok [At C412] (process_precondition_failed self req).
Proof.
  apply stage_ok_if, stage_check;
    [apply check_precondition_failed_silent
    |apply check_precondition_failed_stays
    |apply (fails_with_status C412)].
Qed.

Lemma stage_304 :
  stage_ok [At C304_none_match; At C304_modified_since]
    (process_conditional_get self req).
Proof.
  unfold process_conditional_get.
  apply stage_ok_if.
  apply (stage_ok_seq [At C304_none_match] [At C304_modified_since]);
    apply stage_ok_if, stage_check;
    try apply (fails_with_status C304_none_match);
    try apply (fails_with_status C304_modified_since); quiet.
Qed.

Lemma stage_handler : stage_ok [At_handler] (process_handler self req).
Proof.
  rewrite process_handler_unfold. cbv zeta.
  destruct (getattr self (Py.lower (method req))) as [m|];
    [|apply stage_ok_raise].
  apply stage_call;
    [reflexivity|apply call_member_mute|apply call_member_stays].
Qed.

(** The whole body visits the stages in the order of [pipeline]. *)
Lemma process_body_stages : stage_ok pipeline (process_body self req).
Proof.
  rewrite process_body_unfold. unfold pipeline.
  apply (stage_ok_seq [_]); [apply stage_503|].
  apply (stage_ok_seq [_]); [apply stage_401|].
  apply (stage_ok_seq [_]); [apply stage_403|].
  apply (stage_ok_seq [_]); [apply stage_429|].
  apply (stage_ok_seq [_]); [apply stage_options|].
  apply (stage_ok_seq [_; _]); [apply stage_request_entity|].
  apply (stage_ok_seq [_]); [apply stage_405|].
  apply (stage_ok_seq [_]); [apply stage_406|].
  apply (stage_ok_seq [_]); [apply stage_404|].
  apply (stage_ok_seq [_]); [apply stage_410|].
  apply (stage_ok_seq [_]); [apply stage_428|].
  apply (stage_ok_seq [_]); [apply stage_412|].
  apply (stage_ok_seq [_; _]); [apply stage_304|].
  apply stage_handler.
Qed.

End Pipeline_facts.

(** ** The order of the checks *)

Section Meets_facts.
Context `{HttpLib}.
Variables (self : Resource) (req : Request).

Lemma meets_skip seg :
  List.filter (due self req) seg = [] -> meets self req seg (ret ()).
Proof.
  intros Hnone s res s' [= <- <-]. exists []. rewrite app_nil_r.
  split; [reflexivity|]. now rewrite Hnone.
Qed.

Lemma meets_raise seg e : meets self req seg (raise e).
Proof.
  intros s res s' [= <- <-]. exists []. rewrite app_nil_r.
  split; [reflexivity|]. apply prefix_nil.
Qed.

Lemma meets_seq seg1 seg2 (m1 m2 : M unit) :
  meets self req seg1 m1 -> meets self req seg2 m2 ->
  meets self req (seg1 ++ seg2) (m1 ;; m2).
Proof.
  intros H1 H2 s res s' E. rewrite List.filter_app.
  apply bind_inv in E as [(a & s1 & E1 & E2)|[(o & E1 & ->)|(e & E1 & ->)]].
  - destruct (H1 _ _ _ E1) as (evs1 & T1 & S1).
    destruct (H2 _ _ _ E2) as (evs2 & T2 & S2).
    exists (evs1 ++ evs2). rewrite T2, T1, app_assoc.
    split; [reflexivity|]. rewrite omap_app, S1.
    destruct res as [u|o|e].
    + now rewrite S2.
    + destruct S2 as (P2 & e & L2 & Ht). split; [now apply prefix_app|].
      exists e. split; [|exact Ht].
      destruct evs2 as [|e2 evs2]; [discriminate|].
      now rewrite last_app_cons.
    + now apply prefix_app.
  - destruct (H1 _ _ _ E1) as (evs1 & T1 & P1 & e & L1 & Ht).
    exists evs1. split; [exact T1|].
    split; [now apply prefix_app_r|]. now exists e.
  - destruct (H1 _ _ _ E1) as (evs1 & T1 & P1).
    exists evs1. split; [exact T1|]. now apply prefix_app_r.
Qed.

(** A guarded block is due exactly when its guard holds. *)
Lemma meets_if st (guard : bool) (m : M unit) :
  due self req st = guard ->
  (guard = true -> meets self req [st] m) ->
  meets self req [st] (if guard then m else ret ()).
Proof.
  intros Hdue Hm. destruct guard; [now apply Hm|].
  apply meets_skip. simpl. now rewrite Hdue.
Qed.

(** What a status check does to the trace: the events of its body, which
    belong to no stage, and then its own. *)
Lemma check_runs (c : Check) (body : M bool) (on_fail : M unit) s res s' :
  emits body silent -> stays body -> fails_with c on_fail ->
  (failed ← checked c body; if failed then on_fail else ret ()) s
  = (res, s') ->
  exists evs,
    Forall silent evs
    /\ (res = Next () /\ trace s' = trace s ++ evs ++ [Checked c false]
        \/ res = Returned None
           /\ trace s' = trace s ++ evs ++ [Checked c true]
        \/ (exists e, res = Raised e) /\ trace s' = trace s ++ evs).
Proof.
  intros Hemit Hstay Hfail E. unfold checked in E.
  apply bind_inv in E as [(b & s2 & E1 & E2)|[(o & E1 & ->)|(e & E1 & ->)]].
  - apply bind_inv in E1
      as [(b' & s1 & E0 & E1)|[(o & E1 & [=])|(e & E1 & [=])]].
    destruct (Hemit _ _ _ E0) as (evs & T & Hs).
    unfold bind, log, ret in E1. injection E1 as -> <-.
    exists evs. split; [exact Hs|]. destruct b.
    + destruct (Hfail {| resp := resp s1;
                         trace := trace s1 ++ [Checked c true] |})
        as (s3 & E3 & T3 & _).
      rewrite E3 in E2. injection E2 as <- <-.
      right. left. split; [reflexivity|].
      rewrite T3. simpl. now rewrite T, app_assoc.
    + injection E2 as <- <-. left. split; [reflexivity|].
      simpl. now rewrite T, app_assoc.
  - apply bind_inv in E1
      as [(b' & s1 & E0 & E1)|[(o' & E1 & [= ->])|(e & E1 & [=])]].
    + discriminate.
    + exfalso. now apply (Hstay _ _ _ E1 o').
  - apply bind_inv in E1
      as [(b' & s1 & E0 & E1)|[(o' & E1 & [=])|(e' & E1 & [= ->])]].
    + discriminate.
    + destruct (Hemit _ _ _ E1) as (evs & T & Hs).
      exists evs. split; [exact Hs|]. right. right. eauto.
Qed.

Lemma omap_stage_of_check evs c b :
  Forall silent evs -> omap stage_of (evs ++ [Checked c b]) = [At c].
Proof. intros Hs. now rewrite omap_app, (omap_stage_of_silent _ Hs). Qed.

(** The shape shared by the status checks. *)
Lemma meets_check (c : Check) (body : M bool) (on_fail : M unit) :
  due self req (At c) = true ->
  emits body silent -> stays body -> fails_with c on_fail ->
  meets self req [At c]
    (failed ← checked c body; if failed then on_fail else ret ()).
Proof.
  intros Hdue Hemit Hstay Hfail s res s' E.
  destruct (check_runs _ _ _ _ _ _ Hemit Hstay Hfail E)
    as (evs & Hs & [[-> T]|[[-> T]|[[e ->] T]]]);
    cbn [List.filter]; rewrite Hdue.
  - exists (evs ++ [Checked c false]). split; [exact T|].
    now apply omap_stage_of_check.
  - exists (evs ++ [Checked c true]). split; [exact T|].
    rewrite (omap_stage_of_check _ _ _ Hs). split; [reflexivity|].
    exists (Checked c true). split; [apply last_snoc|reflexivity].
  - exists evs. split; [exact T|].
    rewrite (omap_stage_of_silent _ Hs). apply prefix_nil.
Qed.

Lemma meets_hook c (f : Hook bool) :
  due self req (At c) = true ->
  meets self req [At c]
    (failed ← checked c (hook f req);
     if failed then set_status (code c) ;; return_ None else ret ()).
Proof.
  intros Hdue. apply meets_check;
    [exact Hdue|apply emits_hook|apply stays_hook|apply fails_with_status].
Qed.

(** The shape shared by the two handler calls: the call is logged, and
    the run ends with it. *)
Lemma meets_call (st : Stage) (n : Member_name) (body : M Output) :
  due self req st = true ->
  stage_of (Called n) = Some st ->
  emits body (fun _ => False) -> stays body ->
  meets self req [st] (output ← called n body; return_ output).
Proof.
  intros Hdue Hst Hmute Hstay s res s' E.
  assert (T : trace s' = trace s ++ [Called n]).
  { unfold called in E.
    assert (Hlog : forall r, (log (Called n) ;; body) s = (r, s') ->
                             trace s' = trace s ++ [Called n]).
    { intros r Er. unfold bind, log in Er.
      destruct (Hmute _ _ _ Er) as (evs & Tr & F).
      destruct evs as [|e evs]; [now rewrite app_nil_r in Tr|].
      now inversion F. }
    apply bind_inv in E as [(o & s1 & E1 & E2)|[(o & E1 & ->)|(e & E1 & ->)]].
    - injection E2 as <- <-. eauto.
    - eauto.
    - eauto. }
  assert (Hst' : omap stage_of [Called n] = [st]).
  { simpl. simpl in Hst. now rewrite Hst. }
  exists [Called n]. split; [exact T|]. simpl List.filter. rewrite Hdue.
  rewrite Hst'.
  assert (Hterm : terminal (Called n)).
  { destruct n; simpl in Hst; try discriminate; exact I. }
  unfold called in E.
  apply bind_inv in E as [(o & s1 & E1 & E2)|[(o & E1 & ->)|(e & E1 & ->)]].
  - injection E2 as <- <-. split; [reflexivity|]. now exists (Called n).
  - exfalso. apply bind_inv in E1
      as [(u & s1 & E0 & E1)|[(o' & E1 & [= ->])|(e & E1 & [=])]].
    + now apply (Hstay _ _ _ E1 o).
    + discriminate.
  - reflexivity.
Qed.

(** *** The blocks of [process] *)

Lemma meets_503 :
  meets self req [At C503] (process_service_unavailable self req).
Proof.
  apply meets_check;
    [reflexivity
    |apply check_service_unavailable_silent
    |apply check_service_unavailable_stays
    |apply (fails_with_status C503)].
Qed.

Lemma meets_401 : meets self req [At C401] (process_unauthorized self req).
Proof. now apply (meets_hook C401). Qed.

Lemma meets_403 : meets self req [At C403] (process_forbidden self req).
Proof. now apply (meets_hook C403). Qed.

Lemma meets_429 :
  meets self req [At C429] (process_too_many_requests self req).
Proof.
  apply meets_if; [reflexivity|]. intros G. apply (meets_hook C429).
  exact G.
Qed.

Lemma meets_options :
  meets self req [At_options] (process_options self req).
Proof.
  rewrite process_options_unfold.
  apply meets_if; [reflexivity|]. intros G.
  destruct (getattr self "options") as [m|]; [|apply meets_raise].
  apply meets_call;
    [exact G|reflexivity|apply call_member_mute|apply call_member_stays].
Qed.

Lemma meets_request_entity :
  meets self req [At C415; At C413] (process_request_entity self req).
Proof.
  unfold process_request_entity.
  destruct (Py.truthy (content_length req)) eqn:G.
  - intros s res s' E. rewrite fail_then_rest in E. revert E.
    apply (meets_seq [At C415] [At C413]).
    + apply meets_check;
        [exact G
        |apply check_unsupported_media_type_silent
        |apply check_unsupported_media_type_stays
        |apply (fails_with_status C415)].
    + apply meets_if; [simpl; now rewrite G|]. intros G'.
      apply meets_check;
        [simpl; now rewrite G, G'
        |apply check_request_entity_too_large_silent
        |apply check_request_entity_too_large_stays
        |apply (fails_with_status C413)].
  - apply meets_skip. simpl. now rewrite G.
Qed.

Lemma meets_405 :
  meets self req [At C405] (process_method_not_allowed self req).
Proof.
  apply meets_check;
    [reflexivity
    |apply check_method_not_allowed_silent
    |apply check_method_not_allowed_stays
    |apply (fails_with_status C405)].
Qed.

Lemma meets_406 :
  meets self req [At C406] (process_not_acceptable self req).
Proof.
  apply meets_check;
    [reflexivity
    |apply check_not_acceptable_silent
    |apply check_not_acceptable_stays
    |apply (fails_with_status C406)].
Qed.

Lemma meets_404 : meets self req [At C404] (process_not_found self req).
Proof. now apply (meets_hook C404). Qed.

Lemma meets_410 : meets self req [At C410] (process_gone self req).
Proof. now apply (meets_hook C410). Qed.

Lemma meets_428 :
  meets self req [At C428] (process_precondition_required self req).
Proof.
  unfold process_precondition_required.
  destruct (require_conditional_request self) eqn:R;
    [|apply meets_skip; simpl; now rewrite R].
  apply meets_if; [simpl; now rewrite R|]. intros G.
  apply meets_check;
    [simpl; now rewrite R, G
    |apply check_precondition_required_silent
    |apply check_precondition_required_stays|].
  intros s. eexists. split; [reflexivity|]. now split.
Qed.

Lemma meets_412 :
  meets self req [At C412] (process_precondition_failed self req).
Proof.
  apply meets_if; [reflexivity|]. intros G.
  apply meets_check;
    [exact G
    |apply check_precondition_failed_silent
    |apply check_precondition_failed_stays
    |apply (fails_with_status C412)].
Qed.

Lemma meets_304 :
  meets self req [At C304_none_match; At C304_modified_since]
    (process_conditional_get self req).
Proof.
  unfold process_conditional_get.
  destruct (is_method req methods.get || is_method req methods.head) eqn:G;
    [|apply meets_skip; simpl; now rewrite G].
  apply (meets_seq [At C304_none_match] [At C304_modified_since]);
    (apply meets_if; [simpl; now rewrite G|]); intros G';
    apply meets_check;
    try (simpl; now rewrite G, G');
    try apply (fails_with_status C304_none_match);
    try apply (fails_with_status C304_modified_since); quiet.
Qed.

Lemma meets_handler :
  meets self req [At_handler] (process_handler self req).
Proof.
  rewrite process_handler_unfold.
  destruct (getattr self (Py.lower (method req))) as [m|];
    [|apply meets_raise].
  apply meets_call;
    [reflexivity|reflexivity|apply call_member_mute|apply call_member_stays].
Qed.

(** The whole body evaluates every due stage, in the order of
    [pipeline], up to the one that ends the run. *)
Lemma process_body_meets : meets self req pipeline (process_body self req).
Proof.
  rewrite process_body_unfold. unfold pipeline.
  apply (meets_seq [_]); [apply meets_503|].
  apply (meets_seq [_]); [apply meets_401|].
  apply (meets_seq [_]); [apply meets_403|].
  apply (meets_seq [_]); [apply meets_429|].
  apply (meets_seq [_]); [apply meets_options|].
  apply (meets_seq [_; _]); [apply meets_request_entity|].
  apply (meets_seq [_]); [apply meets_405|].
  apply (meets_seq [_]); [apply meets_406|].
  apply (meets_seq [_]); [apply meets_404|].
  apply (meets_seq [_]); [apply meets_410|].
  apply (meets_seq [_]); [apply meets_428|].
  apply (meets_seq [_]); [apply meets_412|].
  apply (meets_seq [_; _]); [apply meets_304|].
  apply meets_handler.
Qed.

(** The handler is always due, and it is the last stage. *)
Lemma last_due_stage :
  last (List.filter (due self req) pipeline) = Some At_handler.
Proof.
  unfold pipeline. simpl.
  repeat (match goal with
          | |- context [if ?b then _ else _] => destruct b
          end); reflexivity.
Qed.

Lemma due_stages_NoDup : NoDup (List.filter (due self req) pipeline).
Proof.
  apply NoDup_ListNoDup, List.NoDup_filter, NoDup_ListNoDup.
  unfold pipeline.
  repeat (apply NoDup_cons; split;
          [intros Hin;
           repeat (apply elem_of_cons in Hin as [Hin|Hin]; [discriminate|]);
           now apply not_elem_of_nil in Hin|]).
  apply NoDup_nil_2.
Qed.

(** A run that gets beyond the last block does not exist: the call of the
    handler ends it. *)
Lemma process_body_ends s u s' : process_body self req s <> (Next u, s').
Proof.
  intros E. destruct (process_body_meets _ _ _ E) as (evs & T & S).
  destruct (process_body_stages self req _ _ _ E)
    as (evs' & T' & _ & _ & _ & N).
  rewrite T in T'. apply app_inv_head in T'. subst evs'.
  specialize (N ltac:(now destruct u)).
  assert (Hin : At_handler ∈ omap stage_of evs).
  { rewrite S. apply last_Some_elem_of, last_due_stage. }
  apply list_elem_of_omap in Hin as (e & Hin & He).
  apply (N e Hin). destruct e as [c b|[]]; simpl in He; try discriminate.
  exact I.
Qed.

(** A prefix of the due stages that reaches the handler is all of them. *)
Lemma prefix_up_to_handler (stages : list Stage) :
  stages ++ [At_handler] `prefix_of` List.filter (due self req) pipeline ->
  stages ++ [At_handler] = List.filter (due self req) pipeline.
Proof.
  intros [rest Hrest]. destruct rest as [|st rest];
    [now rewrite Hrest, app_nil_r|].
  exfalso. pose proof due_stages_NoDup as Hnd.
  pose proof last_due_stage as Hlast.
  rewrite Hrest in Hnd, Hlast. rewrite <- app_assoc in Hnd. simpl in Hnd.
  rewrite last_app in Hlast.
  apply NoDup_app in Hnd as (_ & _ & Hnd).
  apply NoDup_cons in Hnd as [Hnot _]. apply Hnot.
  destruct (last (st :: rest)) as [x|] eqn:Lx.
  - injection Hlast as ->. now apply last_Some_elem_of.
  - now apply last_None in Lx.
Qed.

End Meets_facts.

Section Short_circuit.
Context `{HttpLib}.

(** C2: a run of [process] evaluates the stages of the pipeline 503, 401,
    403, 429, OPTIONS, 415, 413, 405, 406, 404, 410, 428, 412, 304,
    handler in that order: the stages it evaluates are the due stages of
    the pipeline from the first one on, none skipped, up to the stage that
    ends the run; and a run that returns has ended on a failing check or
    on the call of a handler.  When a check fails it is the last thing the
    run evaluates, the status is that check's code, [process] returns
    [None], and neither handler has been called.  When the method handler
    is called, every due stage has been evaluated and no check has
    failed. *)
Theorem process_short_circuits (self : Resource) (req : Request)
    (s s' : State) (out : Exn + Output) :
  process self req s = (out, s') ->
  exists evs,
    trace s' = trace s ++ evs
    /\ omap stage_of evs `prefix_of` List.filter (due self req) pipeline
    /\ omap stage_of evs `sublist_of` pipeline
    /\ (forall output, out = inr output ->
          exists e, last evs = Some e /\ terminal e)
    /\ (forall c, Checked c true ∈ evs ->
          last evs = Some (Checked c true)
          /\ status (resp s') = code c
          /\ out = inr None
          /\ (Called M_options ∉ evs)
          /\ (forall name, Called (M_handler name) ∉ evs))
    /\ (forall name, Called (M_handler name) ∈ evs ->
          omap stage_of evs = List.filter (due self req) pipeline
          /\ forall c, Checked c true ∉ evs).
Proof.
  unfold process, run_function. intros E.
  destruct (process_body self req s) as [res s1] eqn:Eb.
  destruct (process_body_stages self req _ _ _ Eb) as (evs & T & S & L & F & _).
  destruct (process_body_meets self req _ _ _ Eb) as (evs' & T' & M).
  rewrite T in T'. apply app_inv_head in T'. subst evs'.
  assert (s1 = s') as -> by (destruct res; congruence).
  assert (Hprefix :
    omap stage_of evs `prefix_of` List.filter (due self req) pipeline).
  { destruct res as [u|o|e]; [now rewrite M|tauto|exact M]. }
  exists evs. split; [exact T|]. split; [exact Hprefix|].
  split; [exact S|]. split; [|split].
  - intros output ->. destruct res as [u|o|e]; [|tauto|discriminate].
    exfalso. exact (process_body_ends self req _ _ _ Eb).
  - intros c Hc. pose proof (L _ Hc eq_refl) as Hlast.
    destruct (F c Hc) as [Hst ->]. injection E as <-.
    repeat split; try assumption.
    + intros Hin. apply L in Hin; [|exact I]. congruence.
    + intros name Hin. apply L in Hin; [|exact I]. congruence.
  - intros name Hin. pose proof (L _ Hin I) as Hlast. split.
    + apply last_Some in Hlast as [evs0 ->].
      rewrite omap_app in Hprefix |- *. simpl in Hprefix |- *.
      now apply prefix_up_to_handler.
    + intros c Hc. apply L in Hc; [|reflexivity]. congruence.
Qed.

End Short_circuit.

Lemma process_short_circuits_witness :
  exists evs,
    [Checked C503 false; Checked C401 false; Checked C403 true] = [] ++ evs
    /\ omap stage_of evs
       `prefix_of` List.filter
                     (due (forbidding Resource_body) (bare_request "GET"))
                     pipeline
    /\ omap stage_of evs `sublist_of` pipeline
    /\ (forall output, @inr Exn Output None = inr output ->
          exists e, last evs = Some e /\ terminal e)
    /\ (forall c, Checked c true ∈ evs ->
          last evs = Some (Checked c true)
          /\ status (with_status 403 Response_new) = code c
          /\ @inr Exn Output None = inr None
          /\ (Called M_options ∉ evs)
          /\ (forall name, Called (M_handler name) ∉ evs))
    /\ (forall name, Called (M_handler name) ∈ evs ->
          omap stage_of evs
          = List.filter (due (forbidding Resource_body) (bare_request "GET"))
              pipeline
          /\ forall c, Checked c true ∉ evs).
Proof.
  apply (@process_short_circuits epoch_http (forbidding Resource_body)
           (bare_request "GET") fresh
           {| resp := with_status 403 Response_new;
              trace := [Checked C503 false; Checked C401 false;
                        Checked C403 true] |}
           (inr None)).
  vm_compute. reflexivity.
Defined.

(** ** Getting as far as a stage *)

Ltac run_blocks :=
  repeat (cbv beta iota;
          lazymatch goal with
          | |- context [match ?b ?self ?req ?st with _ => _ end] =>
              destruct (b self req st) as [[[]| |] ?]
          end);
  cbv beta iota; try reflexivity.

Section Part_facts.
Context `{HttpLib}.
Variables (self : Resource) (req : Request).

Lemma process_body_from_options s s1 :
  until_options self req s = (Next (), s1) ->
  process_body self req s = from_options self req s1.
Proof.
  intros E. rewrite <- (bind_Next _ (fun _ => from_options self req) _ _ _ E).
  rewrite process_body_unfold.
  unfold until_options, from_options, from_request_entity,
    from_preconditions, bind.
  run_blocks.
Qed.

Lemma process_body_from_request_entity s s1 :
  until_request_entity self req s = (Next (), s1) ->
  process_body self req s = from_request_entity self req s1.
Proof.
  intros E.
  rewrite <- (bind_Next _ (fun _ => from_request_entity self req) _ _ _ E).
  rewrite process_body_unfold.
  unfold until_request_entity, until_options,
    from_request_entity, from_preconditions, bind.
  run_blocks.
Qed.

Lemma process_body_from_preconditions s s1 :
  until_preconditions self req s = (Next (), s1) ->
  process_body self req s = from_preconditions self req s1.
Proof.
  intros E.
  rewrite <- (bind_Next _ (fun _ => from_preconditions self req) _ _ _ E).
  rewrite process_body_unfold.
  unfold until_preconditions, until_request_entity,
    until_options, from_preconditions, bind.
  run_blocks.
Qed.

End Part_facts.

(** ** 503 Service Unavailable *)

Section Unavailable.
Context `{HttpLib}.

(** C9: when [unavailable] is truthy, [process] answers 503 and returns
    after the 503 check, the only one it evaluates.  [Retry-After] is the
    number of seconds when [unavailable] is a positive integer and the
    HTTP-date of the instant when it is a datetime (whose text is never
    empty); for [True] (and for a negative integer) the headers are left as
    they were, so a new response has no [Retry-After]. *)
Theorem unavailable_answers_503 (self : Resource) (req : Request) :
  unavailable_truthy (unavailable self) = true ->
  (forall d, unavailable self = UDatetime d ->
             http_date (Some d) <> EmptyString) ->
  (forall s,
     process self req s =
       (inr None,
        reached
          (with_status codes.service_unavailable
             match unavailable self with
             | UInt n =>
                 if Z.ltb 0 n
                 then with_header "Retry-After" (HInt n) (resp s)
                 else resp s
             | UDatetime d =>
                 with_header "Retry-After" (HStr (http_date (Some d))) (resp s)
             | UBool _ => resp s
             end)
          [Checked C503 true] s))
  /\ exists response,
       __call__ self req = inr response
       /\ status response = 503
       /\ response_headers response !! "Retry-After" =
            match unavailable self with
            | UInt n => if Z.ltb 0 n then Some (HInt n) else None
            | UDatetime d => Some (HStr (http_date (Some d)))
            | UBool _ => None
            end.
Proof.
  intros Ht Hd.
  assert (Hrun : forall s,
     process self req s =
       (inr None,
        reached
          (with_status codes.service_unavailable
             match unavailable self with
             | UInt n =>
                 if Z.ltb 0 n
                 then with_header "Retry-After" (HInt n) (resp s)
                 else resp s
             | UDatetime d =>
                 with_header "Retry-After" (HStr (http_date (Some d))) (resp s)
             | UBool _ => resp s
             end)
          [Checked C503 true] s)).
  { intros s. unfold process, run_function. rewrite process_body_unfold.
    unfold bind at 1.
    unfold process_service_unavailable, checked, check_service_unavailable.
    rewrite Ht.
    destruct (unavailable self) as [b|n|d] eqn:U.
    - reflexivity.
    - simpl in Ht. unfold header_value_truthy.
      destruct (Z.ltb 0 n); [rewrite Ht|]; reflexivity.
    - specialize (Hd d eq_refl). unfold header_value_truthy.
      rewrite bool_decide_eq_false_2 by exact Hd. reflexivity. }
  split; [exact Hrun|].
  unfold __call__. rewrite Hrun. eexists. split; [reflexivity|].
  split; [reflexivity|]. simpl.
  destruct (unavailable self) as [b|n|d]; [reflexivity| |].
  - destruct (Z.ltb 0 n); reflexivity.
  - simpl. now rewrite lookup_insert_eq.
Qed.

End Unavailable.

Lemma unavailable_answers_503_witness :
  unavailable_truthy (unavailable (unavailable_for (UInt 120) Resource_body))
    = true
  /\ @__call__ epoch_http (unavailable_for (UInt 120) Resource_body)
       (bare_request "GET")
     = inr (with_status 503
              (with_header "Retry-After" (HInt 120) Response_new)).
Proof.
  split; [reflexivity|].
  destruct (@unavailable_answers_503 epoch_http
              (unavailable_for (UInt 120) Resource_body) (bare_request "GET"))
    as [Hrun _]; [reflexivity|discriminate|].
  unfold __call__. rewrite Hrun. reflexivity.
Defined.

(** ** 406 Not Acceptable *)

Lemma json_resource_constructed :
  ResourceMetaclass.__new__ http_methods false json_class = inr json_resource.
Proof. reflexivity. Qed.

(** Asked about [*/*], the library's matching accepts every well-formed
    media range of the list, so [accept['*/*']] is the quality of the first
    one. *)
Lemma wildcard_matches_every_media_range (item : string) :
  Accept._value_matches "*/*" item =
    match Accept.index_of_slash item with
    | None => false
    | Some _ =>
        let '(item_type, item_subtype) := Accept._normalize item in
        negb (bool_decide (item_type = "*")
              && negb (bool_decide (item_subtype = "*")))
    end.
Proof.
  unfold Accept._value_matches.
  change (Accept._normalize "*/*") with ("*", "*").
  destruct (Accept.index_of_slash item); [|reflexivity].
  destruct (Accept._normalize item) as [item_type item_subtype].
  destruct (bool_decide (item_type = "*")),
    (bool_decide (item_subtype = "*")); reflexivity.
Qed.

Section Negotiation.

Lemma find_no_overlap (supported vals : list string) :
  (forall mime, mime ∈ vals -> mime ∉ supported) ->
  List.find (fun mime => bool_decide (mime ∈ supported)) vals = None.
Proof.
  intros Hno. destruct (List.find _ vals) as [mime|] eqn:F; [|reflexivity].
  apply find_some in F as [Hin Hsup]. apply bool_decide_eq_true in Hsup.
  apply list_elem_of_In in Hin. now apply Hno in Hin.
Qed.

(** What the guard of [accept_type_supported] does: when the request has
    an [Accept] header and none of its media ranges is a supported type,
    the method succeeds exactly when the quality the list gives for [*/*]
    is 0, and then chooses the first supported type (nothing, if there is
    none); when that quality is not 0 it fails, nothing is chosen, and the
    406 stage of [process] answers 406 and returns. *)
Lemma accept_type_without_overlap (self : Resource) (req : Request)
    (s : State) :
  has_header req "accept" = true ->
  (forall mime, mime ∈ Accept.values (accept_mimetypes req) ->
                mime ∉ supported_accept_types self) ->
  accept_type_supported self req s =
    (if Qeq_bool (Accept.quality (accept_mimetypes req) "*/*") 0
     then (Next true,
           {| resp := match supported_accept_types self with
                      | first :: _ => with_accept_type first (resp s)
                      | [] => resp s
                      end;
              trace := trace s |})
     else (Next false, s))
  /\ (Qeq_bool (Accept.quality (accept_mimetypes req) "*/*") 0 = false ->
      process_not_acceptable self req s =
        (Returned None,
         reached (with_status codes.not_acceptable (resp s))
           [Called M_accept_type_supported; Checked C406 true] s)).
Proof.
  intros Hacc Hno.
  assert (E : accept_type_supported self req s =
    (if Qeq_bool (Accept.quality (accept_mimetypes req) "*/*") 0
     then (Next true,
           {| resp := match supported_accept_types self with
                      | first :: _ => with_accept_type first (resp s)
                      | [] => resp s
                      end;
              trace := trace s |})
     else (Next false, s))).
  { unfold accept_type_supported. rewrite Hacc, (find_no_overlap _ _ Hno).
    destruct (Qeq_bool _ 0); simpl; [|reflexivity].
    destruct (supported_accept_types self); [|reflexivity].
    now destruct s. }
  split; [exact E|]. intros Hq.
  unfold process_not_acceptable, check_not_acceptable, accept_type_supported.
  rewrite Hacc, (find_no_overlap _ _ Hno), Hq.
  run. unfold reached. now rewrite <- app_assoc.
Qed.

End Negotiation.

Lemma accept_type_without_overlap_witness :
  process_not_acceptable json_resource accept_text_plain fresh =
    (Returned None,
     reached (with_status 406 Response_new)
       [Called M_accept_type_supported; Checked C406 true] fresh).
Proof.
  apply (accept_type_without_overlap json_resource accept_text_plain fresh).
  - reflexivity.
  - intros mime Hin Hsup. vm_compute in Hin, Hsup.
    apply list_elem_of_singleton in Hin, Hsup. congruence.
  - reflexivity.
Defined.

(** [Accept: text/plain] on a resource that supports only
    [application/json]: 406. *)
Example text_plain_is_not_acceptable :
  status_of (@__call__ epoch_http json_resource accept_text_plain) = Some 406.
Proof. vm_compute. reflexivity. Qed.

(** [Accept: text/plain;q=0, */*] shares no type with a resource that
    supports only [application/json], and the quality its list gives for
    [*/*] is 1, not 0; negotiation fails and the answer is 406. *)
Lemma wildcard_after_zero_is_refused :
  (forall mime,
     mime ∈ Accept.values (accept_mimetypes accept_wildcard_after_zero) ->
     mime ∉ supported_accept_types json_resource)
  /\ fst (accept_type_supported json_resource accept_wildcard_after_zero fresh)
     = Next false
  /\ status_of (@__call__ epoch_http json_resource accept_wildcard_after_zero)
     = Some 406.
Proof.
  split; [|split; vm_compute; reflexivity].
  intros mime Hin Hsup. vm_compute in Hin, Hsup.
  apply list_elem_of_singleton in Hsup. subst mime.
  apply elem_of_cons in Hin as [Hin|Hin]; [discriminate|].
  apply list_elem_of_singleton in Hin. discriminate.
Qed.

(** [Accept: text/plain, */*;q=0] is refused as well: the wildcard is
    listed with quality 0, but the first media range of the list has
    quality 1. *)
Example explicit_wildcard_zero_is_refused :
  accept_type_supported json_resource accept_text_plain_only fresh
  = (Next false, fresh)
  /\ status_of (@__call__ epoch_http json_resource accept_text_plain_only)
     = Some 406.
Proof. split; vm_compute; reflexivity. Qed.

(** A list that gives [*/*] the quality 0 falls back to the default
    type. *)
Example nothing_acceptable_gets_the_default :
  accept_type_supported json_resource accept_nothing fresh =
    (Next true,
     {| resp := with_accept_type "application/json" Response_new;
        trace := [] |}).
Proof. vm_compute. reflexivity. Qed.

(** C1 (the code at the failing input): [Accept: text/plain;q=0, */*] on a
    resource that supports only [application/json].  The list does not set
    [*/*] to quality 0, so by the comment above the guard nothing precludes
    the default type (and the claim says negotiation succeeds); yet
    [accept_type_supported] answers [False] and the response is 406.  The
    library hands the list over highest quality first, and its lookup of
    [*/*] gives the quality of the first entry, 1, which the guard takes
    for a refusal.  The guard is the wrong way round whatever the order of
    the list: a lone [*/*] is refused too, and a lone [*/*;q=0], which
    rejects every type, is answered with the default type. *)
Theorem wildcard_guard_is_inverted :
  accept_mimetypes accept_wildcard_after_zero
  = [("*/*", 1%Q); ("text/plain", 0%Q)]
  /\ (forall mime,
        mime ∈ Accept.values (accept_mimetypes accept_wildcard_after_zero) ->
        mime ∉ supported_accept_types json_resource)
  /\ accept_type_supported json_resource accept_wildcard_after_zero fresh
     = (Next false, fresh)
  /\ status_of (@__call__ epoch_http json_resource accept_wildcard_after_zero)
     = Some 406
  /\ accept_type_supported json_resource accept_wildcard fresh
     = (Next false, fresh)
  /\ status_of (@__call__ epoch_http json_resource accept_wildcard)
     = Some 406
  /\ accept_type_supported json_resource accept_wildcard_zero fresh
     = (Next true,
        {| resp := with_accept_type "application/json" Response_new;
           trace := [] |}).
Proof.
  split; [reflexivity|]. split.
  - intros mime Hin Hsup. vm_compute in Hin, Hsup.
    apply list_elem_of_singleton in Hsup. subst mime.
    apply elem_of_cons in Hin as [Hin|Hin]; [discriminate|].
    apply list_elem_of_singleton in Hin. discriminate.
  - repeat split; vm_compute; reflexivity.
Qed.

(** ** The request entity checks *)

Ltac elsewhere :=
  repeat step_body;
  try (simpl; tauto);
  try (eapply emits_mono; [|apply call_member_mute]; simpl; tauto).

Section Entity_facts.
Context `{HttpLib}.
Variables (self : Resource) (req : Request).

Lemma emits_ext {A} (m m' : M A) P :
  (forall s, m s = m' s) -> emits m' P -> emits m P.
Proof. intros Heq Hm s res s' E. rewrite Heq in E. eauto. Qed.

(** A check whose answer is known logs that answer. *)
Lemma checked_ret_emits c b : emits (checked c (ret b)) (fun e => e = Checked c b).
Proof.
  intros s res s' [= <- <-]. exists [Checked c b]. split; [reflexivity|].
  now constructor.
Qed.

(** No other block of [process] appends an event of the entity checks. *)
Lemma entity_events_only_from_entity_block (Q : Event -> Prop) :
  emits (process_request_entity self req) Q ->
  emits (process_body self req) (fun e => entity_event e -> Q e).
Proof.
  intros HQ. rewrite process_body_unfold.
  apply emits_bind; [|intros _].
  { unfold process_service_unavailable, check_service_unavailable. elsewhere. }
  apply emits_bind; [|intros _].
  { unfold process_unauthorized. elsewhere. }
  apply emits_bind; [|intros _].
  { unfold process_forbidden. elsewhere. }
  apply emits_bind; [|intros _].
  { unfold process_too_many_requests. elsewhere. }
  apply emits_bind; [|intros _].
  { rewrite process_options_unfold. elsewhere. }
  apply emits_bind; [|intros _].
  { eapply emits_mono; [|exact HQ]. tauto. }
  apply emits_bind; [|intros _].
  { unfold process_method_not_allowed, check_method_not_allowed. elsewhere. }
  apply emits_bind; [|intros _].
  { unfold process_not_acceptable, check_not_acceptable, unless_supported,
      accept_type_supported. elsewhere. }
  apply emits_bind; [|intros _].
  { unfold process_not_found. elsewhere. }
  apply emits_bind; [|intros _].
  { unfold process_gone. elsewhere. }
  apply emits_bind; [|intros _].
  { unfold process_precondition_required, check_precondition_required.
    elsewhere. }
  apply emits_bind; [|intros _].
  { unfold process_precondition_failed, check_precondition_failed.
    elsewhere. }
  apply emits_bind; [|intros _].
  { unfold process_conditional_get. elsewhere. }
  rewrite process_handler_unfold. elsewhere.
Qed.

Lemma process_emits (P : Event -> Prop) s out s' :
  emits (process_body self req) P ->
  process self req s = (out, s') ->
  exists evs, trace s' = trace s ++ evs /\ Forall P evs.
Proof.
  intros HP. unfold process, run_function.
  destruct (process_body self req s) as [res s1] eqn:E.
  destruct (HP _ _ _ E) as (evs & T & F).
  intros E'. assert (s1 = s') as -> by (destruct res; congruence). eauto.
Qed.

(** A failing check decides the answer. *)
Lemma process_failed_check s out s' evs c :
  process self req s = (out, s') ->
  trace s' = trace s ++ evs ->
  Checked c true ∈ evs ->
  status (resp s') = code c /\ out = inr None.
Proof.
  unfold process, run_function. intros E T Hin.
  destruct (process_body self req s) as [res s1] eqn:Eb.
  destruct (process_body_stages self req _ _ _ Eb)
    as (evs' & T' & _ & _ & Fail & _).
  assert (s1 = s') as -> by (destruct res; now inversion E).
  rewrite T in T'. apply app_inv_head in T'. subst evs'.
  destruct (Fail _ Hin) as [Hst ->]. split; [exact Hst|]. now injection E.
Qed.

End Entity_facts.

(** ** 415 Unsupported Media Type *)

Section Media_type.
Context `{HttpLib}.

(** C10: a request with no [Content-Type] header, or an empty content
    type, passes the 415 check whatever the resource supports: the check
    answers [False] and touches nothing; with a non-zero content length the
    entity block logs that answer and goes on to the 413 check; and no run
    of [process] on such a request fails the 415 check or calls
    [content_type_supported], [content_encoding_supported] or
    [content_language_supported]. *)
Theorem no_content_type_passes_415 (self : Resource) (req : Request) :
  has_header req "content-type" = false
  \/ string_truthy (content_type req) = false ->
  (forall s, check_unsupported_media_type self req s = (Next false, s))
  /\ (Py.truthy (content_length req) = true ->
      forall s,
        process_request_entity self req s =
          (if Py.truthy (max_request_entity_length self) then
             failed ← checked C413 (check_request_entity_too_large self req);
             if failed then
               set_status codes.request_entity_too_large ;; return_ None
             else ret ()
           else ret ()) (reached (resp s) [Checked C415 false] s))
  /\ (forall s out s',
        process self req s = (out, s') ->
        exists evs,
          trace s' = trace s ++ evs
          /\ Forall (fun e =>
                       e <> Checked C415 true
                       /\ e <> Called M_content_type_supported
                       /\ e <> Called M_content_encoding_supported
                       /\ e <> Called M_content_language_supported) evs).
Proof.
  intros Hc.
  assert (Hcond : has_header req "content-type"
                  && string_truthy (content_type req) = false).
  { destruct Hc as [-> | ->]; [reflexivity|apply andb_false_r]. }
  assert (Hcheck : forall s,
            check_unsupported_media_type self req s = (Next false, s)).
  { intros s. unfold check_unsupported_media_type. now rewrite Hcond. }
  split; [exact Hcheck|]. split.
  - intros Hlen s. unfold process_request_entity. rewrite Hlen.
    unfold bind at 1. unfold checked at 1. unfold bind at 1.
    rewrite Hcheck. reflexivity.
  - intros s out s'. apply process_emits.
    eapply emits_mono;
      [|apply entity_events_only_from_entity_block
          with (Q := fun e => e <> Checked C415 true
                              /\ e <> Called M_content_type_supported
                              /\ e <> Called M_content_encoding_supported
                              /\ e <> Called M_content_language_supported)].
    + intros e He. destruct e as [[] b|[]]; simpl in He;
        try (repeat split; discriminate); apply He; exact I.
    + unfold process_request_entity, check_unsupported_media_type.
      rewrite Hcond. apply emits_if; [|apply emits_ret].
      apply emits_bind.
      * eapply emits_mono; [|apply checked_ret_emits].
        intros e ->. repeat split; discriminate.
      * intros failed. unfold check_request_entity_too_large.
        repeat step_body; repeat split; discriminate.
Qed.

End Media_type.

Lemma no_content_type_passes_415_witness :
  check_unsupported_media_type json_resource (untyped_post 12) fresh
  = (Next false, fresh).
Proof.
  destruct (no_content_type_passes_415 (H := epoch_http) json_resource
              (untyped_post 12)) as [Hcheck _];
    [left; reflexivity|exact (Hcheck fresh)].
Defined.

(** ** 413 Request Entity Too Large *)

Lemma store_resource_constructed :
  ResourceMetaclass.__new__ http_methods false store_class
  = inr store_resource.
Proof. reflexivity. Qed.

Section Entity_length.
Context `{HttpLib}.

Lemma request_entity_emits (self : Resource) (req : Request) :
  emits (process_request_entity self req)
    (fun e => forall b, e = Checked C413 b ->
       Py.truthy (content_length req) = true
       /\ Py.truthy (max_request_entity_length self) = true
       /\ b = Py.gt (content_length req) (max_request_entity_length self)).
Proof.
  unfold process_request_entity.
  destruct (Py.truthy (content_length req)) eqn:Hlen; [|apply emits_ret].
  apply emits_bind.
  - unfold check_unsupported_media_type, unless_supported,
      content_type_supported.
    repeat step_body; discriminate.
  - intros failed. apply emits_if; [repeat step_body|].
    destruct (Py.truthy (max_request_entity_length self)) eqn:Hmax;
      [|apply emits_ret].
    apply emits_bind; [|intros failed'; repeat step_body].
    eapply emits_mono; [|apply checked_ret_emits].
    intros e -> b [= <-]. repeat split.
Qed.

(** C8: in any run of [process], the 413 check is evaluated only for a
    request with a non-zero content length on a resource with a non-zero
    [max_request_entity_length]; its answer is whether the length exceeds
    the maximum, and when it fails the status is 413 and [process] returns.
    On such a request, once the 415 check has passed, the entity block
    answers 413 when the declared length [n] is greater than the maximum
    [m], and otherwise goes on to the next check. *)
Theorem entity_too_large_check (self : Resource) (req : Request) :
  (forall s out s',
     process self req s = (out, s') ->
     exists evs,
       trace s' = trace s ++ evs
       /\ forall b, Checked C413 b ∈ evs ->
            Py.truthy (content_length req) = true
            /\ Py.truthy (max_request_entity_length self) = true
            /\ b = Py.gt (content_length req) (max_request_entity_length self)
            /\ (b = true ->
                status (resp s') = codes.request_entity_too_large
                /\ out = inr None))
  /\ (forall n m s s1,
        content_length req = Some n -> n <> 0 ->
        max_request_entity_length self = Some m -> m <> 0 ->
        check_unsupported_media_type self req s = (Next false, s1) ->
        process_request_entity self req s =
          if Z.ltb m n
          then (Returned None,
                reached (with_status codes.request_entity_too_large (resp s1))
                  [Checked C415 false; Checked C413 true] s1)
          else (Next (),
                reached (resp s1)
                  [Checked C415 false; Checked C413 false] s1)).
Proof.
  split.
  - intros s out s' E.
    destruct (process_emits self req _ s out s'
                (entity_events_only_from_entity_block self req _
                   (request_entity_emits self req)) E) as (evs & T & F).
    exists evs. split; [exact T|]. intros b Hin.
    rewrite Forall_forall in F.
    destruct (F _ Hin I b eq_refl) as (Hlen & Hmax & Hb).
    split; [exact Hlen|]. split; [exact Hmax|]. split; [exact Hb|].
    intros Hfail. rewrite Hfail in Hin.
    exact (process_failed_check self req _ _ _ _ _ E T Hin).
  - intros n m s s1 Hlen Hn Hmax Hm Hcheck.
    unfold process_request_entity, check_request_entity_too_large.
    rewrite Hlen, Hmax. simpl.
    rewrite (proj2 (Z.eqb_neq n 0) Hn), (proj2 (Z.eqb_neq m 0) Hm). simpl.
    unfold bind at 1. unfold checked at 1. unfold bind at 1.
    rewrite Hcheck. run. unfold reached.
    destruct (Z.ltb m n); run; now rewrite <- app_assoc.
Qed.

End Entity_length.

Lemma entity_too_large_check_witness :
  process_request_entity limited_store (json_body "POST" 101 ∅) fresh =
    (Returned None,
     reached (with_status 413 Response_new)
       [Checked C415 false; Checked C413 true]
       (reached Response_new [Called M_content_type_supported] fresh))
  /\ process_request_entity limited_store (json_body "POST" 100 ∅) fresh =
       (Next (),
        reached Response_new
          [Checked C415 false; Checked C413 false]
          (reached Response_new [Called M_content_type_supported] fresh)).
Proof.
  split.
  - rewrite (proj2 (entity_too_large_check (H := epoch_http) limited_store
                      (json_body "POST" 101 ∅)) 101 100 fresh
               (reached Response_new [Called M_content_type_supported] fresh));
      (reflexivity || discriminate).
  - rewrite (proj2 (entity_too_large_check (H := epoch_http) limited_store
                      (json_body "POST" 100 ∅)) 100 100 fresh
               (reached Response_new [Called M_content_type_supported] fresh));
      (reflexivity || discriminate).
Defined.

(** [max_request_entity_length = 100]: a body of 101 bytes is answered 413,
    one of 100 bytes reaches the handler. *)
Example entity_of_101_is_too_large :
  status_of (@__call__ epoch_http limited_store (json_body "POST" 101 ∅))
  = Some 413.
Proof. vm_compute. reflexivity. Qed.

Example entity_of_100_is_handled :
  @__call__ epoch_http limited_store (json_body "POST" 100 ∅)
  = inr (with_data "created" (with_accept_type "application/json" Response_new)).
Proof. vm_compute. reflexivity. Qed.

(** ** The OPTIONS short-circuit *)

Section Options.
Context `{HttpLib}.

(** C5: for an OPTIONS request on a resource that allows OPTIONS and keeps
    the handler of the base class, once the 503, 401, 403 and 429 checks
    have passed, [process] calls the OPTIONS handler and returns, with no
    later check evaluated.  The handler leaves the status as those checks
    left it (200 on a new response, so 2xx), leaves the body alone, and
    sets [Allow] to the allowed methods, sorted and joined by commas,
    [Content-Length] to 0, [Cache-Control] and [Pragma] to [no-cache], and
    [Accept-Patch] to the joined patch types exactly when PATCH is allowed:
    otherwise that header stays as it was. *)
Theorem options_short_circuit (self : Resource) (req : Request)
    (s s1 : State) :
  method req = methods.options ->
  "OPTIONS" ∈ allowed_methods self ->
  members self !! "options" = None ->
  until_options self req s = (Next (), s1) ->
  exists s2,
    process self req s = (inr None, s2)
    /\ trace s2 = trace s1 ++ [Called M_options]
    /\ status (resp s2) = status (resp s1)
    /\ (200 <= status (resp s1) < 300 -> 200 <= status (resp s2) < 300)
    /\ data (resp s2) = data (resp s1)
    /\ response_headers (resp s2) !! "Allow" =
         Some (HStr (Py.join ", " (Py.sorted (allowed_methods self))))
    /\ Sorted Py.le (Py.sorted (allowed_methods self))
    /\ Permutation (allowed_methods self) (Py.sorted (allowed_methods self))
    /\ response_headers (resp s2) !! "Content-Length" = Some (HInt 0)
    /\ response_headers (resp s2) !! "Cache-Control" = Some (HStr "no-cache")
    /\ response_headers (resp s2) !! "Pragma" = Some (HStr "no-cache")
    /\ response_headers (resp s2) !! "Accept-Patch" =
         if bool_decide ("PATCH" ∈ allowed_methods self)
         then Some (HStr (Py.join ", " (supported_patch_types self)))
         else response_headers (resp s1) !! "Accept-Patch".
Proof.
  intros Hm Hallowed Hdefault Hpass.
  unfold process, run_function.
  rewrite (process_body_from_options _ _ _ _ Hpass).
  unfold from_options. unfold bind at 1.
  rewrite process_options_unfold. unfold is_method. rewrite Hm.
  rewrite (bool_decide_eq_true_2 _ Hallowed).
  rewrite (getattr_inherited _ _ Hdefault).
  change (Resource_attribute "options") with (Some Default_options).
  cbv beta iota. rewrite call_member_unfold. cbv beta iota.
  unfold options.
  destruct (bool_decide ("PATCH" ∈ allowed_methods self)); run;
    (eexists; split; [reflexivity|]); simpl;
    repeat (split; [first
      [ reflexivity | tauto
      | apply PyFacts.sorted_Sorted | apply PyFacts.sorted_perm
      | now rewrite !lookup_insert_ne, lookup_insert_eq by discriminate
      | now rewrite lookup_insert_eq ]|]).
  - now rewrite !lookup_insert_ne, lookup_insert_eq by discriminate.
  - now rewrite !lookup_insert_ne by discriminate.
Qed.

End Options.

Lemma options_short_circuit_witness :
  exists s2,
    @process epoch_http store_resource (bare_request "OPTIONS") fresh
    = (inr None, s2)
    /\ trace s2 = [Checked C503 false; Checked C401 false; Checked C403 false;
                   Called M_options]
    /\ status (resp s2) = 200
    /\ response_headers (resp s2) !! "Allow"
       = Some (HStr "GET, HEAD, OPTIONS, PATCH, POST, PUT")
    /\ response_headers (resp s2) !! "Accept-Patch"
       = Some (HStr "application/json").
Proof.
  destruct (options_short_circuit (H := epoch_http) store_resource
              (bare_request "OPTIONS") fresh
              (reached Response_new
                 [Checked C503 false; Checked C401 false; Checked C403 false]
                 fresh))
    as (s2 & E & T & St & _ & _ & Allow & _ & _ & _ & _ & _ & Patch).
  - reflexivity.
  - repeat constructor.
  - reflexivity.
  - reflexivity.
  - exists s2. split; [exact E|]. split; [exact T|]. split; [exact St|].
    split; [exact Allow|exact Patch].
Defined.

(** ** Conditional GET and HEAD *)

Section Conditional_get.
Context `{HttpLib}.
Variables (self : Resource) (req : Request).

Lemma get_is_not_put :
  method req = methods.get \/ method req = methods.head ->
  is_method req methods.put || is_method req methods.patch = false.
Proof.
  unfold is_method. intros [-> | ->]; reflexivity.
Qed.

Lemma get_is_get :
  method req = methods.get \/ method req = methods.head ->
  is_method req methods.get || is_method req methods.head = true.
Proof.
  unfold is_method. intros [-> | ->]; reflexivity.
Qed.

(** What [process] does with a GET or HEAD request that got past the
    first ten blocks. *)
Lemma conditional_get_run s s1 :
  method req = methods.get \/ method req = methods.head ->
  until_preconditions self req s = (Next (), s1) ->
  let none_match := use_etags self && has_header req "if-none-match" in
  let same_tag := header_is req "if-none-match" (get_etag self req) in
  let modified_since :=
    use_last_modified self && has_header req "if-modified-since" in
  let same_date :=
    header_is req "if-modified-since"
      (Some (http_date (get_last_modified self req))) in
  let tag_events :=
    if none_match then [Called M_get_etag; Checked C304_none_match same_tag]
    else [] in
  let date_events :=
    if modified_since
    then [Called M_get_last_modified; Checked C304_modified_since same_date]
    else [] in
  process self req s =
    if none_match && same_tag then
      (inr None, reached (with_status codes.not_modified (resp s1))
                   tag_events s1)
    else if modified_since && same_date then
      (inr None, reached (with_status codes.not_modified (resp s1))
                   (tag_events ++ date_events) s1)
    else
      run_function (process_handler self req)
        (reached (resp s1) (tag_events ++ date_events) s1).
Proof.
  intros Hm Hpass. cbv zeta.
  unfold process. unfold run_function at 1.
  rewrite (process_body_from_preconditions _ _ _ _ Hpass).
  unfold from_preconditions, process_precondition_required,
    process_precondition_failed, process_conditional_get.
  rewrite (get_is_not_put Hm), (get_is_get Hm).
  unfold run_function, reached. destruct s1 as [r1 t1]. cbn [resp trace].
  destruct (require_conditional_request self),
    (use_etags self), (has_header req "if-none-match"),
    (use_last_modified self), (has_header req "if-modified-since");
    run;
    destruct (header_is req "if-none-match" (get_etag self req)),
      (header_is req "if-modified-since"
         (Some (http_date (get_last_modified self req))));
    run; rewrite ?app_nil_r, <- ?app_assoc; reflexivity.
Qed.

End Conditional_get.

Section Conditional_get_claim.
Context `{HttpLib}.

Lemma has_header_Some (req : Request) k v :
  headers req !! k = Some v -> has_header req k = true.
Proof. intros E. unfold has_header. rewrite E. reflexivity. Qed.

Lemma has_header_None (req : Request) k :
  headers req !! k = None -> has_header req k = false.
Proof.
  intros E. unfold has_header. rewrite E. apply bool_decide_eq_false_2.
  now intros [? ?].
Qed.

Lemma header_is_Some (req : Request) k v x :
  headers req !! k = Some x -> header_is req k v = bool_decide (v = Some x).
Proof. intros E. unfold header_is. now rewrite E. Qed.

Lemma header_is_has_header (req : Request) k v :
  header_is req k v = true -> has_header req k = true.
Proof.
  unfold header_is. destruct (headers req !! k) eqn:E; [|discriminate].
  intros _. now apply has_header_Some in E.
Qed.

(** C6, amended: for a GET or HEAD request that has passed the checks
    before the conditional stage.  With [use_etags], an [If-None-Match]
    equal to the current entity tag is answered 304: [process] returns
    [None], writes no body and calls no handler.  When it differs, the
    handler of the method is called, provided [use_last_modified] is off or
    [If-Modified-Since] is absent or differs from the formatted
    last-modified value.  With [use_last_modified], an [If-Modified-Since]
    equal as a string to the HTTP-date of the current last-modified value
    is answered 304 without calling a handler. *)
Theorem conditional_get (self : Resource) (req : Request) (s s1 : State) :
  method req = methods.get \/ method req = methods.head ->
  until_preconditions self req s = (Next (), s1) ->
  (forall tag,
     use_etags self = true ->
     headers req !! "if-none-match" = Some tag ->
     get_etag self req = Some tag ->
     process self req s =
       (inr None,
        reached (with_status codes.not_modified (resp s1))
          [Called M_get_etag; Checked C304_none_match true] s1))
  /\ (forall tag,
        use_etags self = true ->
        headers req !! "if-none-match" = Some tag ->
        get_etag self req <> Some tag ->
        use_last_modified self
        && header_is req "if-modified-since"
             (Some (http_date (get_last_modified self req))) = false ->
        process self req s =
          run_function (process_handler self req)
            (reached (resp s1)
               ([Called M_get_etag; Checked C304_none_match false]
                ++ (if use_last_modified self
                       && has_header req "if-modified-since"
                    then [Called M_get_last_modified;
                          Checked C304_modified_since false]
                    else [])) s1))
  /\ (forall date,
        use_last_modified self = true ->
        headers req !! "if-modified-since" = Some date ->
        date = http_date (get_last_modified self req) ->
        exists evs,
          process self req s =
            (inr None,
             reached (with_status codes.not_modified (resp s1)) evs s1)
          /\ forall name, Called (M_handler name) ∉ evs).
Proof.
  intros Hm Hpass.
  pose proof (conditional_get_run self req s s1 Hm Hpass) as Hrun.
  cbv zeta in Hrun. split; [|split].
  - intros tag Hetag Hhdr Htag. rewrite Hrun.
    rewrite Hetag, (has_header_Some _ _ _ Hhdr), (header_is_Some _ _ _ _ Hhdr).
    rewrite (bool_decide_eq_true_2 _ Htag). reflexivity.
  - intros tag Hetag Hhdr Htag Hdate. rewrite Hrun.
    rewrite Hetag, (has_header_Some _ _ _ Hhdr), (header_is_Some _ _ _ _ Hhdr).
    rewrite (bool_decide_eq_false_2 _ Htag). simpl.
    destruct (use_last_modified self); simpl in *; [|reflexivity].
    rewrite Hdate, andb_false_r. reflexivity.
  - intros date Hlm Hhdr ->. rewrite Hrun.
    rewrite Hlm, (has_header_Some _ _ _ Hhdr), (header_is_Some _ _ _ _ Hhdr).
    rewrite (bool_decide_eq_true_2 _ eq_refl). simpl.
    destruct (use_etags self && has_header req "if-none-match");
      [destruct (header_is req "if-none-match" (get_etag self req))|];
      simpl; eexists; (split; [reflexivity|]);
      intros name Hin; repeat (apply elem_of_cons in Hin as [Hin|Hin];
                               [discriminate|]);
      now apply not_elem_of_nil in Hin.
Qed.

End Conditional_get_claim.

Lemma conditional_get_witness :
  @process epoch_http tagged_store get_if_none_match_abc fresh =
    (inr None,
     reached (with_status 304 (resp past_gates))
       [Called M_get_etag; Checked C304_none_match true] past_gates).
Proof.
  apply (proj1 (conditional_get (H := epoch_http) tagged_store
                  get_if_none_match_abc fresh past_gates
                  (or_introl eq_refl) eq_refl) "abc");
    reflexivity.
Defined.

(** [If-None-Match: abc] against the tag [abc] is answered 304 with an
    empty body. *)
Example if_none_match_same_tag :
  @__call__ epoch_http tagged_store get_if_none_match_abc
  = inr (with_status 304 (with_accept_type "application/json" Response_new)).
Proof. vm_compute. reflexivity. Qed.

(** [If-None-Match: xyz] against the tag [abc] gets the body of [get]. *)
Example if_none_match_other_tag :
  @__call__ epoch_http tagged_store
    (request_with "GET" {[ "if-none-match" := "xyz" ]})
  = inr (with_data "{}" (with_accept_type "application/json" Response_new)).
Proof. vm_compute. reflexivity. Qed.

(** C6, the counterexample: the resource uses entity tags and modification
    times; the request's [If-None-Match] differs from the current tag, its
    [If-Modified-Since] is the text of the current modification time.  The
    answer is 304 and [get] is not called. *)
Lemma new_tag_same_date_is_not_modified :
  use_etags tagged_dated_store = true
  /\ headers get_new_tag_same_date !! "if-none-match" = Some "xyz"
  /\ get_etag tagged_dated_store get_new_tag_same_date = Some "abc"
  /\ @process epoch_http tagged_dated_store get_new_tag_same_date fresh =
       (inr None,
        reached (with_status 304 (resp past_gates))
          [Called M_get_etag; Checked C304_none_match false;
           Called M_get_last_modified; Checked C304_modified_since true]
          past_gates).
Proof. repeat split; vm_compute; reflexivity. Qed.

(** ** Conditional PUT and PATCH *)

Section Conditional_put.
Context `{HttpLib}.

Lemma put_is_put (req : Request) :
  method req = methods.put \/ method req = methods.patch ->
  is_method req methods.put || is_method req methods.patch = true.
Proof. unfold is_method. intros [-> | ->]; reflexivity. Qed.

Lemma put_is_not_get (req : Request) :
  method req = methods.put \/ method req = methods.patch ->
  is_method req methods.get || is_method req methods.head = false.
Proof. unfold is_method. intros [-> | ->]; reflexivity. Qed.

(** C7, amended: for a PUT or PATCH request that has passed the checks
    before the conditional stage, on a resource with
    [require_conditional_request] and [use_etags].  Without [If-Match] the
    answer is 428, the body naming [If-Match].  With an [If-Match] that
    differs from the current entity tag the answer is 412 and no handler is
    called, provided [use_last_modified] is off or the request has an
    [If-Unmodified-Since] header.  With an [If-Match] equal to the current
    tag the handler of the method is called, provided [use_last_modified]
    is off or [If-Unmodified-Since] equals the formatted last-modified
    value.  With [use_last_modified] on and no [If-Unmodified-Since]
    header, a request that has [If-Match] is answered 428, the body naming
    [If-Unmodified-Since]. *)
Theorem conditional_put (self : Resource) (req : Request) (s s1 : State) :
  method req = methods.put \/ method req = methods.patch ->
  require_conditional_request self = true ->
  use_etags self = true ->
  until_preconditions self req s = (Next (), s1) ->
  (headers req !! "if-match" = None ->
   process self req s =
     (inr None,
      reached (precondition_required "If-Match" (resp s1))
        [Checked C428 true] s1))
  /\ (forall tag,
        headers req !! "if-match" = Some tag ->
        get_etag self req <> Some tag ->
        use_last_modified self = false
        \/ has_header req "if-unmodified-since" = true ->
        process self req s =
          (inr None,
           reached (with_status codes.precondition_failed (resp s1))
             [Checked C428 false; Called M_get_etag; Checked C412 true] s1))
  /\ (forall tag,
        headers req !! "if-match" = Some tag ->
        get_etag self req = Some tag ->
        use_last_modified self = false
        \/ header_is req "if-unmodified-since"
             (Some (http_date (get_last_modified self req))) = true ->
        process self req s =
          run_function (process_handler self req)
            (reached (resp s1)
               ([Checked C428 false; Called M_get_etag]
                ++ (if use_last_modified self
                    then [Called M_get_last_modified] else [])
                ++ [Checked C412 false]) s1))
  /\ (forall tag,
        headers req !! "if-match" = Some tag ->
        use_last_modified self = true ->
        headers req !! "if-unmodified-since" = None ->
        process self req s =
          (inr None,
           reached (precondition_required "If-Unmodified-Since" (resp s1))
             [Checked C428 true] s1)).
Proof.
  intros Hm Hreq Hetag Hpass.
  assert (Hrun : process self req s =
            run_function
              (process_precondition_required self req ;;
               process_precondition_failed self req ;;
               process_handler self req) s1).
  { unfold process, run_function.
    rewrite (process_body_from_preconditions _ _ _ _ Hpass).
    unfold from_preconditions, process_conditional_get.
    rewrite (put_is_not_get _ Hm). unfold bind.
    destruct (process_precondition_required self req s1) as [[[]| |] s2];
      reflexivity. }
  rewrite Hrun. clear Hrun.
  unfold process_precondition_required, process_precondition_failed,
    check_precondition_required, check_precondition_failed.
  rewrite Hreq, (put_is_put _ Hm), Hetag.
  unfold run_function, reached, precondition_required.
  destruct s1 as [r1 t1]. cbn [resp trace andb].
  split; [|split; [|split]].
  - intros Hhdr. rewrite (has_header_None _ _ Hhdr). run.
    reflexivity.
  - intros tag Hhdr Htag Hdate.
    rewrite (has_header_Some _ _ _ Hhdr). cbn [negb andb].
    assert (Hno : use_last_modified self
                  && negb (has_header req "if-unmodified-since") = false).
    { destruct Hdate as [-> | ->]; [reflexivity|apply andb_false_r]. }
    rewrite Hno. run.
    rewrite (header_is_Some _ _ _ _ Hhdr), (bool_decide_eq_false_2 _ Htag).
    run. rewrite <- ?app_assoc. reflexivity.
  - intros tag Hhdr Htag Hdate.
    rewrite (has_header_Some _ _ _ Hhdr). cbn [negb andb].
    assert (Hno : use_last_modified self
                  && negb (has_header req "if-unmodified-since") = false).
    { destruct Hdate as [-> | Hdate]; [reflexivity|].
      rewrite (header_is_has_header _ _ _ Hdate). apply andb_false_r. }
    rewrite Hno. run.
    rewrite (header_is_Some _ _ _ _ Hhdr), (bool_decide_eq_true_2 _ Htag).
    run.
    destruct Hdate as [-> | Hdate].
    + run. rewrite <- ?app_assoc. reflexivity.
    + rewrite (header_is_has_header _ _ _ Hdate).
      destruct (use_last_modified self); run; rewrite ?Hdate; run;
        rewrite <- ?app_assoc; reflexivity.
  - intros tag Hhdr Hlm Hdate.
    rewrite (has_header_Some _ _ _ Hhdr), Hlm, (has_header_None _ _ Hdate).
    run. reflexivity.
Qed.

End Conditional_put.

Lemma conditional_put_witness :
  @process epoch_http conditional_store put_if_match_abc fresh =
    run_function (@process_handler epoch_http conditional_store put_if_match_abc)
      (reached (resp past_gates)
         [Checked C428 false; Called M_get_etag; Checked C412 false]
         past_gates).
Proof.
  destruct (conditional_put (H := epoch_http) conditional_store
              put_if_match_abc fresh past_gates
              (or_introl eq_refl) eq_refl eq_refl eq_refl)
    as (_ & _ & Hequal & _).
  apply (Hequal "abc"); [reflexivity|reflexivity|left; reflexivity].
Defined.

(** The three cases of the conditional PUT. *)
Example put_without_if_match :
  status_of (@__call__ epoch_http conditional_store (request_with "PUT" ∅))
  = Some 428.
Proof. vm_compute. reflexivity. Qed.

Example put_with_wrong_tag :
  status_of (@__call__ epoch_http conditional_store
               (request_with "PUT" {[ "if-match" := "wrong" ]}))
  = Some 412.
Proof. vm_compute. reflexivity. Qed.

Example put_with_current_tag :
  @__call__ epoch_http conditional_store put_if_match_abc
  = inr (with_data "stored"
           (with_accept_type "application/json" Response_new)).
Proof. vm_compute. reflexivity. Qed.

(** C7, the counterexample: the resource requires conditional requests and
    uses entity tags and modification times; the PUT carries an [If-Match]
    equal to the current tag and no [If-Unmodified-Since].  The answer is
    428 and [put] is not called. *)
Lemma current_tag_without_date_is_428 :
  require_conditional_request conditional_dated_store = true
  /\ use_etags conditional_dated_store = true
  /\ headers put_if_match_abc !! "if-match" = Some "abc"
  /\ get_etag conditional_dated_store put_if_match_abc = Some "abc"
  /\ @process epoch_http conditional_dated_store put_if_match_abc fresh =
       (inr None,
        reached (with_status 428
                   (with_header "Pragma" no_cache
                      (with_header "Cache-Control" no_cache
                         (with_data (try_using "If-Unmodified-Since")
                            (resp past_gates)))))
          [Checked C428 true] past_gates).
Proof. repeat split; vm_compute; reflexivity. Qed.

(** ** Configuration errors *)

Section Raises_facts.

Lemma raises_ret {A} (a : A) P : raises (ret a) P.
Proof. intros s e s' [=]. Qed.

Lemma raises_return {A} o P : raises (@return_ A o) P.
Proof. intros s e s' [=]. Qed.

Lemma raises_modify f P : raises (modify f) P.
Proof. intros s e s' [=]. Qed.

Lemma raises_log ev P : raises (log ev) P.
Proof. intros s e s' [=]. Qed.

Lemma raises_hook {A} (f : Hook A) req P : raises (hook f req) P.
Proof.
  intros s e s'. unfold hook. destruct (f req (resp s)). intros [=].
Qed.

Lemma raises_raise {A} e (P : Exn -> Prop) : P e -> raises (@raise A e) P.
Proof. intros He s e' s' [= <- <-]. exact He. Qed.

Lemma raises_bind {A B} (m : M A) (f : A -> M B) P :
  raises m P -> (forall a, raises (f a) P) -> raises (bind m f) P.
Proof.
  intros Hm Hf s e s' E.
  apply bind_inv in E as [(a & s1 & E1 & E2)|[(o & E1 & [=])|(e' & E1 & [= ->])]].
  - eapply Hf; eauto.
  - eapply Hm; eauto.
Qed.

Lemma raises_if {A} (b : bool) (m1 m2 : M A) P :
  raises m1 P -> raises m2 P -> raises (if b then m1 else m2) P.
Proof. now destruct b. Qed.

Lemma raises_untraced {A} (m : M A) P : raises m P -> raises (untraced m) P.
Proof. intros Hm s e s' (s1 & E & _)%untraced_inv. eauto. Qed.

Lemma raises_call_function (body : M unit) P :
  raises body P -> raises (call_function body) P.
Proof.
  intros Hm s e s'. unfold call_function.
  destruct (body s) as [[[]|o|e'] s1] eqn:E; intros [= <- <-]. eauto.
Qed.

Lemma raises_on_new_response {A} (m : M A) P :
  raises m P -> raises (on_new_response m) P.
Proof.
  intros Hm s e s'. unfold on_new_response.
  destruct (m _) as [[a|o|e'] s1] eqn:E; intros [= <- <-]. eauto.
Qed.

End Raises_facts.

Ltac step_raises :=
  lazymatch goal with
  | |- raises (bind _ _) _ => apply raises_bind; [|intros ?]
  | |- raises (ret _) _ => apply raises_ret
  | |- raises (return_ _) _ => apply raises_return
  | |- raises (raise _) _ => apply raises_raise
  | |- raises (modify _) _ => apply raises_modify
  | |- raises (set_status _) _ => apply raises_modify
  | |- raises (set_header _ _) _ => apply raises_modify
  | |- raises (set_data _) _ => apply raises_modify
  | |- raises (set_accept_type _) _ => apply raises_modify
  | |- raises (hook _ _) _ => apply raises_hook
  | |- raises (log _) _ => apply raises_log
  | |- raises (called _ _) _ => unfold called
  | |- raises (checked _ _) _ => unfold checked
  | |- raises (untraced _) _ => apply raises_untraced
  | |- raises (call_function _) _ => apply raises_call_function
  | |- raises (on_new_response _) _ => apply raises_on_new_response
  | |- raises (if _ then _ else _) _ => apply raises_if
  | |- raises (match ?x with _ => _ end) _ => destruct x
  | |- raises (let _ := _ in _) _ => cbv zeta
  end.

Section Configuration.
Context `{HttpLib}.





End Configuration.


(** [allowed_methods = ('GET', 'PUT')] without a [put] method: the class
    statement raises. *)
Example put_without_handler_is_refused :
  ResourceMetaclass.__new__ http_methods true get_put_declared
  = inl (ValueError "PUT").
Proof. reflexivity. Qed.

(** The metaclass asks for a callable attribute and nothing more: a class
    that lists [PROCESS] is made, since [process] is a callable of every
    resource. *)
Example other_callables_pass_for_handlers :
  allowed_methods <$> (match ResourceMetaclass.__new__ http_methods true
                               get_process_declared with
                       | inr cls => Some cls
                       | inl _ => None
                       end)
  = Some ["GET"; "PROCESS"].
Proof. reflexivity. Qed.

(** A PROCESS request to that class passes the checks and calls [process]
    as its handler, again and again, until the interpreter gives up. *)
Example process_request_recurses :
  @__call__ epoch_http
    (with_class_attributes ["GET"; "PROCESS"] ["application/json"]
       ["application/json"] get_process_declared)
    (bare_request "PROCESS")
  = inl RuntimeError.
Proof. vm_compute. reflexivity. Qed.

(** * Beyond the claims *)

(** ** What process has tested before each step *)

Ltac split_guards :=
  repeat match goal with
         | E : _ && _ = true |- _ => apply andb_true_iff in E as [? ?]
         | E : bool_decide _ = true |- _ => apply bool_decide_eq_true in E
         end.

Ltac close_guard :=
  intros; simpl; unfold put_or_patch, get_or_head; split_guards;
  try exact I; try reflexivity;
  repeat split;
  first [ assumption
        | left; split; assumption
        | right; split; assumption
        | idtac ].

Ltac step_guarded :=
  lazymatch goal with
  | |- emits (bind _ _) _ => apply emits_bind; [|intros ?]
  | |- emits (ret _) _ => apply emits_ret
  | |- emits (return_ _) _ => apply emits_return
  | |- emits (raise _) _ => apply emits_raise
  | |- emits (modify _) _ => apply emits_modify
  | |- emits (set_status _) _ => apply emits_modify
  | |- emits (set_header _ _) _ => apply emits_modify
  | |- emits (set_data _) _ => apply emits_modify
  | |- emits (set_accept_type _) _ => apply emits_modify
  | |- emits (hook _ _) _ => apply emits_hook
  | |- emits (log _) _ => apply emits_log; close_guard
  | |- emits (called _ _) _ => unfold called
  | |- emits (checked _ _) _ => unfold checked
  | |- emits (call_member _ _ _ _) _ =>
      eapply emits_mono; [|apply call_member_mute]; contradiction
  | |- emits (if ?b then _ else _) _ => destruct b eqn:?
  | |- emits (match ?x with _ => _ end) _ => destruct x eqn:?
  | |- emits (let _ := _ in _) _ => cbv zeta
  end.

Section Guards.
Context `{HttpLib}.
Variables (self : Resource) (req : Request).

Lemma process_body_guarded :
  emits (process_body self req) (guarded self req).
Proof.
  rewrite process_body_unfold.
  apply emits_bind; [|intros _].
  { unfold process_service_unavailable, check_service_unavailable.
    repeat step_guarded. }
  apply emits_bind; [|intros _].
  { unfold process_unauthorized. repeat step_guarded. }
  apply emits_bind; [|intros _].
  { unfold process_forbidden. repeat step_guarded. }
  apply emits_bind; [|intros _].
  { unfold process_too_many_requests. repeat step_guarded. }
  apply emits_bind; [|intros _].
  { rewrite process_options_unfold. repeat step_guarded. }
  apply emits_bind; [|intros _].
  { unfold process_request_entity, check_unsupported_media_type,
      unless_supported, content_type_supported,
      check_request_entity_too_large.
    repeat step_guarded. }
  apply emits_bind; [|intros _].
  { unfold process_method_not_allowed, check_method_not_allowed.
    repeat step_guarded. }
  apply emits_bind; [|intros _].
  { unfold process_not_acceptable, check_not_acceptable, unless_supported,
      accept_type_supported.
    repeat step_guarded. }
  apply emits_bind; [|intros _].
  { unfold process_not_found. repeat step_guarded. }
  apply emits_bind; [|intros _].
  { unfold process_gone. repeat step_guarded. }
  apply emits_bind; [|intros _].
  { unfold process_precondition_required, check_precondition_required.
    repeat step_guarded. }
  apply emits_bind; [|intros _].
  { unfold process_precondition_failed, check_precondition_failed.
    repeat step_guarded. }
  apply emits_bind; [|intros _].
  { unfold process_conditional_get. repeat step_guarded. }
  rewrite process_handler_unfold. repeat step_guarded.
Qed.

End Guards.

Section Guard_facts.
Context `{HttpLib}.

Lemma process_guarded (self : Resource) (req : Request) s out s' :
  process self req s = (out, s') ->
  exists evs, trace s' = trace s ++ evs /\ Forall (guarded self req) evs.
Proof. apply process_emits, process_body_guarded. Qed.

Lemma truthy_Some (n : option Z) :
  Py.truthy n = true -> exists k, n = Some k /\ k <> 0.
Proof.
  destruct n as [k|]; [|discriminate]. simpl. intros E. exists k.
  split; [reflexivity|]. intros ->. discriminate.
Qed.

Lemma has_header_is_Some (req : Request) k :
  has_header req k = true -> is_Some (headers req !! k).
Proof. unfold has_header. apply bool_decide_eq_true. Qed.

Lemma put_or_patch_true (req : Request) :
  put_or_patch req = true ->
  method req = methods.put \/ method req = methods.patch.
Proof.
  unfold put_or_patch, is_method. intros [E|E]%orb_true_iff;
    apply bool_decide_eq_true in E; auto.
Qed.

Lemma get_or_head_true (req : Request) :
  get_or_head req = true ->
  method req = methods.get \/ method req = methods.head.
Proof.
  unfold get_or_head, is_method. intros [E|E]%orb_true_iff;
    apply bool_decide_eq_true in E; auto.
Qed.

(** X5: [process] asks a resource whether it supports a language, a
    charset or an encoding, of the response or of the request body, only
    when the request has the header in question. *)
Theorem optional_members_need_their_header (self : Resource) (req : Request)
    (s s' : State) (out : Exn + Output) :
  process self req s = (out, s') ->
  exists evs,
    trace s' = trace s ++ evs
    /\ (Called M_accept_language_supported ∈ evs ->
        is_Some (headers req !! "accept-language"))
    /\ (Called M_accept_charset_supported ∈ evs ->
        is_Some (headers req !! "accept-charset"))
    /\ (Called M_accept_encoding_supported ∈ evs ->
        is_Some (headers req !! "accept-encoding"))
    /\ (Called M_content_encoding_supported ∈ evs ->
        is_Some (headers req !! "content-encoding"))
    /\ (Called M_content_language_supported ∈ evs ->
        is_Some (headers req !! "content-language")).
Proof.
  intros E. destruct (process_guarded _ _ _ _ _ E) as (evs & T & G).
  rewrite Forall_forall in G. exists evs. split; [exact T|].
  split; [|split; [|split; [|split]]]; intros Hin; apply G in Hin;
    simpl in Hin; apply has_header_is_Some; tauto.
Qed.

(** X6: the 429 check is evaluated only on a resource whose
    [rate_limit_count] and [rate_limit_seconds] are both set and not zero;
    when it fails, the status is 429 and [process] returns [None]. *)
Theorem rate_limit_needs_count_and_seconds (self : Resource) (req : Request)
    (s s' : State) (out : Exn + Output) :
  process self req s = (out, s') ->
  exists evs,
    trace s' = trace s ++ evs
    /\ forall b, Checked C429 b ∈ evs ->
         (exists count seconds,
            rate_limit_count self = Some count /\ count <> 0
            /\ rate_limit_seconds self = Some seconds /\ seconds <> 0)
         /\ (b = true ->
             status (resp s') = codes.too_many_requests /\ out = inr None).
Proof.
  intros E. destruct (process_guarded _ _ _ _ _ E) as (evs & T & G).
  rewrite Forall_forall in G. exists evs. split; [exact T|].
  intros b Hin. split.
  - destruct (G _ Hin) as [(count & -> & Hc)%truthy_Some
                             (seconds & -> & Hs)%truthy_Some].
    exists count, seconds. auto.
  - intros ->. exact (process_failed_check self req _ _ _ _ _ E T Hin).
Qed.

(** X7: the conditional checks go by method.  The 428 check is evaluated
    only for PUT and PATCH on a resource with [require_conditional_request],
    the 412 check only for PUT and PATCH, and the two 304 comparisons only
    for GET and HEAD, with the feature on and the header in the request. *)
Theorem conditional_checks_go_by_method (self : Resource) (req : Request)
    (s s' : State) (out : Exn + Output) :
  process self req s = (out, s') ->
  exists evs,
    trace s' = trace s ++ evs
    /\ (forall b, Checked C428 b ∈ evs ->
          require_conditional_request self = true
          /\ (method req = methods.put \/ method req = methods.patch))
    /\ (forall b, Checked C412 b ∈ evs ->
          method req = methods.put \/ method req = methods.patch)
    /\ (forall b, Checked C304_none_match b ∈ evs ->
          (method req = methods.get \/ method req = methods.head)
          /\ use_etags self = true
          /\ is_Some (headers req !! "if-none-match"))
    /\ (forall b, Checked C304_modified_since b ∈ evs ->
          (method req = methods.get \/ method req = methods.head)
          /\ use_last_modified self = true
          /\ is_Some (headers req !! "if-modified-since")).
Proof.
  intros E. destruct (process_guarded _ _ _ _ _ E) as (evs & T & G).
  rewrite Forall_forall in G. exists evs. split; [exact T|].
  split; [|split; [|split]]; intros b Hin; apply G in Hin; simpl in Hin.
  - split; [tauto|]. now apply put_or_patch_true.
  - now apply put_or_patch_true.
  - split; [now apply get_or_head_true|]. split; [tauto|].
    now apply has_header_is_Some.
  - split; [now apply get_or_head_true|]. split; [tauto|].
    now apply has_header_is_Some.
Qed.

(** X8: the entity tag and the modification time are computed on demand.
    [get_etag] is called only with [use_etags] on, for a PUT or PATCH that
    has [If-Match] or a GET or HEAD that has [If-None-Match];
    [get_last_modified] only with [use_last_modified] on, for a PUT or
    PATCH that has [If-Unmodified-Since] or a GET or HEAD that has
    [If-Modified-Since]. *)
Theorem tokens_are_computed_on_demand (self : Resource) (req : Request)
    (s s' : State) (out : Exn + Output) :
  process self req s = (out, s') ->
  exists evs,
    trace s' = trace s ++ evs
    /\ (Called M_get_etag ∈ evs ->
          use_etags self = true
          /\ ((method req = methods.put \/ method req = methods.patch)
              /\ is_Some (headers req !! "if-match")
              \/ (method req = methods.get \/ method req = methods.head)
                 /\ is_Some (headers req !! "if-none-match")))
    /\ (Called M_get_last_modified ∈ evs ->
          use_last_modified self = true
          /\ ((method req = methods.put \/ method req = methods.patch)
              /\ is_Some (headers req !! "if-unmodified-since")
              \/ (method req = methods.get \/ method req = methods.head)
                 /\ is_Some (headers req !! "if-modified-since"))).
Proof.
  intros E. destruct (process_guarded _ _ _ _ _ E) as (evs & T & G).
  rewrite Forall_forall in G. exists evs. split; [exact T|].
  split; intros Hin; apply G in Hin; simpl in Hin;
    destruct Hin as [Hflag [[Hm Hh]|[Hm Hh]]]; (split; [exact Hflag|]).
  - left. split; [now apply put_or_patch_true|now apply has_header_is_Some].
  - right. split; [now apply get_or_head_true|now apply has_header_is_Some].
  - left. split; [now apply put_or_patch_true|now apply has_header_is_Some].
  - right. split; [now apply get_or_head_true|now apply has_header_is_Some].
Qed.

(** X9: a request without a body is not checked for its media type.  The
    415 check is evaluated only for a request with a non-zero content
    length, and [content_type_supported] is called only when the request
    has a [Content-Type] header and a content type that is not empty. *)
Theorem media_type_check_needs_a_body (self : Resource) (req : Request)
    (s s' : State) (out : Exn + Output) :
  process self req s = (out, s') ->
  exists evs,
    trace s' = trace s ++ evs
    /\ (forall b, Checked C415 b ∈ evs ->
          (exists n, content_length req = Some n /\ n <> 0)
          /\ (b = true ->
              status (resp s') = codes.unsupported_media_type
              /\ out = inr None))
    /\ (Called M_content_type_supported ∈ evs ->
          (exists n, content_length req = Some n /\ n <> 0)
          /\ is_Some (headers req !! "content-type")
          /\ exists t, content_type req = Some t /\ t <> EmptyString).
Proof.
  intros E. destruct (process_guarded _ _ _ _ _ E) as (evs & T & G).
  rewrite Forall_forall in G. exists evs. split; [exact T|]. split.
  - intros b Hin. split.
    + apply G in Hin. now apply truthy_Some.
    + intros ->. exact (process_failed_check self req _ _ _ _ _ E T Hin).
  - intros Hin. apply G in Hin. simpl in Hin.
    destruct Hin as (Hlen & Hhdr & Htype).
    split; [now apply truthy_Some|]. split; [now apply has_header_is_Some|].
    unfold string_truthy in Htype.
    destruct (content_type req) as [t|]; [|discriminate].
    exists t. split; [reflexivity|]. intros ->. discriminate.
Qed.

End Guard_facts.

Lemma optional_members_need_their_header_witness :
  Called M_accept_language_supported
    ∈ events_of (H := epoch_http) store_resource french_request
  /\ is_Some (headers french_request !! "accept-language").
Proof.
  destruct (optional_members_need_their_header (H := epoch_http)
              store_resource french_request fresh _ _
              (surjective_pairing _)) as (evs & T & Hlang & _).
  change (events_of (H := epoch_http) store_resource french_request = evs)
    in T.
  rewrite T. assert (Hin : Called M_accept_language_supported ∈ evs).
  { rewrite <- T. vm_compute. repeat constructor. }
  split; [exact Hin|exact (Hlang Hin)].
Defined.

Lemma rate_limit_needs_count_and_seconds_witness :
  Checked C429 false
    ∈ events_of (H := epoch_http) rate_limited_store (bare_request "GET")
  /\ exists count seconds,
       rate_limit_count rate_limited_store = Some count /\ count <> 0
       /\ rate_limit_seconds rate_limited_store = Some seconds
       /\ seconds <> 0.
Proof.
  destruct (rate_limit_needs_count_and_seconds (H := epoch_http)
              rate_limited_store (bare_request "GET") fresh _ _
              (surjective_pairing _)) as (evs & T & Hrate).
  change (events_of (H := epoch_http) rate_limited_store (bare_request "GET")
          = evs) in T.
  rewrite T. assert (Hin : Checked C429 false ∈ evs).
  { rewrite <- T. vm_compute. repeat constructor. }
  split; [exact Hin|exact (proj1 (Hrate _ Hin))].
Defined.

Lemma conditional_checks_go_by_method_witness :
  Checked C412 false
    ∈ events_of (H := epoch_http) conditional_store put_if_match_abc
  /\ (method put_if_match_abc = methods.put
      \/ method put_if_match_abc = methods.patch).
Proof.
  destruct (conditional_checks_go_by_method (H := epoch_http)
              conditional_store put_if_match_abc fresh _ _
              (surjective_pairing _)) as (evs & T & _ & H412 & _).
  change (events_of (H := epoch_http) conditional_store put_if_match_abc
          = evs) in T.
  rewrite T. assert (Hin : Checked C412 false ∈ evs).
  { rewrite <- T. vm_compute. repeat constructor. }
  split; [exact Hin|exact (H412 _ Hin)].
Defined.

Lemma tokens_are_computed_on_demand_witness :
  Called M_get_etag
    ∈ events_of (H := epoch_http) conditional_store put_if_match_abc
  /\ use_etags conditional_store = true.
Proof.
  destruct (tokens_are_computed_on_demand (H := epoch_http)
              conditional_store put_if_match_abc fresh _ _
              (surjective_pairing _)) as (evs & T & Hetag & _).
  change (events_of (H := epoch_http) conditional_store put_if_match_abc
          = evs) in T.
  rewrite T. assert (Hin : Called M_get_etag ∈ evs).
  { rewrite <- T. vm_compute. repeat constructor. }
  split; [exact Hin|exact (proj1 (Hetag Hin))].
Defined.

Lemma media_type_check_needs_a_body_witness :
  Checked C415 false
    ∈ events_of (H := epoch_http) limited_store (json_body "POST" 100 ∅)
  /\ exists n, content_length (json_body "POST" 100 ∅) = Some n /\ n <> 0.
Proof.
  destruct (media_type_check_needs_a_body (H := epoch_http)
              limited_store (json_body "POST" 100 ∅) fresh _ _
              (surjective_pairing _)) as (evs & T & H415 & _).
  change (events_of (H := epoch_http) limited_store (json_body "POST" 100 ∅)
          = evs) in T.
  rewrite T. assert (Hin : Checked C415 false ∈ evs).
  { rewrite <- T. vm_compute. repeat constructor. }
  split; [exact Hin|exact (proj1 (H415 _ Hin))].
Defined.

(** ** 405 Method Not Allowed and 415 Unsupported Media Type *)

Section Method_and_media_type.
Context `{HttpLib}.
Variables (self : Resource) (req : Request).

Lemma process_body_from_method_not_allowed s s1 :
  until_method_not_allowed self req s = (Next (), s1) ->
  process_body self req s = from_method_not_allowed self req s1.
Proof.
  intros E.
  rewrite <- (bind_Next _ (fun _ => from_method_not_allowed self req) _ _ _ E).
  rewrite process_body_unfold.
  unfold until_method_not_allowed, until_request_entity,
    until_options, from_method_not_allowed, from_preconditions, bind.
  run_blocks.
Qed.

(** X1: a request whose method the resource does not allow, and which has
    passed the checks before, is answered 405 with an [Allow] header that
    lists the allowed methods, sorted and joined by commas; [process]
    returns [None] and evaluates nothing after the 405 check. *)
Theorem method_not_allowed_answers_405 (s s1 : State) :
  method req ∉ allowed_methods self ->
  until_method_not_allowed self req s = (Next (), s1) ->
  process self req s =
    (inr None,
     reached
       (with_status codes.method_not_allowed
          (with_header "Allow"
             (HStr (Py.join ", " (Py.sorted (allowed_methods self))))
             (resp s1)))
       [Checked C405 true] s1).
Proof.
  intros Hnot Hpass. unfold process, run_function.
  rewrite (process_body_from_method_not_allowed _ _ Hpass).
  unfold from_method_not_allowed. unfold bind at 1.
  unfold process_method_not_allowed, check_method_not_allowed.
  rewrite (bool_decide_eq_false_2 _ Hnot). run. reflexivity.
Qed.

(** X2: a request with a body whose media type the resource cannot decode
    is answered 415 once the checks before have passed; the content
    encoding and the content language are not looked at, and nothing
    after the 415 check is evaluated. *)
Theorem unsupported_media_type_answers_415 (s s1 : State) :
  Py.truthy (content_length req) = true ->
  has_header req "content-type" = true ->
  string_truthy (content_type req) = true ->
  mimetype req ∉ supported_content_types self ->
  until_request_entity self req s = (Next (), s1) ->
  process self req s =
    (inr None,
     reached (with_status codes.unsupported_media_type (resp s1))
       [Called M_content_type_supported; Checked C415 true] s1).
Proof.
  intros Hlen Hhdr Htype Hnot Hpass. unfold process, run_function.
  rewrite (process_body_from_request_entity _ _ _ _ Hpass).
  unfold from_request_entity. unfold bind at 1.
  unfold process_request_entity, check_unsupported_media_type,
    content_type_supported.
  rewrite Hlen, Hhdr, Htype, (bool_decide_eq_false_2 _ Hnot). run.
  unfold reached. now rewrite <- app_assoc.
Qed.

End Method_and_media_type.

Lemma method_not_allowed_answers_405_witness :
  @process epoch_http get_head_resource (bare_request "DELETE") fresh =
    (inr None,
     reached (with_status 405
                (with_header "Allow" (HStr "GET, HEAD") Response_new))
       [Checked C405 true] past_authorization).
Proof.
  apply (method_not_allowed_answers_405 (H := epoch_http) get_head_resource
           (bare_request "DELETE") fresh past_authorization).
  - intros Hin. vm_compute in Hin.
    apply elem_of_cons in Hin as [Hin|Hin]; [discriminate|].
    apply list_elem_of_singleton in Hin. discriminate.
  - reflexivity.
Defined.

Lemma unsupported_media_type_answers_415_witness :
  @process epoch_http store_resource (xml_body "POST" 20) fresh =
    (inr None,
     reached (with_status 415 Response_new)
       [Called M_content_type_supported; Checked C415 true]
       past_authorization).
Proof.
  apply (unsupported_media_type_answers_415 (H := epoch_http) store_resource
           (xml_body "POST" 20) fresh past_authorization);
    try reflexivity.
  intros Hin. vm_compute in Hin.
  apply list_elem_of_singleton in Hin. discriminate.
Defined.

(** ** The handler call *)

Section Halting.

Lemma emits_bind_halts {A B} (m : M A) (f : A -> M B) P :
  halts m -> emits m P -> emits (bind m f) P.
Proof.
  intros Hh Hm s res s' E.
  apply bind_inv in E as [(a & s1 & E1 & E2)|[(o & E1 & ->)|(e & E1 & ->)]].
  - exfalso. now apply (Hh _ _ _ E1 a).
  - eauto.
  - eauto.
Qed.

Lemma raises_bind_halts {A B} (m : M A) (f : A -> M B) P :
  halts m -> raises m P -> raises (bind m f) P.
Proof.
  intros Hh Hm s e s' E.
  apply bind_inv in E as [(a & s1 & E1 & E2)|[(o & E1 & [=])|(e' & E1 & [= ->])]].
  - exfalso. now apply (Hh _ _ _ E1 a).
  - eapply Hm; eauto.
Qed.

End Halting.

Ltac no_handler :=
  repeat step_body;
  try (intros; discriminate);
  try (eapply emits_mono; [|apply call_member_mute]; contradiction).

Section Handler_call.
Context `{HttpLib}.
Variables (self : Resource) (req : Request).

(** A method that is not allowed stops at the 405 check. *)
Lemma method_not_allowed_halts :
  method req ∉ allowed_methods self ->
  halts (process_method_not_allowed self req).
Proof.
  intros Hnot s res s'.
  unfold process_method_not_allowed, check_method_not_allowed.
  rewrite (bool_decide_eq_false_2 _ Hnot). run.
  intros [= <- <-] a. discriminate.
Qed.

Lemma no_handler_for_a_method_not_allowed :
  method req ∉ allowed_methods self ->
  emits (process_body self req)
    (fun e => forall name, e <> Called (M_handler name)).
Proof.
  intros Hnot. rewrite process_body_unfold.
  apply emits_bind; [|intros _].
  { unfold process_service_unavailable, check_service_unavailable.
    no_handler. }
  apply emits_bind; [|intros _].
  { unfold process_unauthorized. no_handler. }
  apply emits_bind; [|intros _].
  { unfold process_forbidden. no_handler. }
  apply emits_bind; [|intros _].
  { unfold process_too_many_requests. no_handler. }
  apply emits_bind; [|intros _].
  { rewrite process_options_unfold. no_handler. }
  apply emits_bind; [|intros _].
  { unfold process_request_entity, check_unsupported_media_type,
      unless_supported, content_type_supported,
      check_request_entity_too_large. no_handler. }
  apply emits_bind_halts; [now apply method_not_allowed_halts|].
  unfold process_method_not_allowed, check_method_not_allowed. no_handler.
Qed.

(** X10: whatever the overridden members answer, [process] calls a method
    handler only for a method the resource allows, and the handler it
    calls is the attribute named by the lower-cased request method. *)
Theorem handler_only_for_an_allowed_method (s s' : State)
    (out : Exn + Output) :
  process self req s = (out, s') ->
  exists evs,
    trace s' = trace s ++ evs
    /\ forall name, Called (M_handler name) ∈ evs ->
         name = Py.lower (method req)
         /\ method req ∈ allowed_methods self.
Proof.
  intros E. destruct (process_guarded _ _ _ _ _ E) as (evs & T & G).
  rewrite Forall_forall in G. exists evs. split; [exact T|].
  intros name Hin. split; [exact (G _ Hin)|].
  destruct (decide (method req ∈ allowed_methods self)) as [Hok|Hnot];
    [exact Hok|exfalso].
  destruct (process_emits self req _ _ _ _
              (no_handler_for_a_method_not_allowed Hnot) E)
    as (evs' & T' & N).
  rewrite T in T'. apply app_inv_head in T'. subst evs'.
  rewrite Forall_forall in N. now apply (N _ Hin name).
Qed.

End Handler_call.

Lemma handler_only_for_an_allowed_method_witness :
  Called (M_handler "put")
    ∈ events_of (H := epoch_http) conditional_store put_if_match_abc
  /\ "put" = Py.lower (method put_if_match_abc)
  /\ method put_if_match_abc ∈ allowed_methods conditional_store.
Proof.
  destruct (handler_only_for_an_allowed_method (H := epoch_http)
              conditional_store put_if_match_abc fresh _ _
              (surjective_pairing _)) as (evs & T & Hcall).
  change (events_of (H := epoch_http) conditional_store put_if_match_abc
          = evs) in T.
  rewrite T. assert (Hin : Called (M_handler "put") ∈ evs).
  { rewrite <- T. vm_compute. repeat constructor. }
  split; [exact Hin|exact (Hcall _ Hin)].
Defined.

(** ** Exceptions at request time *)

Section No_exception.
Context `{HttpLib}.
Variables (self : Resource) (req : Request).
Hypothesis allowed_handled :
  forall m, m ∈ allowed_methods self ->
            is_handler (getattr self (Py.lower m)).
Variable get : Handler.
Hypothesis get_defined : getattr self "get" = Some (Method get).

Lemma head_does_not_raise : raises (head self req) (fun _ => False).
Proof. rewrite head_unfold, get_defined. repeat step_raises. Qed.

Lemma call_member_does_not_raise name m :
  is_handler (Some m) ->
  raises (call_member self name m req) (fun _ => False).
Proof.
  rewrite call_member_unfold. destruct m; simpl; intros Hc; try contradiction.
  - apply raises_hook.
  - apply head_does_not_raise.
  - unfold options. repeat step_raises.
Qed.

Lemma process_options_does_not_raise :
  raises (process_options self req) (fun _ => False).
Proof.
  rewrite process_options_unfold.
  destruct (_ && _) eqn:G; [|apply raises_ret].
  apply andb_true_iff in G as [_ Hin]. apply bool_decide_eq_true in Hin.
  apply allowed_handled in Hin.
  change (Py.lower "OPTIONS") with "options" in Hin.
  destruct (getattr self "options") as [m|]; [|contradiction].
  repeat step_raises. now apply call_member_does_not_raise.
Qed.

Lemma process_handler_does_not_raise :
  method req ∈ allowed_methods self ->
  raises (process_handler self req) (fun _ => False).
Proof.
  intros Hin. apply allowed_handled in Hin.
  rewrite process_handler_unfold.
  destruct (getattr self (Py.lower (method req))) as [m|]; [|contradiction].
  repeat step_raises. now apply call_member_does_not_raise.
Qed.

Lemma process_body_does_not_raise :
  raises (process_body self req) (fun _ => False).
Proof.
  rewrite process_body_unfold.
  apply raises_bind; [|intros _].
  { unfold process_service_unavailable, check_service_unavailable.
    repeat step_raises. }
  apply raises_bind; [|intros _].
  { unfold process_unauthorized. repeat step_raises. }
  apply raises_bind; [|intros _].
  { unfold process_forbidden. repeat step_raises. }
  apply raises_bind; [|intros _].
  { unfold process_too_many_requests. repeat step_raises. }
  apply raises_bind; [|intros _].
  { apply process_options_does_not_raise. }
  apply raises_bind; [|intros _].
  { unfold process_request_entity, check_unsupported_media_type,
      unless_supported, content_type_supported,
      check_request_entity_too_large. repeat step_raises. }
  destruct (decide (method req ∈ allowed_methods self)) as [Hok|Hnot].
  - apply raises_bind; [|intros _].
    { unfold process_method_not_allowed, check_method_not_allowed.
      repeat step_raises. }
    apply raises_bind; [|intros _].
    { unfold process_not_acceptable, check_not_acceptable, unless_supported,
        accept_type_supported. repeat step_raises. }
    apply raises_bind; [|intros _].
    { unfold process_not_found. repeat step_raises. }
    apply raises_bind; [|intros _].
    { unfold process_gone. repeat step_raises. }
    apply raises_bind; [|intros _].
    { unfold process_precondition_required, check_precondition_required.
      repeat step_raises. }
    apply raises_bind; [|intros _].
    { unfold process_precondition_failed, check_precondition_failed.
      repeat step_raises. }
    apply raises_bind; [|intros _].
    { unfold process_conditional_get. repeat step_raises. }
    now apply process_handler_does_not_raise.
  - apply raises_bind_halts; [now apply method_not_allowed_halts|].
    unfold process_method_not_allowed, check_method_not_allowed.
    repeat step_raises.
Qed.

End No_exception.

Section No_exception_claim.
Context `{HttpLib}.

(** X11: when every allowed method of a resource resolves to a handler (a
    method the class defines, or the [head] or [options] of [Resource])
    and the class defines [get], the dispatcher raises no exception,
    whatever the request and whatever the overridden checks answer: every
    attribute it calls is there and takes the call.  (Without [get], the
    inherited [head] raises at request time; and an allowed method named
    after another callable of [Resource], such as [process], is called
    like a handler.) *)
Theorem handled_methods_never_raise (self : Resource) (get : Handler) :
  (forall m, m ∈ allowed_methods self ->
             is_handler (getattr self (Py.lower m))) ->
  getattr self "get" = Some (Method get) ->
  forall req s e s', process self req s <> (inl e, s').
Proof.
  intros Hhandled Hget req s e s'.
  unfold process, run_function.
  destruct (process_body self req s) as [[[]|o|e'] s1] eqn:E;
    try discriminate.
  exfalso.
  exact (process_body_does_not_raise self req Hhandled get Hget _ _ _ E).
Qed.

End No_exception_claim.

Lemma store_methods_handled (m : string) :
  m ∈ allowed_methods store_resource ->
  is_handler (getattr store_resource (Py.lower m)).
Proof.
  intros Hin. unfold store_resource in Hin. simpl in Hin.
  repeat (apply elem_of_cons in Hin as [->|Hin]; [exact I|]).
  now apply not_elem_of_nil in Hin.
Defined.

Lemma handled_methods_never_raise_witness :
  exists output s',
    @process epoch_http store_resource (bare_request "HEAD") fresh
    = (inr output, s').
Proof.
  destruct (@process epoch_http store_resource (bare_request "HEAD") fresh)
    as [[e|output] s'] eqn:E; [exfalso|now exists output, s'].
  apply (handled_methods_never_raise (H := epoch_http) store_resource
           (respond "{}") store_methods_handled eq_refl
           (bare_request "HEAD") fresh e s' E).
Defined.

(** ** Choosing the output type *)

Section Accept_type.
Variables (self : Resource) (req : Request).

Lemma find_first_supported (supported before after : list string) t :
  t ∈ supported ->
  (forall x, x ∈ before -> x ∉ supported) ->
  List.find (fun mime => bool_decide (mime ∈ supported))
    (before ++ t :: after) = Some t.
Proof.
  intros Ht Hbefore. induction before as [|x before IH]; simpl.
  - now rewrite (bool_decide_eq_true_2 _ Ht).
  - rewrite bool_decide_eq_false_2.
    + apply IH. intros y Hy. apply Hbefore. now apply list_elem_of_further.
    + apply Hbefore. apply list_elem_of_here.
Qed.

(** X3: the client's order decides.  When the request has an [Accept]
    header, [accept_type_supported] records the first media range of the
    client's list that is a supported type, and succeeds, whatever comes
    after it in the list. *)
Theorem first_acceptable_type_is_chosen (s : State)
    (before after : list string) (t : string) :
  has_header req "accept" = true ->
  Accept.values (accept_mimetypes req) = before ++ t :: after ->
  t ∈ supported_accept_types self ->
  (forall x, x ∈ before -> x ∉ supported_accept_types self) ->
  accept_type_supported self req s =
    (Next true, {| resp := with_accept_type t (resp s); trace := trace s |}).
Proof.
  intros Hacc Hvals Ht Hbefore. unfold accept_type_supported.
  rewrite Hacc, Hvals, (find_first_supported _ _ _ _ Ht Hbefore).
  reflexivity.
Qed.

(** X4: what negotiation leaves behind.  [accept_type_supported] always
    answers, and touches nothing but the negotiated type.  When it fails,
    the response is as it was, the request has an [Accept] header and none
    of its media ranges is supported.  When it succeeds, the type it
    records is one the resource supports, or the resource supports none and
    nothing is recorded.  Without an [Accept] header it succeeds. *)
Theorem negotiated_type_is_supported (s s' : State) (res : Res bool) :
  accept_type_supported self req s = (res, s') ->
  trace s' = trace s
  /\ exists ok,
       res = Next ok
       /\ (ok = false ->
           s' = s /\ has_header req "accept" = true
           /\ forall mime, mime ∈ Accept.values (accept_mimetypes req) ->
                           mime ∉ supported_accept_types self)
       /\ (ok = true ->
           (supported_accept_types self = [] /\ resp s' = resp s)
           \/ exists t, t ∈ supported_accept_types self
                        /\ resp s' = with_accept_type t (resp s))
       /\ (has_header req "accept" = false -> ok = true).
Proof.
  unfold accept_type_supported.
  destruct (has_header req "accept") eqn:Hacc.
  - destruct (List.find _ _) as [mime|] eqn:F.
    + intros [= <- <-]. split; [reflexivity|]. exists true.
      split; [reflexivity|]. split; [discriminate|].
      split; [|discriminate]. intros _. right. exists mime.
      apply find_some in F as [_ Hsup]. apply bool_decide_eq_true in Hsup.
      now split.
    + destruct (negb _).
      * intros [= <- <-]. split; [reflexivity|]. exists false.
        split; [reflexivity|]. split; [|split; discriminate].
        intros _. split; [reflexivity|]. split; [reflexivity|].
        intros mime Hin%list_elem_of_In Hsup.
        apply (find_none _ _ F) in Hin.
        now rewrite (bool_decide_eq_true_2 _ Hsup) in Hin.
      * destruct (supported_accept_types self) as [|first rest] eqn:S;
          intros [= <- <-]; (split; [reflexivity|]); exists true;
          (split; [reflexivity|]); (split; [discriminate|]);
          (split; [|discriminate]); intros _.
        -- left. now split.
        -- right. exists first. split; [apply list_elem_of_here|reflexivity].
  - destruct (supported_accept_types self) as [|first rest] eqn:S;
      intros [= <- <-]; (split; [reflexivity|]); exists true;
      (split; [reflexivity|]); (split; [discriminate|]);
      (split; [|reflexivity]); intros _.
    + left. now split.
    + right. exists first. split; [apply list_elem_of_here|reflexivity].
Qed.

End Accept_type.

Lemma first_acceptable_type_is_chosen_witness :
  accept_type_supported json_resource accept_html_then_json fresh =
    (Next true,
     {| resp := with_accept_type "application/json" Response_new;
        trace := [] |}).
Proof.
  apply (first_acceptable_type_is_chosen json_resource accept_html_then_json
           fresh ["text/html"] [] "application/json").
  - reflexivity.
  - reflexivity.
  - apply list_elem_of_here.
  - intros x Hx Hsup. apply list_elem_of_singleton in Hx. subst x.
    vm_compute in Hsup. apply list_elem_of_singleton in Hsup. discriminate.
Defined.

Lemma negotiated_type_is_supported_witness :
  trace (snd (accept_type_supported json_resource accept_text_plain fresh))
  = trace fresh
  /\ exists ok,
       fst (accept_type_supported json_resource accept_text_plain fresh)
       = Next ok.
Proof.
  destruct (negotiated_type_is_supported json_resource accept_text_plain
              fresh _ _ (surjective_pairing _)) as (T & ok & E & _).
  split; [exact T|]. exists ok. exact E.
Defined.

(** ** Conditional PUT and PATCH, the other cases *)

Section Conditional_put_more.
Context `{HttpLib}.
Variables (self : Resource) (req : Request).

Lemma conditional_put_stage s s1 :
  method req = methods.put \/ method req = methods.patch ->
  until_preconditions self req s = (Next (), s1) ->
  process self req s =
    run_function
      (process_precondition_required self req ;;
       process_precondition_failed self req ;;
       process_handler self req) s1.
Proof.
  intros Hm Hpass. unfold process, run_function.
  rewrite (process_body_from_preconditions _ _ _ _ Hpass).
  unfold from_preconditions, process_conditional_get.
  rewrite (put_is_not_get _ Hm). unfold bind.
  destruct (process_precondition_required self req s1) as [[[]| |] s2];
    reflexivity.
Qed.

(** X12: [require_conditional_request] takes effect only together with a
    validator.  On a resource that uses neither entity tags nor
    modification times, a PUT or PATCH that has passed the checks before
    reaches its handler whatever headers it has: the 428 and 412 checks
    pass, and the entity tag and modification time are not computed. *)
Theorem requiring_conditions_needs_a_validator (s s1 : State) :
  method req = methods.put \/ method req = methods.patch ->
  use_etags self = false ->
  use_last_modified self = false ->
  until_preconditions self req s = (Next (), s1) ->
  process self req s =
    run_function (process_handler self req)
      (reached (resp s1)
         ((if require_conditional_request self
           then [Checked C428 false] else [])
          ++ [Checked C412 false]) s1).
Proof.
  intros Hm Hetag Hlm Hpass. rewrite (conditional_put_stage _ _ Hm Hpass).
  unfold process_precondition_required, process_precondition_failed,
    check_precondition_required, check_precondition_failed.
  rewrite (put_is_put _ Hm), Hetag, Hlm.
  unfold run_function, reached. destruct s1 as [r1 t1]. cbn [resp trace andb].
  destruct (require_conditional_request self); run;
    rewrite <- ?app_assoc; reflexivity.
Qed.

(** X13: conditions are optional unless required.  On a resource without
    [require_conditional_request], a PUT or PATCH that has neither
    [If-Match] nor [If-Unmodified-Since] reaches its handler, whether or
    not the resource uses entity tags or modification times; neither is
    computed. *)
Theorem unconditional_put_is_handled (s s1 : State) :
  method req = methods.put \/ method req = methods.patch ->
  require_conditional_request self = false ->
  headers req !! "if-match" = None ->
  headers req !! "if-unmodified-since" = None ->
  until_preconditions self req s = (Next (), s1) ->
  process self req s =
    run_function (process_handler self req)
      (reached (resp s1) [Checked C412 false] s1).
Proof.
  intros Hm Hreq Hmatch Hsince Hpass.
  rewrite (conditional_put_stage _ _ Hm Hpass).
  unfold process_precondition_required, process_precondition_failed,
    check_precondition_failed.
  rewrite (put_is_put _ Hm), Hreq,
    (has_header_None _ _ Hmatch), (has_header_None _ _ Hsince).
  rewrite !andb_false_r.
  unfold run_function, reached. destruct s1 as [r1 t1]. cbn [resp trace].
  run. reflexivity.
Qed.

(** X14: the conditional PUT of a resource that uses modification times
    and no entity tags.  With [require_conditional_request], a request
    without [If-Unmodified-Since] is answered 428, the body naming that
    header.  An [If-Unmodified-Since] that differs, as a string, from the
    HTTP-date of the current modification time is answered 412 and no
    handler is called; one that equals it reaches the handler. *)
Theorem conditional_put_by_date (s s1 : State) :
  method req = methods.put \/ method req = methods.patch ->
  use_etags self = false ->
  use_last_modified self = true ->
  until_preconditions self req s = (Next (), s1) ->
  (require_conditional_request self = true ->
   headers req !! "if-unmodified-since" = None ->
   process self req s =
     (inr None,
      reached (precondition_required "If-Unmodified-Since" (resp s1))
        [Checked C428 true] s1))
  /\ (forall date,
        headers req !! "if-unmodified-since" = Some date ->
        date <> http_date (get_last_modified self req) ->
        process self req s =
          (inr None,
           reached (with_status codes.precondition_failed (resp s1))
             ((if require_conditional_request self
               then [Checked C428 false] else [])
              ++ [Called M_get_last_modified; Checked C412 true]) s1))
  /\ (forall date,
        headers req !! "if-unmodified-since" = Some date ->
        date = http_date (get_last_modified self req) ->
        process self req s =
          run_function (process_handler self req)
            (reached (resp s1)
               ((if require_conditional_request self
                 then [Checked C428 false] else [])
                ++ [Called M_get_last_modified; Checked C412 false]) s1)).
Proof.
  intros Hm Hetag Hlm Hpass. rewrite (conditional_put_stage _ _ Hm Hpass).
  unfold process_precondition_required, process_precondition_failed,
    check_precondition_required, check_precondition_failed.
  rewrite (put_is_put _ Hm), Hetag, Hlm.
  unfold run_function, reached, precondition_required.
  destruct s1 as [r1 t1]. cbn [resp trace andb].
  split; [|split].
  - intros Hreq Hsince. rewrite Hreq, (has_header_None _ _ Hsince).
    run. reflexivity.
  - intros date Hsince Hdiff. rewrite (has_header_Some _ _ _ Hsince).
    destruct (require_conditional_request self); run;
      rewrite (header_is_Some _ _ _ _ Hsince);
      (rewrite bool_decide_eq_false_2 by congruence); run;
      rewrite <- ?app_assoc; reflexivity.
  - intros date Hsince ->. rewrite (has_header_Some _ _ _ Hsince).
    destruct (require_conditional_request self); run;
      rewrite (header_is_Some _ _ _ _ Hsince);
      rewrite (bool_decide_eq_true_2 _ eq_refl); run;
      rewrite <- ?app_assoc; reflexivity.
Qed.

End Conditional_put_more.

Lemma requiring_conditions_needs_a_validator_witness :
  @process epoch_http requiring_store (request_with "PUT" ∅) fresh =
    run_function (@process_handler epoch_http requiring_store (request_with "PUT" ∅))
      (reached (resp past_gates)
         [Checked C428 false; Checked C412 false] past_gates).
Proof.
  apply (requiring_conditions_needs_a_validator (H := epoch_http)
           requiring_store (request_with "PUT" ∅) fresh past_gates);
    try reflexivity.
  left. reflexivity.
Defined.

Lemma unconditional_put_is_handled_witness :
  @process epoch_http tagged_store (request_with "PUT" ∅) fresh =
    run_function (@process_handler epoch_http tagged_store (request_with "PUT" ∅))
      (reached (resp past_gates) [Checked C412 false] past_gates).
Proof.
  apply (unconditional_put_is_handled (H := epoch_http)
           tagged_store (request_with "PUT" ∅) fresh past_gates);
    try reflexivity.
  left. reflexivity.
Defined.

Lemma conditional_put_by_date_witness :
  @process epoch_http dated_store put_if_unmodified_since_epoch fresh =
    run_function (@process_handler epoch_http dated_store put_if_unmodified_since_epoch)
      (reached (resp past_gates)
         [Checked C428 false; Called M_get_last_modified; Checked C412 false]
         past_gates).
Proof.
  destruct (conditional_put_by_date (H := epoch_http) dated_store
              put_if_unmodified_since_epoch fresh past_gates
              (or_introl eq_refl) eq_refl eq_refl eq_refl)
    as (_ & _ & Hequal).
  apply (Hequal epoch); reflexivity.
Defined.

(** ** The handlers *)

Section Handlers.
Context `{HttpLib}.
Variables (self : Resource) (req : Request).

(** X15: HEAD is GET without the body.  A HEAD request without
    conditional headers that has passed the checks, on a resource that
    keeps the [head] of the base class and defines [get], is answered by
    running [get] on the same request and response: the status and the
    headers are those [get] leaves, the body is emptied and the output of
    [get] is dropped. *)
Theorem head_is_get_without_body (s s1 : State) (get : Handler) :
  method req = methods.head ->
  members self !! "head" = None ->
  getattr self "get" = Some (Method get) ->
  headers req !! "if-none-match" = None ->
  headers req !! "if-modified-since" = None ->
  until_preconditions self req s = (Next (), s1) ->
  process self req s =
    (inr None,
     reached (with_data EmptyString (snd (get req (resp s1))))
       [Called (M_handler "head")] s1).
Proof.
  intros Hm Hhead Hget Hnone Hsince Hpass.
  rewrite (conditional_get_run self req s s1 (or_intror Hm) Hpass).
  rewrite (has_header_None _ _ Hnone), (has_header_None _ _ Hsince).
  rewrite !andb_false_r. cbn [andb app].
  unfold run_function. rewrite process_handler_unfold, Hm.
  change (Py.lower methods.head) with "head".
  rewrite (getattr_inherited _ _ Hhead).
  change (Resource_attribute "head") with (Some Default_head).
  cbv beta iota. rewrite call_member_unfold. cbv beta iota.
  rewrite head_unfold, Hget.
  unfold reached. run. unfold hook. cbn [resp trace].
  destruct (get req (resp s1)) as [output r']. cbn [snd].
  now rewrite app_nil_r.
Qed.

(** X16: the methods without conditions.  For a request whose method is
    none of GET, HEAD, PUT and PATCH and that has passed the checks, no
    conditional check is evaluated: [process] calls the method's handler
    and returns its output, and [__call__] makes that output the body of
    the response unless it is [None]. *)
Theorem other_methods_go_to_the_handler (s s1 : State) (h : Handler) :
  method req <> methods.get -> method req <> methods.head ->
  method req <> methods.put -> method req <> methods.patch ->
  getattr self (Py.lower (method req)) = Some (Method h) ->
  until_preconditions self req s = (Next (), s1) ->
  process self req s =
    (inr (fst (h req (resp s1))),
     reached (snd (h req (resp s1)))
       [Called (M_handler (Py.lower (method req)))] s1)
  /\ (s = fresh ->
      __call__ self req =
        inr match fst (h req (resp s1)) with
            | Some output => with_data output (snd (h req (resp s1)))
            | None => snd (h req (resp s1))
            end).
Proof.
  intros Hget Hhead Hput Hpatch Hh Hpass.
  assert (Hrun : process self req s =
    (inr (fst (h req (resp s1))),
     reached (snd (h req (resp s1)))
       [Called (M_handler (Py.lower (method req)))] s1)).
  { unfold process, run_function.
    rewrite (process_body_from_preconditions _ _ _ _ Hpass).
    unfold from_preconditions, process_precondition_required,
      process_precondition_failed, process_conditional_get, is_method.
    rewrite !bool_decide_eq_false_2 by assumption.
    rewrite process_handler_unfold, Hh. cbv beta iota.
    rewrite call_member_unfold.
    unfold reached, hook. destruct s1 as [r1 t1].
    destruct (require_conditional_request self); run;
      destruct (h req r1) as [output r']; reflexivity. }
  split; [exact Hrun|]. intros ->. unfold __call__. cbv zeta.
  unfold fresh in Hrun. rewrite Hrun.
  now destruct (fst (h req (resp s1))).
Qed.

End Handlers.

Lemma head_is_get_without_body_witness :
  @process epoch_http store_resource (bare_request "HEAD") fresh =
    (inr None,
     reached (with_data EmptyString (resp past_gates))
       [Called (M_handler "head")] past_gates).
Proof.
  apply (head_is_get_without_body (H := epoch_http) store_resource
           (bare_request "HEAD") fresh past_gates (respond "{}"));
    reflexivity.
Defined.

Lemma other_methods_go_to_the_handler_witness :
  @__call__ epoch_http store_resource (bare_request "POST")
  = inr (with_data "created" (resp past_gates)).
Proof.
  destruct (other_methods_go_to_the_handler (H := epoch_http) store_resource
              (bare_request "POST") fresh past_gates (respond "created")
              ltac:(discriminate) ltac:(discriminate)
              ltac:(discriminate) ltac:(discriminate) eq_refl eq_refl)
    as [_ Hcall].
  exact (Hcall eq_refl).
Defined.

(** ** The metaclass, the implicit branch *)

Section Implicit_methods.
Import ResourceMetaclass.

Lemma filter_sublist {A} (f : A -> bool) (l : list A) :
  List.filter f l `sublist_of` l.
Proof.
  induction l as [|x l IH]; simpl; [constructor|].
  destruct (f x); now constructor.
Qed.

Lemma remove_sublist (x : string) (l : list string) :
  Py.remove x l `sublist_of` l.
Proof.
  induction l as [|y l IH]; simpl; [constructor|].
  case_bool_decide; [now apply sublist_cons|now apply sublist_skip].
Qed.

Lemma remove_head_sublist (l : list string) : remove_head l `sublist_of` l.
Proof.
  unfold remove_head. destruct (_ && _); [apply remove_sublist|reflexivity].
Qed.

Lemma elem_of_remove_NoDup (x y : string) (l : list string) :
  NoDup l -> y ∈ Py.remove x l <-> y ∈ l /\ y <> x.
Proof.
  intros Hnd. split.
  - intros Hin. split; [now apply PyFacts.elem_of_remove_subseteq in Hin|].
    intros ->. now apply (PyFacts.not_elem_of_remove_NoDup x l Hnd).
  - intros [Hin Hne]. now apply PyFacts.elem_of_remove_ne.
Qed.

Lemma elem_of_implicit_methods methods cls m :
  m ∈ implicit_methods methods cls <->
  m ∈ methods /\ usable cls (Py.lower m) = true.
Proof.
  unfold implicit_methods. now rewrite list_elem_of_In, filter_In,
    <- list_elem_of_In.
Qed.

(** X17: the allowed methods of a class that does not declare them (or
    declares an empty list).  The metaclass never refuses such a class.
    Given an iterable of methods without duplicates, the class allows
    exactly the methods of the iterable for which it has a callable
    attribute, in the order of the iterable, except that [HEAD] is allowed
    only if [GET] is; what a parent class allowed plays no part. *)
Theorem implicit_allowed_methods (methods : list string) (in_attrs : bool)
    (new_cls : Resource) :
  in_attrs = false \/ allowed_methods new_cls = [] ->
  NoDup methods ->
  exists cls,
    __new__ methods in_attrs new_cls = inr cls
    /\ allowed_methods cls `sublist_of` methods
    /\ forall m,
         m ∈ allowed_methods cls <->
         m ∈ methods
         /\ usable new_cls (Py.lower m) = true
         /\ (m = "HEAD" ->
             "GET" ∈ methods /\ usable new_cls "get" = true).
Proof.
  intros Himplicit Hnd.
  assert (Hcond : negb in_attrs
                  || bool_decide (allowed_methods new_cls = []) = true).
  { destruct Himplicit as [-> | ->]; [reflexivity|apply orb_true_r]. }
  unfold __new__. rewrite Hcond. eexists. split; [reflexivity|]. simpl.
  split.
  { etransitivity; [apply remove_head_sublist|apply filter_sublist]. }
  assert (Hnd' : NoDup (implicit_methods methods new_cls)).
  { unfold implicit_methods. apply NoDup_ListNoDup, List.NoDup_filter.
    now apply NoDup_ListNoDup. }
  assert (Hget : "GET" ∈ implicit_methods methods new_cls <->
                 "GET" ∈ methods /\ usable new_cls "get" = true).
  { apply elem_of_implicit_methods. }
  intros m. unfold remove_head.
  destruct (bool_decide ("GET" ∈ implicit_methods methods new_cls)) eqn:G;
    simpl.
  - apply bool_decide_eq_true in G. rewrite elem_of_implicit_methods.
    apply Hget in G. tauto.
  - apply bool_decide_eq_false in G.
    destruct (bool_decide ("HEAD" ∈ implicit_methods methods new_cls)) eqn:Hd.
    + rewrite (elem_of_remove_NoDup _ _ _ Hnd'), elem_of_implicit_methods.
      split.
      * intros [[Hin Hus] Hne]. split; [exact Hin|]. split; [exact Hus|].
        intros ->. congruence.
      * intros (Hin & Hus & Hhead). split; [now split|].
        intros ->. apply G, Hget. now apply Hhead.
    + apply bool_decide_eq_false in Hd. rewrite elem_of_implicit_methods.
      split.
      * intros [Hin Hus]. split; [exact Hin|]. split; [exact Hus|].
        intros ->. exfalso. apply Hd, elem_of_implicit_methods. now split.
      * tauto.
Qed.

End Implicit_methods.

Lemma http_methods_NoDup : NoDup http_methods.
Proof. apply (bool_decide_unpack _). vm_compute. exact I. Defined.

Lemma implicit_allowed_methods_witness :
  exists cls,
    ResourceMetaclass.__new__ http_methods false
      (with_members ∅ Resource_body) = inr cls
    /\ allowed_methods cls `sublist_of` http_methods
    /\ forall m,
         m ∈ allowed_methods cls <->
         m ∈ http_methods
         /\ usable (with_members ∅ Resource_body) (Py.lower m) = true
         /\ (m = "HEAD" ->
             "GET" ∈ http_methods
             /\ usable (with_members ∅ Resource_body) "get" = true).
Proof.
  apply (implicit_allowed_methods http_methods false
           (with_members ∅ Resource_body)).
  - left. reflexivity.
  - exact http_methods_NoDup.
Defined.

(** The base class itself comes out allowing OPTIONS only. *)
Example base_class_allows_options_only :
  allowed_methods <$> (match ResourceMetaclass.__new__ http_methods true
                               Resource_body with
                       | inr cls => Some cls
                       | inl _ => None
                       end)
  = Some ["OPTIONS"].
Proof. reflexivity. Qed.

(** X18: HEAD rests on GET.  When neither the iterable of methods nor the
    declared list names a method twice, a class the metaclass makes allows
    [HEAD] only beside [GET], and it then has callable [get] and [head]
    members, so that the default [head], which calls [self.get], finds
    it. *)
Theorem head_is_allowed_only_with_get (methods : list string)
    (in_attrs : bool) (new_cls cls : Resource) :
  NoDup methods -> NoDup (allowed_methods new_cls) ->
  ResourceMetaclass.__new__ methods in_attrs new_cls = inr cls ->
  "HEAD" ∈ allowed_methods cls ->
  "GET" ∈ allowed_methods cls
  /\ usable cls "get" = true
  /\ usable cls "head" = true.
Proof.
  intros Hmethods Hdeclared Hnew Hhead.
  pose proof (MetaclassFacts.new_head_requires_get _ _ _ _ Hmethods
                Hdeclared Hnew Hhead) as Hget.
  pose proof (MetaclassFacts.new_allowed_usable _ _ _ _ Hnew) as Hall.
  split; [exact Hget|]. split.
  - exact (Hall "GET" Hget).
  - exact (Hall "HEAD" Hhead).
Qed.

Lemma head_is_allowed_only_with_get_witness :
  "GET" ∈ allowed_methods store_resource
  /\ usable store_resource "get" = true
  /\ usable store_resource "head" = true.
Proof.
  apply (head_is_allowed_only_with_get http_methods false
           store_class store_resource).
  - exact http_methods_NoDup.
  - apply NoDup_nil_2.
  - reflexivity.
  - repeat constructor.
Defined.

(** ** A plain request *)

Section Plain_request.
Context `{HttpLib}.
Variables (self : Resource) (req : Request).

(** X19: what the base class does with a plain request.  On an available
    resource that keeps the status checks of the base class, a request
    without body and without [Accept] headers, whose method is allowed and
    is not OPTIONS, passes the first ten blocks of [process]; they leave
    the status, the headers and the body alone and record the first
    supported type as the output type. *)
Theorem plain_request_passes_the_checks (s : State) :
  keeps_base_checks self ->
  unavailable_truthy (unavailable self) = false ->
  Py.truthy (content_length req) = false ->
  method req ∈ allowed_methods self ->
  method req <> methods.options ->
  headers req !! "accept" = None ->
  headers req !! "accept-language" = None ->
  headers req !! "accept-charset" = None ->
  headers req !! "accept-encoding" = None ->
  until_preconditions self req s =
    (Next (),
     reached
       match supported_accept_types self with
       | first :: _ => with_accept_type first (resp s)
       | [] => resp s
       end
       ([Checked C503 false; Checked C401 false; Checked C403 false]
        ++ (if Py.truthy (rate_limit_count self)
               && Py.truthy (rate_limit_seconds self)
            then [Checked C429 false] else [])
        ++ [Checked C405 false; Called M_accept_type_supported;
            Checked C406 false; Checked C404 false; Checked C410 false])
       s).
Proof.
  intros (H401 & H403 & H429 & H404 & H410) Havail Hlen Hallowed Hopt
    Hacc Hlang Hchar Henc.
  unfold until_preconditions, until_request_entity, until_options,
    process_service_unavailable, process_unauthorized, process_forbidden,
    process_too_many_requests, process_options, process_options_in,
    process_request_entity,
    process_method_not_allowed, process_not_acceptable, process_not_found,
    process_gone, check_service_unavailable, check_method_not_allowed,
    check_not_acceptable, accept_type_supported, unless_supported, is_method.
  rewrite H401, H403, H429, H404, H410, Havail, Hlen,
    (bool_decide_eq_true_2 _ Hallowed), (bool_decide_eq_false_2 _ Hopt),
    (has_header_None _ _ Hacc), (has_header_None _ _ Hlang),
    (has_header_None _ _ Hchar), (has_header_None _ _ Henc).
  unfold reached, hook, answer. destruct s as [r t].
  destruct (Py.truthy (rate_limit_count self)
            && Py.truthy (rate_limit_seconds self)),
    (supported_accept_types self); run; cbn [app];
    rewrite <- ?app_assoc; reflexivity.
Qed.

End Plain_request.

Lemma store_keeps_base_checks : keeps_base_checks store_resource.
Proof. repeat split. Defined.

Lemma plain_request_passes_the_checks_witness :
  @until_preconditions epoch_http store_resource (bare_request "GET") fresh
  = (Next (), past_gates).
Proof.
  apply (plain_request_passes_the_checks (H := epoch_http) store_resource
           (bare_request "GET") fresh);
    try reflexivity; try discriminate.
  - exact store_keeps_base_checks.
  - repeat constructor.
Defined.
